(** * network_diagnostics: a shallow embedding of [diagnostics.py]

    The development follows the Python module class by class:
    [RTTData] (incremental latency statistics), [Traceroute] (hop table
    rendering), [SpeedTest] (the two batteries) and [Diagnostics] (the
    watchdog, its setters and the escalation loop run on an interruption).

    Python [float] is IEEE 754 binary64 and is embedded as Rocq's primitive
    [float]; Python [int] is unbounded and is embedded as [Z]; [None]-able
    attributes are [option]s; a raised exception is the [Raise] case of
    [result]. *)

From Stdlib Require Import ZArith List String Ascii Bool Lia.
From Stdlib Require Import DecimalString DecimalPos DecimalZ FinFun.
From Stdlib Require Import RelationClasses OrdersEx Sorted Permutation.
From Stdlib Require Import PrimFloat FloatOps SpecFloat.
Import ListNotations.

Open Scope Z_scope.

(** ** Python values and exceptions *)

Inductive exn : Type :=
| ValueError
| TypeError
| ZeroDivisionError
| OSError.

Inductive result (A : Type) : Type :=
| Ok (a : A)
| Raise (e : exn).

Arguments Ok {A} a.
Arguments Raise {A} e.

Definition bind {A B : Type} (m : result A) (k : A -> result B) : result B :=
  match m with
  | Ok a => k a
  | Raise e => Raise e
  end.

Notation "x <- m ;; k" := (bind m (fun x => k))
  (at level 61, m at next level, right associativity).

(** Reading an attribute that must hold a number: arithmetic or comparison
    on [None] raises [TypeError]. *)
Definition number (v : option float) : result float :=
  match v with
  | Some x => Ok x
  | None => Raise TypeError
  end.

(** [float(n)] for an [int] [n], also the implicit conversion of an [int]
    operand in mixed arithmetic: the nearest binary64 (ties to even).
    Beyond the binary64 range Python raises [OverflowError]; the counters
    converted here are packet counts. *)
Definition float_of_int (n : Z) : float :=
  SF2Prim (binary_normalize prec emax n 0 false).

(** [a / b] for two [int]s with [b <> 0].  Python rounds the exact quotient
    once; for operands below [2^53], which convert exactly, that is the
    binary64 quotient of the conversions. *)
Definition int_truediv (a b : Z) : float :=
  (float_of_int a / float_of_int b)%float.

(** ** RTTData *)

Module RTTData.

Record t : Type := mk {
  host : string;
  initial_data : bool;
  last : option float;
  average : option float;
  minimum : option float;
  maximum : option float;
  jitter : option float;
  sent : Z;
  received : Z
}.

(** [RTTData.__init__] *)
Definition init (h : string) : t :=
  mk h false None None None None None 0 0.

(** The [lost] property. *)
Definition lost (r : t) : Z := sent r - received r.

(** The [loss] property. *)
Definition loss (r : t) : float :=
  if sent r =? 0 then 0%float
  else (1 - int_truediv (received r) (sent r))%float.

(** [RTTData.update].  A probe passes the round-trip time as a [float], on
    which [float(latency)] is the identity.  Both counters are incremented
    before the statistics are touched, so every later read of [_sent] sees
    the incremented value. *)
Definition update (r : t) (latency : option float) : result t :=
  match latency with
  | None =>
      Ok (mk (host r) (initial_data r) (last r) (average r) (minimum r)
             (maximum r) (jitter r) (sent r + 1) (received r))
  | Some latency =>
      let sent' := sent r + 1 in
      let received' := received r + 1 in
      if negb (initial_data r) then
        Ok (mk (host r) true (Some latency) (Some latency) (Some latency)
               (Some latency) (Some 0%float) sent' received')
      else
        avg <- number (average r) ;;
        let average' :=
          ((float_of_int sent' * avg + latency)
           / float_of_int (sent' + 1))%float in
        mn <- number (minimum r) ;;
        let minimum' := if (latency <? mn)%float then latency else mn in
        mx <- number (maximum r) ;;
        let maximum' := if (mx <? latency)%float then latency else mx in
        lst <- number (last r) ;;
        let last_jitter := abs (latency - lst)%float in
        jit <- number (jitter r) ;;
        let jitter' :=
          ((float_of_int sent' * jit + last_jitter)
           / float_of_int (sent' + 1))%float in
        Ok (mk (host r) true (Some latency) (Some average') (Some minimum')
               (Some maximum') (Some jitter') sent' received')
  end.

(** A sequence of [update] calls on one accumulator, oldest first. *)
Fixpoint updates (r : t) (calls : list (option float)) : result t :=
  match calls with
  | [] => Ok r
  | c :: calls' => r' <- update r c ;; updates r' calls'
  end.

(** The accumulator after each call of a sequence: the states an observer
    of the update callback sees, oldest first. *)
Fixpoint history (r : t) (calls : list (option float)) : result (list t) :=
  match calls with
  | [] => Ok []
  | c :: calls' =>
      r' <- update r c ;;
      rest <- history r' calls' ;;
      Ok (r' :: rest)
  end.

(** The statistics are either all absent (no reply yet) or all present. *)
Definition populated (r : t) : Prop :=
  if initial_data r
  then (exists l a mn mx j,
          last r = Some l /\ average r = Some a /\ minimum r = Some mn
          /\ maximum r = Some mx /\ jitter r = Some j)
  else (last r = None /\ average r = None /\ minimum r = None
        /\ maximum r = None /\ jitter r = None).

(** The running-mean weighting as the specification words it: the old
    value weighted by the counter as it was before this call. *)
Definition spec_running_mean (sent_before : Z) (old sample : float) : float :=
  ((float_of_int sent_before * old + sample)
   / float_of_int (sent_before + 1))%float.

End RTTData.

(** ** Text formatting

    The pieces of Python's format mini-language that the report lines use:
    [str] of an [int], the alignments [<w] and [>w], and the fixed-point
    presentation [.pf] of a [float]. *)

Definition newline : string := String "010" EmptyString.

Definition str_of_int (n : Z) : string := NilZero.string_of_int (Z.to_int n).

Fixpoint spaces (n : nat) : string :=
  match n with
  | O => EmptyString
  | S n' => String " " (spaces n')
  end.

(** [f'{s:<w}']: pad on the right up to width [w], never truncate. *)
Definition ljust (w : nat) (s : string) : string :=
  (s ++ spaces (w - String.length s))%string.

(** [f'{s:>w}']: pad on the left up to width [w], never truncate. *)
Definition rjust (w : nat) (s : string) : string :=
  (spaces (w - String.length s) ++ s)%string.

Fixpoint zeros (n : nat) : string :=
  match n with
  | O => EmptyString
  | S n' => String "0" (zeros n')
  end.

(** The integer nearest to [num / den] for [den > 0], ties to even. *)
Definition round_half_even (num den : Z) : Z :=
  let q := num / den in
  let r := num mod den in
  if 2 * r <? den then q
  else if den <? 2 * r then q + 1
  else if Z.even q then q else q + 1.

(** [n / 10^p] written with exactly [p] decimals, for [n >= 0]. *)
Definition fixed_point (p : nat) (n : Z) : string :=
  let unit := 10 ^ Z.of_nat p in
  let whole := str_of_int (n / unit) in
  match p with
  | O => whole
  | S _ =>
      let frac := str_of_int (n mod unit) in
      (whole ++ "." ++ zeros (p - String.length frac) ++ frac)%string
  end.

Definition sign_prefix (negative : bool) : string :=
  if negative then "-"%string else EmptyString.

(** [f'{x:.pf}']: the exact binary value rounded to [p] decimals, ties to
    even. *)
Definition format_f (p : nat) (x : float) : string :=
  match Prim2SF x with
  | S754_nan => "nan"%string
  | S754_infinity s => (sign_prefix s ++ "inf")%string
  | S754_zero s => (sign_prefix s ++ fixed_point p 0)%string
  | S754_finite s m e =>
      let scaled := Zpos m * 10 ^ Z.of_nat p in
      let n := if 0 <=? e then scaled * 2 ^ e
               else round_half_even scaled (2 ^ (- e)) in
      (sign_prefix s ++ fixed_point p n)%string
  end.

(** [f'{v}'] for a value that is a [str] or [None]. *)
Definition py_str (v : option string) : string :=
  match v with
  | Some s => s
  | None => "None"%string
  end.

(** [range(a, b)] *)
Definition range (a b : Z) : list Z :=
  map (fun k => a + Z.of_nat k) (seq 0 (Z.to_nat (b - a))).

(** ** Traceroute *)

(** A hop as [icmplib.traceroute] returns it; the attributes are the ones
    [Traceroute.format] reads. *)
Module Hop.

Record t : Type := mk {
  distance : Z;
  address : string;
  avg_rtt : float;
  min_rtt : float;
  max_rtt : float;
  jitter : float;
  packets_sent : Z;
  packets_received : Z
}.

End Hop.

Module Traceroute.

Record t : Type := mk {
  host : option string;
  count : Z;
  interval : float;
  timeout : float;
  max_hops : Z;
  fast : bool;
  hops : option (list Hop.t)
}.

(** [Traceroute.__init__] with its defaults. *)
Definition init (h : option string) : t := mk h 2 0 2 30 false None.

Definition host_line (tr : t) : string := ("Host: " ++ py_str (host tr))%string.

Definition column_line : string :=
  "Hop Host            Avg     Min     Max     Jitter  Sent Recv Loss".

(** The row written for a distance no hop answered from. *)
Definition placeholder_line (i : Z) : string :=
  (ljust 2 (str_of_int i)
   ++ "  *               -       -       -       -       -    -    100.0%")%string.

(** [(1 - hop.packets_received / hop.packets_sent) * 100] *)
Definition loss_percent (hop : Hop.t) : result float :=
  if Hop.packets_sent hop =? 0 then Raise ZeroDivisionError
  else Ok ((1 - int_truediv (Hop.packets_received hop) (Hop.packets_sent hop))
           * float_of_int 100)%float.

(** The row written for a hop that answered. *)
Definition hop_line (hop : Hop.t) : result string :=
  lp <- loss_percent hop ;;
  Ok (ljust 2 (str_of_int (Hop.distance hop)) ++ "  "
      ++ ljust 15 (Hop.address hop) ++ " "
      ++ ljust 7 (format_f 3 (Hop.avg_rtt hop)) ++ " "
      ++ ljust 7 (format_f 3 (Hop.min_rtt hop)) ++ " "
      ++ ljust 7 (format_f 3 (Hop.max_rtt hop)) ++ " "
      ++ ljust 7 (format_f 3 (Hop.jitter hop)) ++ " "
      ++ ljust 4 (str_of_int (Hop.packets_sent hop)) ++ " "
      ++ ljust 4 (str_of_int (Hop.packets_received hop)) ++ " "
      ++ rjust 5 (format_f 1 lp) ++ "%")%string.

(** One pass of the [for hop in self._hops] body; the loop state is
    [last_distance] and the [lines] written so far. *)
Definition format_hop (st : Z * list string) (hop : Hop.t)
  : result (Z * list string) :=
  let '(last_distance, lines) := st in
  let lines :=
    lines ++ map placeholder_line (range (last_distance + 1) (Hop.distance hop)) in
  let last_distance := Hop.distance hop in
  line <- hop_line hop ;;
  Ok (last_distance, lines ++ [line]).

Fixpoint format_hops (st : Z * list string) (hs : list Hop.t)
  : result (Z * list string) :=
  match hs with
  | [] => Ok st
  | hop :: hs' => st' <- format_hop st hop ;; format_hops st' hs'
  end.

(** The [lines] list of [Traceroute.format] just before it is joined. *)
Definition format_lines (tr : t) : result (list string) :=
  match hops tr with
  | None => Raise ValueError
  | Some hs =>
      st <- format_hops (0, [host_line tr; column_line]) hs ;;
      Ok (snd st)
  end.

(** [Traceroute.format] *)
Definition format (tr : t) : result string :=
  lines <- format_lines tr ;;
  Ok (String.concat newline lines).

(** Hop distances strictly increasing and above [last]. *)
Fixpoint ascending (last : Z) (hs : list Hop.t) : Prop :=
  match hs with
  | [] => True
  | hop :: hs' => last < Hop.distance hop /\ ascending (Hop.distance hop) hs'
  end.

(** The largest distance among the hops, [0] when there is none. *)
Definition max_distance (hs : list Hop.t) : Z :=
  fold_right (fun hop m => Z.max (Hop.distance hop) m) 0 hs.

End Traceroute.

(** ** SpeedTest *)

Module SpeedTest.

Inductive TestType : Type := Down | Up.

(** [cfspeedtest.TestSpec(size, iterations, name, type)] *)
Record TestSpec : Type := spec {
  size : Z;
  iterations : Z;
  name : string;
  type : TestType
}.

Definition LATENCY_TEST : TestSpec := spec 1 20 "latency" Down.

Definition SHORT_TESTS : list TestSpec :=
  [ LATENCY_TEST;
    spec 5000000 4 "20MB" Down;
    spec 2500000 4 "10MB" Up ].

Definition LONG_TESTS : list TestSpec :=
  [ LATENCY_TEST;
    spec 25000000 4 "100MB" Down;
    spec 5000000 4 "20MB" Up ].

(** The [results] dictionary of a finished run: the measured value of each
    sub-test and the location code. *)
Record Results : Type := mk_results {
  tests_values : list (string * float);
  colo : string
}.

Record t : Type := mk {
  tests : list TestSpec;
  timeout : float * float;
  results : option Results
}.

(** [SpeedTest.__init__] with its default timeouts. *)
Definition init (ts : list TestSpec) : t := mk ts (10%float, 10%float) None.

End SpeedTest.

(** ** ICMPTest *)

Module ICMPTest.

(** [ICMPTest._update]: the sample is recorded first, then the observer
    gets the accumulator and [lost = current_rtt is None]. *)
Definition update_ {S : Type} (on_update : S -> RTTData.t -> bool -> result S)
    (observer : S) (rtt_data : RTTData.t) (current_rtt : option float)
  : result (RTTData.t * S) :=
  rtt_data' <- RTTData.update rtt_data current_rtt ;;
  observer' <- on_update observer rtt_data'
                 (match current_rtt with None => true | Some _ => false end) ;;
  Ok (rtt_data', observer').

End ICMPTest.

(** ** The world a [Diagnostics] object acts on

    What [Diagnostics.start] and [Diagnostics.stop] touch outside the
    object: the clock, the diagnostics directory tree, the firewall rules,
    session logging and the threads; together with the external calls that
    raise in this run. *)

Module World.

Record t : Type := mk {
  clock : string;
  directories : list string;
  firewall_rules : bool;
  session_logging : list string;
  alive : list nat;
  next_thread : nat;
  exists_raises : option exn;
  create_firewall_rules_raises : option exn;
  mkdir_raises : option exn;
  setup_logging_raises : option exn;
  start_logging_raises : option exn
}.

Definition path_exists (w : t) (path : string) : bool :=
  existsb (String.eqb path) (directories w).

(** [thread and thread.is_alive()] *)
Definition is_alive (w : t) (thread : option nat) : bool :=
  match thread with
  | Some tid => existsb (Nat.eqb tid) (alive w)
  | None => false
  end.

Definition set_firewall_rules (v : bool) (w : t) : t :=
  mk (clock w) (directories w) v (session_logging w) (alive w)
     (next_thread w) (exists_raises w) (create_firewall_rules_raises w)
     (mkdir_raises w) (setup_logging_raises w) (start_logging_raises w).

(** [path.mkdir(parents=True, exist_ok=True)] when it succeeds. *)
Definition mkdir (path : string) (w : t) : t :=
  mk (clock w)
     (if path_exists w path then directories w else path :: directories w)
     (firewall_rules w) (session_logging w) (alive w)
     (next_thread w) (exists_raises w) (create_firewall_rules_raises w)
     (mkdir_raises w) (setup_logging_raises w) (start_logging_raises w).

Definition start_logging (path : string) (w : t) : t :=
  mk (clock w) (directories w) (firewall_rules w)
     (path :: session_logging w) (alive w)
     (next_thread w) (exists_raises w) (create_firewall_rules_raises w)
     (mkdir_raises w) (setup_logging_raises w) (start_logging_raises w).

(** [threading.Thread(...).start()]: the handle of the new, live thread. *)
Definition spawn (w : t) : nat * t :=
  (next_thread w,
   mk (clock w) (directories w) (firewall_rules w) (session_logging w)
      (next_thread w :: alive w) (S (next_thread w)) (exists_raises w)
      (create_firewall_rules_raises w) (mkdir_raises w)
      (setup_logging_raises w) (start_logging_raises w)).

End World.

(** ** Diagnostics *)

Module Diagnostics.

(** The attributes the modelled methods read or write.  The observer
    callbacks, the interface monitor and the probe objects with their
    thread handles are left out: no modelled method reads them.  A
    traceroute or speed test is started and joined inside one pass of the
    escalation loop, so [traceroute] and [speed_test] hold the object as
    its run left it. *)
Record t : Type := mk {
  diagnostics_dir : string;
  stop_diagnostics_logging : option string;
  running : bool;
  active_interruption : bool;
  total_interruptions : Z;
  internet_connectivity : bool;
  watchdog_thread : option nat;
  watchdog_interruption_tests_interval : float;
  icmp_external_test_server : option string;
  icmp_external_test_server_changed : bool;
  icmp_external_test_seq_loss : Z;
  icmp_cs2_test_server : option string;
  icmp_cs2_test_server_changed : bool;
  icmp_late_time : float;
  icmp_max_seq_loss : Z;
  traceroute : option Traceroute.t;
  speed_test : option SpeedTest.t;
  speed_test_min_duration : float
}.

(** [Diagnostics.__init__] *)
Definition init (diagnostics_dir : string) (external_test_server : option string) : t :=
  mk diagnostics_dir None false false 0 true None 1
     external_test_server false 0 None false 0.5 1 None None 10.

Definition with_stop_diagnostics_logging (v : option string) (d : t) : t :=
  mk (diagnostics_dir d) v (running d) (active_interruption d)
     (total_interruptions d) (internet_connectivity d) (watchdog_thread d)
     (watchdog_interruption_tests_interval d) (icmp_external_test_server d)
     (icmp_external_test_server_changed d) (icmp_external_test_seq_loss d)
     (icmp_cs2_test_server d) (icmp_cs2_test_server_changed d)
     (icmp_late_time d) (icmp_max_seq_loss d) (traceroute d) (speed_test d)
     (speed_test_min_duration d).

Definition with_running (v : bool) (d : t) : t :=
  mk (diagnostics_dir d) (stop_diagnostics_logging d) v
     (active_interruption d) (total_interruptions d)
     (internet_connectivity d) (watchdog_thread d)
     (watchdog_interruption_tests_interval d) (icmp_external_test_server d)
     (icmp_external_test_server_changed d) (icmp_external_test_seq_loss d)
     (icmp_cs2_test_server d) (icmp_cs2_test_server_changed d)
     (icmp_late_time d) (icmp_max_seq_loss d) (traceroute d) (speed_test d)
     (speed_test_min_duration d).

Definition with_active_interruption (v : bool) (d : t) : t :=
  mk (diagnostics_dir d) (stop_diagnostics_logging d) (running d) v
     (total_interruptions d) (internet_connectivity d) (watchdog_thread d)
     (watchdog_interruption_tests_interval d) (icmp_external_test_server d)
     (icmp_external_test_server_changed d) (icmp_external_test_seq_loss d)
     (icmp_cs2_test_server d) (icmp_cs2_test_server_changed d)
     (icmp_late_time d) (icmp_max_seq_loss d) (traceroute d) (speed_test d)
     (speed_test_min_duration d).

Definition with_total_interruptions (v : Z) (d : t) : t :=
  mk (diagnostics_dir d) (stop_diagnostics_logging d) (running d)
     (active_interruption d) v (internet_connectivity d) (watchdog_thread d)
     (watchdog_interruption_tests_interval d) (icmp_external_test_server d)
     (icmp_external_test_server_changed d) (icmp_external_test_seq_loss d)
     (icmp_cs2_test_server d) (icmp_cs2_test_server_changed d)
     (icmp_late_time d) (icmp_max_seq_loss d) (traceroute d) (speed_test d)
     (speed_test_min_duration d).

Definition with_internet_connectivity (v : bool) (d : t) : t :=
  mk (diagnostics_dir d) (stop_diagnostics_logging d) (running d)
     (active_interruption d) (total_interruptions d) v (watchdog_thread d)
     (watchdog_interruption_tests_interval d) (icmp_external_test_server d)
     (icmp_external_test_server_changed d) (icmp_external_test_seq_loss d)
     (icmp_cs2_test_server d) (icmp_cs2_test_server_changed d)
     (icmp_late_time d) (icmp_max_seq_loss d) (traceroute d) (speed_test d)
     (speed_test_min_duration d).

Definition with_watchdog_thread (v : option nat) (d : t) : t :=
  mk (diagnostics_dir d) (stop_diagnostics_logging d) (running d)
     (active_interruption d) (total_interruptions d)
     (internet_connectivity d) v (watchdog_interruption_tests_interval d)
     (icmp_external_test_server d) (icmp_external_test_server_changed d)
     (icmp_external_test_seq_loss d) (icmp_cs2_test_server d)
     (icmp_cs2_test_server_changed d) (icmp_late_time d)
     (icmp_max_seq_loss d) (traceroute d) (speed_test d)
     (speed_test_min_duration d).

Definition with_icmp_external_test_server (v : option string) (d : t) : t :=
  mk (diagnostics_dir d) (stop_diagnostics_logging d) (running d)
     (active_interruption d) (total_interruptions d)
     (internet_connectivity d) (watchdog_thread d)
     (watchdog_interruption_tests_interval d) v
     (icmp_external_test_server_changed d) (icmp_external_test_seq_loss d)
     (icmp_cs2_test_server d) (icmp_cs2_test_server_changed d)
     (icmp_late_time d) (icmp_max_seq_loss d) (traceroute d) (speed_test d)
     (speed_test_min_duration d).

Definition with_icmp_external_test_server_changed (v : bool) (d : t) : t :=
  mk (diagnostics_dir d) (stop_diagnostics_logging d) (running d)
     (active_interruption d) (total_interruptions d)
     (internet_connectivity d) (watchdog_thread d)
     (watchdog_interruption_tests_interval d) (icmp_external_test_server d)
     v (icmp_external_test_seq_loss d) (icmp_cs2_test_server d)
     (icmp_cs2_test_server_changed d) (icmp_late_time d)
     (icmp_max_seq_loss d) (traceroute d) (speed_test d)
     (speed_test_min_duration d).

Definition with_icmp_external_test_seq_loss (v : Z) (d : t) : t :=
  mk (diagnostics_dir d) (stop_diagnostics_logging d) (running d)
     (active_interruption d) (total_interruptions d)
     (internet_connectivity d) (watchdog_thread d)
     (watchdog_interruption_tests_interval d) (icmp_external_test_server d)
     (icmp_external_test_server_changed d) v (icmp_cs2_test_server d)
     (icmp_cs2_test_server_changed d) (icmp_late_time d)
     (icmp_max_seq_loss d) (traceroute d) (speed_test d)
     (speed_test_min_duration d).

Definition with_icmp_cs2_test_server (v : option string) (d : t) : t :=
  mk (diagnostics_dir d) (stop_diagnostics_logging d) (running d)
     (active_interruption d) (total_interruptions d)
     (internet_connectivity d) (watchdog_thread d)
     (watchdog_interruption_tests_interval d) (icmp_external_test_server d)
     (icmp_external_test_server_changed d) (icmp_external_test_seq_loss d) v
     (icmp_cs2_test_server_changed d) (icmp_late_time d)
     (icmp_max_seq_loss d) (traceroute d) (speed_test d)
     (speed_test_min_duration d).

Definition with_icmp_cs2_test_server_changed (v : bool) (d : t) : t :=
  mk (diagnostics_dir d) (stop_diagnostics_logging d) (running d)
     (active_interruption d) (total_interruptions d)
     (internet_connectivity d) (watchdog_thread d)
     (watchdog_interruption_tests_interval d) (icmp_external_test_server d)
     (icmp_external_test_server_changed d) (icmp_external_test_seq_loss d)
     (icmp_cs2_test_server d) v (icmp_late_time d) (icmp_max_seq_loss d)
     (traceroute d) (speed_test d) (speed_test_min_duration d).

Definition with_traceroute (v : option Traceroute.t) (d : t) : t :=
  mk (diagnostics_dir d) (stop_diagnostics_logging d) (running d)
     (active_interruption d) (total_interruptions d)
     (internet_connectivity d) (watchdog_thread d)
     (watchdog_interruption_tests_interval d) (icmp_external_test_server d)
     (icmp_external_test_server_changed d) (icmp_external_test_seq_loss d)
     (icmp_cs2_test_server d) (icmp_cs2_test_server_changed d)
     (icmp_late_time d) (icmp_max_seq_loss d) v (speed_test d)
     (speed_test_min_duration d).

Definition with_speed_test (v : option SpeedTest.t) (d : t) : t :=
  mk (diagnostics_dir d) (stop_diagnostics_logging d) (running d)
     (active_interruption d) (total_interruptions d)
     (internet_connectivity d) (watchdog_thread d)
     (watchdog_interruption_tests_interval d) (icmp_external_test_server d)
     (icmp_external_test_server_changed d) (icmp_external_test_seq_loss d)
     (icmp_cs2_test_server d) (icmp_cs2_test_server_changed d)
     (icmp_late_time d) (icmp_max_seq_loss d) (traceroute d) v
     (speed_test_min_duration d).

(** The [running] property. *)
Definition running_property (d : t) (w : World.t) : bool :=
  World.is_alive w (watchdog_thread d).

(** [self._diagnostics_dir / name] *)
Definition child (dir name : string) : string := (dir ++ "/" ++ name)%string.

(** The [while current_diagnostics_dir.exists()] loop of [start]; [i] is
    the next suffix.  [None] when [fuel] passes did not reach a free
    name. *)
Fixpoint free_directory (fuel : nat) (w : World.t) (dir timestamp : string)
    (current : string) (i : Z) : option string :=
  if World.path_exists w current then
    match fuel with
    | O => None
    | S fuel' =>
        free_directory fuel' w dir timestamp
          (child dir (timestamp ++ "." ++ str_of_int i)) (i + 1)
    end
  else Some current.

(** How a call of [start] ends. *)
Inductive started : Type :=
| Returned
| Raised (e : exn)
| Searching.

(** [Diagnostics.start].  The result carries the object and the world as
    the call leaves them, also when it raises.  The directory search gets
    one pass per existing directory and one more. *)
Definition start (d : t) (w : World.t) : started * t * World.t :=
  if World.is_alive w (watchdog_thread d) then (Returned, d, w)
  else
    let d := with_running true d in
    let timestamp := World.clock w in
    match World.exists_raises w with
    | Some e => (Raised e, with_running false d, w)
    | None =>
    match free_directory (S (List.length (World.directories w))) w
            (diagnostics_dir d) timestamp
            (child (diagnostics_dir d) timestamp) 2 with
    | None => (Searching, d, w)
    | Some current_diagnostics_dir =>
    match World.create_firewall_rules_raises w with
    | Some e => (Raised e, with_running false d, w)
    | None =>
    let w := World.set_firewall_rules true w in
    match World.mkdir_raises w with
    | Some OSError => (Raised OSError, d, w)
    | Some e => (Raised e, with_running false d, w)
    | None =>
    let w := World.mkdir current_diagnostics_dir w in
    match World.setup_logging_raises w with
    | Some e => (Raised e, with_running false d, w)
    | None =>
    let d := with_stop_diagnostics_logging (Some current_diagnostics_dir) d in
    match World.start_logging_raises w with
    | Some e => (Raised e, with_running false d, w)
    | None =>
    let w := World.start_logging current_diagnostics_dir w in
    let '(thread, w) := World.spawn w in
    let d := with_watchdog_thread (Some thread) d in
    (Returned, d, w)
    end end end end end end.

(** How a call of [stop] ends: it returns, or it is blocked joining the
    live watchdog thread. *)
Inductive stopped : Type :=
| Stopped
| Joining (thread : nat).

(** [Diagnostics.stop] *)
Definition stop (d : t) (w : World.t) (blocking : bool) : stopped * t :=
  let d := with_running false d in
  match watchdog_thread d with
  | Some thread =>
      if blocking && World.is_alive w (Some thread)
      then (Joining thread, d)
      else (Stopped, d)
  | None => (Stopped, d)
  end.

(** [Diagnostics.set_icmp_external_test_server]; the result carries the
    object as the call leaves it, also when it raises. *)
Definition set_icmp_external_test_server (d : t) (server : option string)
  : result unit * t :=
  match server with
  | None => (Raise ValueError, d)
  | Some _ =>
      let d := with_icmp_external_test_server server d in
      let d := with_icmp_external_test_server_changed true d in
      (Ok tt, d)
  end.

Definition server_eqb (a b : option string) : bool :=
  match a, b with
  | Some x, Some y => String.eqb x y
  | None, None => true
  | _, _ => false
  end.

(** [Diagnostics.set_icmp_cs2_test_server] *)
Definition set_icmp_cs2_test_server (d : t) (server : option string) : t :=
  if server_eqb (icmp_cs2_test_server d) server then d
  else
    let d := with_icmp_cs2_test_server server d in
    with_icmp_cs2_test_server_changed true d.

(** [Diagnostics._on_icmp_external_test_update].  On a reply the handler
    compares [rtt_data.last] with [_icmp_late_time] to pick its log line,
    which raises when no latency is recorded. *)
Definition on_icmp_external_test_update (d : t) (rtt_data : RTTData.t)
    (lost : bool) : result t :=
  d <- (if lost then
          Ok (with_icmp_external_test_seq_loss
                (icmp_external_test_seq_loss d + 1) d)
        else
          _ <- number (RTTData.last rtt_data) ;;
          let d := with_internet_connectivity true d in
          Ok (with_icmp_external_test_seq_loss 0 d)) ;;
  if icmp_max_seq_loss d <=? icmp_external_test_seq_loss d
  then Ok (with_internet_connectivity false d)
  else Ok d.

(** One result of the external probe: [ICMPTest._update] wired to the
    handler above. *)
Definition icmp_external_test_result (st : RTTData.t * t)
    (current_rtt : option float) : result (RTTData.t * t) :=
  ICMPTest.update_ on_icmp_external_test_update (snd st) (fst st) current_rtt.

Fixpoint icmp_external_test_results (st : RTTData.t * t)
    (rtts : list (option float)) : result (RTTData.t * t) :=
  match rtts with
  | [] => Ok st
  | rtt :: rtts' =>
      st' <- icmp_external_test_result st rtt ;;
      icmp_external_test_results st' rtts'
  end.

(** The handler a watchdog pass hands control to. *)
Inductive handler : Type :=
| OnInterruptionStart (total_interruptions : Z)
| OnInterruptionEnd.

(** The connectivity block at the head of the [while self._running] body
    of [_watchdog_run]: the attributes it writes and the handler it then
    calls. *)
Definition watchdog_connectivity (d : t) : t * option handler :=
  if negb (internet_connectivity d) then
    if negb (active_interruption d) then
      let d := with_active_interruption true d in
      let d := with_total_interruptions (total_interruptions d + 1) d in
      (d, Some (OnInterruptionStart (total_interruptions d)))
    else (d, None)
  else if active_interruption d then
    let d := with_active_interruption false d in
    (d, Some OnInterruptionEnd)
  else (d, None).

(** [n] passes of the watchdog loop with no probe result in between. *)
Fixpoint watchdog_passes (n : nat) (d : t) : t :=
  match n with
  | O => d
  | S n' => watchdog_passes n' (fst (watchdog_connectivity d))
  end.

(** *** The escalation loop of [_on_interruption_start] *)

(** The four locals of the loop. *)
Record tests : Type := mk_tests {
  long_speed_test : bool;
  traceroute_succeeded : bool;
  short_speed_test_succeeded : bool;
  long_speed_test_succeeded : bool
}.

(** What the outside does during one pass: whether [stop] was called
    before the loop test, what a traceroute started now ends with, what a
    short speed test started now ends with and how long it takes
    ([end - start]), and what a second speed test started now ends
    with. *)
Record pass : Type := mk_pass {
  stop_requested : bool;
  traceroute_hops : option (list Hop.t);
  short_results : option SpeedTest.Results;
  short_elapsed : float;
  long_results : option SpeedTest.Results
}.

(** What a pass does to the outside, in order. *)
Inductive action : Type :=
| Log (message : string)
| RunTraceroute (tr : Traceroute.t)
| RunSpeedTest (battery : list SpeedTest.TestSpec)
| Sleep (seconds : float).

(** [self._traceroute.hops is not None] *)
Definition traceroute_has_hops (d : t) : bool :=
  match traceroute d with
  | Some tr => match Traceroute.hops tr with Some _ => true | None => false end
  | None => false
  end.

(** [self._speed_test.results is not None] *)
Definition speed_test_has_results (d : t) : bool :=
  match speed_test d with
  | Some st => match SpeedTest.results st with Some _ => true | None => false end
  | None => false
  end.

(** The body of the [while] loop up to its final [if]. *)
Definition interruption_tests_pass (d : t) (ts : tests) (p : pass)
  : t * tests * list action :=
  (* Re-run traceroute if it was unsuccessful last time *)
  let '(d, acts) :=
    if negb (traceroute_succeeded ts) then
      let request :=
        Traceroute.mk (icmp_external_test_server d) 3 0 1 30 true None in
      (with_traceroute
         (Some (Traceroute.mk (icmp_external_test_server d) 3 0 1 30 true
                  (traceroute_hops p))) d,
       [Log "Starting traceroute"; RunTraceroute request])
    else (d, []) in
  (* Re-run short speed test if it was unsuccessful last time *)
  let '(d, ts, acts) :=
    if negb (short_speed_test_succeeded ts) then
      let d :=
        with_speed_test
          (Some (SpeedTest.mk SpeedTest.SHORT_TESTS (10%float, 10%float)
                   (short_results p))) d in
      let acts :=
        acts ++ [Log "Starting short speed test";
                 RunSpeedTest SpeedTest.SHORT_TESTS] in
      if speed_test_has_results d then
        let long := if (short_elapsed p <? speed_test_min_duration d)%float
                    then true else long_speed_test ts in
        (d, mk_tests long (traceroute_succeeded ts) true
              (long_speed_test_succeeded ts), acts)
      else (d, ts, acts)
    else (d, ts, acts) in
  (* Re-run long speed test if it is necessary and was unsuccessful last time *)
  let '(d, ts, acts) :=
    if negb (long_speed_test_succeeded ts) && long_speed_test ts then
      let d :=
        with_speed_test
          (Some (SpeedTest.mk SpeedTest.SHORT_TESTS (10%float, 10%float)
                   (long_results p))) d in
      let acts :=
        acts ++ [Log "Starting long speed test";
                 RunSpeedTest SpeedTest.SHORT_TESTS] in
      if speed_test_has_results d then
        (d, mk_tests (long_speed_test ts) (traceroute_succeeded ts)
              (short_speed_test_succeeded ts) true, acts)
      else (d, ts, acts)
    else (d, ts, acts) in
  (* Check if the traceroute started before the speed test is successful *)
  let ts :=
    if negb (traceroute_succeeded ts) then
      if traceroute_has_hops d then
        mk_tests (long_speed_test ts) true (short_speed_test_succeeded ts)
          (long_speed_test_succeeded ts)
      else ts
    else ts in
  (d, ts, acts).

(** How the observed part of the loop ends: through [break], through the
    loop test, or not at all within the passes observed. *)
Inductive loop_exit : Type :=
| AllTestsFinished
| NotRunningOrNotInterrupted
| StillRetrying.

(** The [while self._running and self._active_interruption] loop, one
    [pass] per iteration. *)
Fixpoint interruption_tests_loop (d : t) (ts : tests) (passes : list pass)
  : loop_exit * t * list action :=
  match passes with
  | [] => (StillRetrying, d, [])
  | p :: passes' =>
      let d := if stop_requested p then with_running false d else d in
      if running d && active_interruption d then
        let '(d, ts, acts) := interruption_tests_pass d ts p in
        if traceroute_succeeded ts && short_speed_test_succeeded ts
           && long_speed_test_succeeded ts
        then
          (AllTestsFinished, d,
           acts ++ [Log "All tests on interruption finished"])
        else
          let '(e, d', acts') := interruption_tests_loop d ts passes' in
          (e, d',
           acts ++ Sleep (watchdog_interruption_tests_interval d) :: acts')
      else (NotRunningOrNotInterrupted, d, [])
  end.

(** [Diagnostics._on_interruption_start] from the point where its locals
    are initialised; what precedes (observer callback, joining tests in
    flight, restarting the interface monitor, the statistics snapshot)
    writes none of the attributes modelled here. *)
Definition on_interruption_start (d : t) (passes : list pass)
  : loop_exit * t * list action :=
  interruption_tests_loop d (mk_tests false false false false) passes.

End Diagnostics.

(** ** Probe results

    What a list of [update] arguments holds: the replies, oldest first. *)

Module Calls.

Definition replies (calls : list (option float)) : list float :=
  flat_map (fun c => match c with Some v => [v] | None => [] end) calls.

Definition timeouts (calls : list (option float)) : list unit :=
  flat_map (fun c => match c with Some _ => [] | None => [tt] end) calls.

(** The most recent reply, if there is one. *)
Definition last_reply (calls : list (option float)) : option float :=
  match rev (replies calls) with
  | [] => None
  | v :: _ => Some v
  end.

End Calls.

(** ** RTTData as text *)

(** [RTTData.__str__] *)
Definition rttdata_str (r : RTTData.t) : result string :=
  if negb (RTTData.initial_data r) then
    Ok ("Host: " ++ RTTData.host r ++ newline
        ++ "Avg     Min     Max     Jitter  Sent Recv Loss" ++ newline
        ++ "-       -       -       -       "
        ++ ljust 4 (str_of_int (RTTData.sent r)) ++ " "
        ++ ljust 4 (str_of_int (RTTData.received r)) ++ " "
        ++ rjust 5 (format_f 1 (RTTData.loss r * float_of_int 100)%float)
        ++ "%")%string
  else
    avg <- number (RTTData.average r) ;;
    mn <- number (RTTData.minimum r) ;;
    mx <- number (RTTData.maximum r) ;;
    jit <- number (RTTData.jitter r) ;;
    Ok ("Host: " ++ RTTData.host r ++ newline
        ++ "Avg     Min     Max     Jitter  Sent Recv Loss" ++ newline
        ++ ljust 7 (format_f 3 avg) ++ " "
        ++ ljust 7 (format_f 3 mn) ++ " "
        ++ ljust 7 (format_f 3 mx) ++ " "
        ++ ljust 7 (format_f 3 jit) ++ " "
        ++ ljust 4 (str_of_int (RTTData.sent r)) ++ " "
        ++ ljust 4 (str_of_int (RTTData.received r)) ++ " "
        ++ rjust 5 (format_f 1 (RTTData.loss r * float_of_int 100)%float)
        ++ "%")%string.

(** ** Diagnostics: tear-down, probe errors and target changes *)

Module Teardown.

(** Remove the first occurrence of [x]. *)
Fixpoint remove_one {A : Type} (eqb : A -> A -> bool) (x : A) (l : list A)
  : list A :=
  match l with
  | [] => []
  | y :: l' => if eqb x y then l' else y :: remove_one eqb x l'
  end.

(** The [stop] closure that [setup_diagnostics_logging] returned for
    [path]. *)
Definition stop_logging (path : string) (w : World.t) : World.t :=
  World.mk (World.clock w) (World.directories w) (World.firewall_rules w)
    (remove_one String.eqb path (World.session_logging w)) (World.alive w)
    (World.next_thread w) (World.exists_raises w)
    (World.create_firewall_rules_raises w) (World.mkdir_raises w)
    (World.setup_logging_raises w) (World.start_logging_raises w).


(** [Diagnostics._clean_up]; [remove_firewall_rules_raises] tells whether
    removing the firewall rules raises in this run.  Stopping the probes,
    the interface monitor and the event log listener writes none of the
    attributes modelled. *)
Definition clean_up (d : Diagnostics.t) (w : World.t)
    (remove_firewall_rules_raises : option exn)
  : result unit * Diagnostics.t * World.t :=
  let d := Diagnostics.with_running false d in
  let d := Diagnostics.with_active_interruption false d in
  let d := Diagnostics.with_total_interruptions 0 d in
  let d := Diagnostics.with_watchdog_thread None d in
  let d := Diagnostics.with_traceroute None d in
  let d := Diagnostics.with_speed_test None d in
  let after_firewall (w : World.t) :=
    let w := match Diagnostics.stop_diagnostics_logging d with
             | Some path => stop_logging path w
             | None => w
             end in
    let d := Diagnostics.with_stop_diagnostics_logging None d in
    (Ok tt, d, w) in
  match remove_firewall_rules_raises with
  | None => after_firewall (World.set_firewall_rules false w)
  | Some OSError => after_firewall w
  | Some e => (Raise e, d, w)
  end.


(** [Diagnostics._on_icmp_external_test_error], up to the point where it
    sleeps and starts the external test again. *)
Definition on_icmp_external_test_error (d : Diagnostics.t) : Diagnostics.t :=
  Diagnostics.with_internet_connectivity false d.

(** The calls a watchdog pass makes on a target change. *)
Inductive command : Type :=
| StopICMPExternalTest
| StartICMPExternalTest (server : option string)
| StopICMPCS2Test
| StartICMPCS2Test (server : option string)
| WaitTraceroute
| RunTraceroute (host : option string).

(** The two blocks of the [while self._running] body of [_watchdog_run]
    that react to a changed external target and to a changed CS2 target. *)
Definition watchdog_target_changes (d : Diagnostics.t)
  : Diagnostics.t * list command :=
  let '(d, cmds) :=
    if Diagnostics.icmp_external_test_server_changed d then
      let d := Diagnostics.with_icmp_external_test_server_changed false d in
      (d, [ StopICMPExternalTest;
            StartICMPExternalTest (Diagnostics.icmp_external_test_server d);
            WaitTraceroute;
            RunTraceroute (Diagnostics.icmp_external_test_server d) ])
    else (d, []) in
  if Diagnostics.icmp_cs2_test_server_changed d then
    let cs2_server := Diagnostics.icmp_cs2_test_server d in
    let d := Diagnostics.with_icmp_cs2_test_server_changed false d in
    (d, cmds ++ StopICMPCS2Test
             :: match cs2_server with
                | Some _ =>
                    [ StartICMPCS2Test cs2_server; WaitTraceroute;
                      RunTraceroute cs2_server ]
                | None => []
                end)
  else (d, cmds).

End Teardown.

(** ** Diagnostics history *)

Module History.

(** [a <= b] on [str]: code points compared from the left, a proper prefix
    being smaller. *)
Definition name_le (a b : string) : bool :=
  match String_as_OT.compare a b with
  | Gt => false
  | _ => true
  end.

(** [sorted(items, key=lambda item: item[0], reverse=True)]: the stable
    sort into descending order of the first component, as insertion of
    each item, from the last to the first, in front of the first item that
    is not greater. *)
Fixpoint insert (item : string * string) (sorted : list (string * string))
  : list (string * string) :=
  match sorted with
  | [] => [item]
  | other :: rest =>
      if name_le (fst other) (fst item) then item :: other :: rest
      else other :: insert item rest
  end.

Definition sorted_by_name_reversed (items : list (string * string))
  : list (string * string) :=
  fold_right insert [] items.

(** [Diagnostics.get_diagnostics_history]; [names] are the names of the
    entries of the diagnostics directory in the order [iterdir] yields
    them. *)
Definition get_diagnostics_history (d : Diagnostics.t) (names : list string)
  : list (string * string) :=
  sorted_by_name_reversed
    (map (fun name =>
            (name, Diagnostics.child (Diagnostics.diagnostics_dir d) name))
       names).

(** [Diagnostics.get_last_diagnostics] *)
Definition get_last_diagnostics (d : Diagnostics.t) (names : list string)
  : option (string * string) :=
  match get_diagnostics_history d names with
  | [] => None
  | first :: _ => Some first
  end.

End History.

(** ** EventLogListener *)

Module EventLogListener.

(** A value used as the [level] of a record: an [int] or a [str]. *)
Inductive value : Type :=
| Int (n : Z)
| Str (s : string).

(** [EventLogListener.LEVELS[v]]: the dictionary has the keys [0] to [5];
    any other key, a [str] included, raises [KeyError]. *)
Definition LEVELS (v : value) : option string :=
  match v with
  | Int 0 => Some "LogAlways"%string
  | Int 1 => Some "Critical"%string
  | Int 2 => Some "Error"%string
  | Int 3 => Some "Warning"%string
  | Int 4 => Some "Informational"%string
  | Int 5 => Some "Verbose"%string
  | _ => None
  end.

(** The record dictionary that [_handler] builds; [event_data_strings]
    holds (name, text) tuples. *)
Record record : Type := mk_record {
  timestamp : string;
  channel : string;
  provider : string;
  source : option string;
  level : value;
  opcode : string;
  message : option string;
  event_data_strings : option (list (option string * string));
  user_data : option string;
  raw : string
}.

Inductive error : Type :=
| ValueError
| KeyError
| TypeError.

Inductive formatted : Type :=
| Text (s : string)
| Raises (e : error).

Section FormatRecord.

(** [datetime.fromisoformat(s).astimezone().strftime(...)]: the timestamp
    in the local time zone, [None] when [s] is not an ISO 8601 date. *)
Variable local_timestamp : string -> option string.

(** [EventLogListener.format_record].  The seven adjacent string literals
    form one operand, the first of the chain of conditional expressions:
    they are evaluated only when [message] is present. *)
Definition format_record (r : record) : formatted :=
  match local_timestamp (timestamp r) with
  | None => Raises ValueError
  | Some ts =>
      match message r with
      | Some m =>
          match LEVELS (level r) with
          | None => Raises KeyError
          | Some level_name =>
              Text ("Timestamp (UTC): " ++ ts ++ newline
                    ++ "Channel: " ++ channel r ++ newline
                    ++ "Provider: " ++ provider r ++ newline
                    ++ "Source: " ++ py_str (source r) ++ newline
                    ++ "Level: " ++ level_name ++ newline
                    ++ "OpCode: " ++ opcode r ++ newline
                    ++ "Message:" ++ newline ++ m)%string
          end
      | None =>
          match event_data_strings r with
          | Some [] => Text ("Event Data:" ++ newline)%string
          | Some (_ :: _) => Raises TypeError
          | None =>
              match user_data r with
              | Some u => Text ("User Data:" ++ newline ++ u)%string
              | None => Text ("Raw:" ++ newline ++ raw r)%string
              end
          end
      end
  end.

End FormatRecord.

End EventLogListener.

(** ** The interface monitor *)

Module NetworkInterface.

Record t : Type := mk {
  id : string;
  name : string;
  mac_address : string;
  ipv4_address : string;
  gateway_ipv4_address : string
}.

(** The dictionary that [NetworkInterface.get_stats] returns. *)
Record stats : Type := mk_stats {
  up : bool;
  speed : Z;
  duplex : Z;
  duplex_str : string;
  mtu : Z
}.

(** [a != b] on two stats dictionaries: some value differs. *)
Definition stats_differ (a b : stats) : bool :=
  negb (Bool.eqb (up a) (up b))
  || negb (speed a =? speed b)
  || negb (duplex a =? duplex b)
  || negb (String.eqb (duplex_str a) (duplex_str b))
  || negb (mtu a =? mtu b).

End NetworkInterface.

Module InterfaceMonitor.

(** The attributes of [Diagnostics] that [_interface_update_run] reads or
    writes. *)
Record t : Type := mk {
  interface : option NetworkInterface.t;
  interface_stats : option NetworkInterface.stats;
  interface_changed : bool;
  interface_update_running : bool
}.

(** What the platform answers in one iteration: the interface tied to the
    default gateway ([None] when [from_default_gateway] raises) and the
    statistics of an interface ([None] when [get_stats] raises). *)
Record answer : Type := mk_answer {
  found : option NetworkInterface.t;
  found_stats : option NetworkInterface.stats
}.

Inductive event : Type :=
| OnInterfaceUpdate (i : NetworkInterface.t)
| OnInterfaceStatsUpdate (s : NetworkInterface.stats)
| Sleep.

(** The [elif] condition that compares the recorded interface with the one
    just found, field by field. *)
Definition interface_differs (a b : NetworkInterface.t) : bool :=
  negb (String.eqb (NetworkInterface.id a) (NetworkInterface.id b))
  || negb (String.eqb (NetworkInterface.name a) (NetworkInterface.name b))
  || negb (String.eqb (NetworkInterface.mac_address a)
             (NetworkInterface.mac_address b))
  || negb (String.eqb (NetworkInterface.ipv4_address a)
             (NetworkInterface.ipv4_address b))
  || negb (String.eqb (NetworkInterface.gateway_ipv4_address a)
             (NetworkInterface.gateway_ipv4_address b)).

(** [self._interface_stats != stats], where the attribute may be [None]. *)
Definition recorded_stats_differ (recorded : option NetworkInterface.stats)
    (s : NetworkInterface.stats) : bool :=
  match recorded with
  | Some r => NetworkInterface.stats_differ r s
  | None => true
  end.

(** One pass of the body of the [while self._interface_update_running]
    loop.  [local] is the local variable [interface], unbound ([None])
    until the first successful query of this run and otherwise left over
    from an earlier pass; reading it unbound raises inside the second
    [try], which handles it like a failed [get_stats].  The result holds
    the attributes, the local variable, what the pass did and whether the
    loop goes on. *)
Definition pass (m : t) (local : option NetworkInterface.t) (a : answer)
  : result (t * option NetworkInterface.t * list event * bool) :=
  match
    match found a with
    | Some i => Some (Some i)
    | None =>
        match interface m with
        | None => None
        | Some _ => Some local
        end
    end
  with
  | None => Ok (m, local, [Sleep], true)
  | Some local =>
      match local, found_stats a with
      | Some i, Some stats =>
          let '(m, events) :=
            match interface m with
            | None =>
                (mk (Some i) (Some stats) (interface_changed m)
                    (interface_update_running m),
                 [OnInterfaceUpdate i; OnInterfaceStatsUpdate stats])
            | Some recorded =>
                if interface_differs recorded i then
                  (mk (Some i) (Some stats) true (interface_update_running m),
                   [OnInterfaceUpdate i; OnInterfaceStatsUpdate stats])
                else if recorded_stats_differ (interface_stats m) stats then
                  (mk (interface m) (Some stats) (interface_changed m)
                      (interface_update_running m),
                   [OnInterfaceStatsUpdate stats])
                else (m, [])
            end in
          match interface_stats m with
          | None => Raise TypeError
          | Some recorded_stats =>
              if NetworkInterface.up recorded_stats then
                Ok (mk (interface m) (interface_stats m) (interface_changed m)
                       false,
                    local, events, false)
              else Ok (m, local, events ++ [Sleep], true)
          end
      | _, _ => Ok (m, local, [Sleep], true)
      end
  end.

(** [Diagnostics._interface_update_run]: the loop over the platform's
    answers, one per pass.  The result holds the attributes, what the run
    did and whether the loop was left within the answers given. *)
Fixpoint run (m : t) (local : option NetworkInterface.t)
    (answers : list answer) : result (t * list event * bool) :=
  if interface_update_running m then
    match answers with
    | [] => Ok (m, [], false)
    | a :: answers' =>
        r <- pass m local a ;;
        let '(m, local, events, goes_on) := r in
        if goes_on then
          r' <- run m local answers' ;;
          let '(m', events', ended) := r' in
          Ok (m', events ++ events', ended)
        else Ok (m, events, true)
    end
  else Ok (m, [], true).

(** [Diagnostics._start_interface_update] followed by the run of its
    thread. *)
Definition start_and_run (m : t) (answers : list answer)
  : result (t * list event * bool) :=
  run (mk (interface m) (interface_stats m) (interface_changed m) true)
    None answers.

End InterfaceMonitor.

(** ** NetworkInterface.from_default_gateway *)

Module Platform.

(** An address family, as far as the code tells them apart. *)
Inductive family : Type :=
| AF_LINK
| AF_INET
| AF_OTHER (n : Z).

Definition family_eqb (a b : family) : bool :=
  match a, b with
  | AF_LINK, AF_LINK => true
  | AF_INET, AF_INET => true
  | AF_OTHER n, AF_OTHER k => n =? k
  | _, _ => false
  end.

(** What [netifaces] and [psutil] report: the default IPv4 gateway as
    (gateway address, interface id), the addresses of an interface by
    family, and the addresses of every interface by name, in the order the
    dictionaries yield them. *)
Record t : Type := mk {
  default_gateway : option (string * string);
  ifaddresses : string -> list (family * list string);
  net_if_addrs : list (string * list (family * string))
}.

(** [d.get(key)] on a dictionary given as its items. *)
Fixpoint get {V : Type} (key : family) (items : list (family * V)) : option V :=
  match items with
  | [] => None
  | (k, v) :: items' => if family_eqb key k then Some v else get key items'
  end.

(** [c.upper()] on an ASCII character. *)
Definition upper_char (c : ascii) : ascii :=
  let n := nat_of_ascii c in
  if (97 <=? n)%nat && (n <=? 122)%nat then ascii_of_nat (n - 32) else c.

(** [s.replace(':', '-').upper()] on ASCII text, as MAC addresses are. *)
Fixpoint normalise_mac (s : string) : string :=
  match s with
  | EmptyString => EmptyString
  | String c s' =>
      String (upper_char (if Ascii.eqb c ":" then "-"%char else c))
        (normalise_mac s')
  end.

(** The two nested [for] loops over [psutil.net_if_addrs().items()]: the
    name of the first interface that has a link-layer address equal to
    [mac], [None] when the loops run to their end. *)
Definition name_by_mac (mac : string)
    (items : list (string * list (family * string))) : option string :=
  option_map fst
    (find (fun item =>
             existsb (fun address =>
                        family_eqb (fst address) AF_LINK
                        && String.eqb mac (snd address))
               (snd item))
       items).

(** [NetworkInterface.from_default_gateway] *)
Definition from_default_gateway (p : t) : result NetworkInterface.t :=
  match default_gateway p with
  | None => Raise ValueError
  | Some (gateway_ipv4_address, interface_id) =>
      let addresses := ifaddresses p interface_id in
      match addresses with
      | [] => Raise ValueError
      | _ :: _ =>
          match get AF_LINK addresses with
          | None | Some [] => Raise ValueError
          | Some (mac :: _) =>
              let interface_mac_address := normalise_mac mac in
              match get AF_INET addresses with
              | None | Some [] => Raise ValueError
              | Some (interface_ipv4_address :: _) =>
                  match name_by_mac interface_mac_address (net_if_addrs p) with
                  | None | Some EmptyString => Raise ValueError
                  | Some interface_name =>
                      Ok (NetworkInterface.mk interface_id interface_name
                            interface_mac_address interface_ipv4_address
                            gateway_ipv4_address)
                  end
              end
          end
      end
  end.

End Platform.

(** ** ICMPTest.run *)

Module ICMPRun.

Record t : Type := mk {
  host : string;
  rtt_data : option RTTData.t;
  interval : float;
  timeout : float;
  running : bool
}.

(** [ICMPTest.__init__] *)
Definition init (host : string) (interval timeout : float) : t :=
  mk host None interval timeout false.

(** How one echo request ends: a reply with its round-trip time in
    milliseconds, [TimeoutExceeded], or another [ICMPLibError]. *)
Inductive reply : Type :=
| Replied (rtt : float)
| TimedOut
| Failed.

(** One turn of the loop: whether [stop] was called before the loop test,
    and how the request of this turn ends. *)
Record turn : Type := mk_turn {
  stop_called : bool;
  outcome : reply
}.

Inductive action : Type :=
| Sleep (seconds : float)
| Request (address : string) (sequence : Z)
| OnUpdate (rtt_data : RTTData.t) (lost : bool)
| OnError.

(** How the observed part of a run ends: the loop test fails, an exception
    leaves [run], or the loop is still going when the turns run out. *)
Inductive ending : Type :=
| Stopped
| Raised
| Looping.

(** The [while self._running] loop of [ICMPTest.run]; [r] is the
    accumulator [self._rtt_data] and [count] the local counter.  An
    [ICMPLibError] other than [TimeoutExceeded] leaves the loop for the
    handler around it, which is [_error]: the flag is cleared, [on_error]
    is called and the exception is raised again. *)
Fixpoint loop (address : string) (self : t) (r : RTTData.t) (count : Z)
    (turns : list turn) : result (t * list action * ending) :=
  match turns with
  | [] =>
      Ok (mk (host self) (Some r) (interval self) (timeout self)
            (running self),
          [], Looping)
  | u :: turns' =>
      let self := if stop_called u
                  then mk (host self) (rtt_data self) (interval self)
                         (timeout self) false
                  else self in
      if running self then
        let sleep := if (0 <? count) && (0 <? interval self)%float
                     then [Sleep (interval self)] else [] in
        match outcome u with
        | Failed =>
            Ok (mk (host self) (Some r) (interval self) (timeout self) false,
                sleep ++ [Request address count; OnError], Raised)
        | Replied rtt =>
            r' <- RTTData.update r (Some rtt) ;;
            rest <- loop address self r' (count + 1) turns' ;;
            let '(self', actions, e) := rest in
            Ok (self', sleep ++ Request address count :: OnUpdate r' false
                         :: actions, e)
        | TimedOut =>
            r' <- RTTData.update r None ;;
            rest <- loop address self r' (count + 1) turns' ;;
            let '(self', actions, e) := rest in
            Ok (self', sleep ++ Request address count :: OnUpdate r' true
                         :: actions, e)
        end
      else
        Ok (mk (host self) (Some r) (interval self) (timeout self)
              (running self),
            [], Stopped)
  end.

(** [ICMPTest.run].  [resolved] is what [resolve(host)[0]] gives when the
    host is a name, [None] when the lookup raises [NameLookupError];
    [socket_opens] is false when creating the socket raises an
    [ICMPLibError]. *)
Definition run (self : t) (is_hostname : bool) (resolved : option string)
    (socket_opens : bool) (turns : list turn)
    : result (t * list action * ending) :=
  let self := mk (host self) (rtt_data self) (interval self) (timeout self)
                true in
  match (if is_hostname then resolved else Some (host self)) with
  | None =>
      Ok (mk (host self) (rtt_data self) (interval self) (timeout self) false,
          [OnError], Raised)
  | Some address =>
      let r := RTTData.init address in
      if socket_opens then loop address self r 0 turns
      else
        Ok (mk (host self) (Some r) (interval self) (timeout self) false,
            [OnError], Raised)
  end.

Definition is_request (a : action) : bool :=
  match a with Request _ _ => true | _ => false end.

Definition is_sleep (a : action) : bool :=
  match a with Sleep _ => true | _ => false end.

Definition is_error (a : action) : bool :=
  match a with OnError => true | _ => false end.

(** The sequence numbers of the requests among the actions, in order. *)
Definition sequences (actions : list action) : list Z :=
  flat_map (fun a => match a with Request _ n => [n] | _ => [] end) actions.

(** A turn on which [stop] was not called and the request ended with a
    reply or a timeout. *)
Definition answered (u : turn) : bool :=
  negb (stop_called u)
  && match outcome u with Failed => false | _ => true end.

(** The argument [_update] passes to [RTTData.update] on such a turn. *)
Definition call (u : turn) : option float :=
  match outcome u with
  | Replied rtt => Some rtt
  | _ => None
  end.

(** The address the requests go to, when the lookup does not raise. *)
Definition address_of (self : t) (is_hostname : bool)
    (resolved : option string) : option string :=
  if is_hostname then resolved else Some (host self).

(** The sequence numbers [first], [first + 1], ... of [n] requests. *)
Definition numbered (first : Z) (n : nat) : list Z :=
  map (fun k => first + Z.of_nat k) (seq 0 n).

End ICMPRun.

(** ** Sample objects

    Concrete objects the statements below are instantiated at. *)

Module Sample.

(** Two hops that answered, from distances 1 and 3; nothing answered from
    distance 2. *)
Definition hop_1 : Hop.t :=
  Hop.mk 1 "192.168.0.1" 1.5 1.25 1.75 0.5 2 2.

Definition hop_3 : Hop.t :=
  Hop.mk 3 "10.20.30.40" 12.5 10 15 5 2 1.

Definition traceroute_1_3 : Traceroute.t :=
  Traceroute.mk (Some "1.1.1.1"%string) 2 0 2 30 false (Some [hop_1; hop_3]).

(** A fresh [Diagnostics] object probing [1.1.1.1]. *)
Definition diagnostics : Diagnostics.t :=
  Diagnostics.init "diagnostics" (Some "1.1.1.1"%string).

(** A world with one earlier session directory in which every external
    call succeeds. *)
Definition world : World.t :=
  World.mk "2024-05-01T12-00-00+0000" ["diagnostics/2024-04-30T09-30-00+0000"%string]
    false [] [] 0 None None None None None.

(** The same world, except that creating the session directory fails with
    an [OSError]. *)
Definition world_mkdir_fails : World.t :=
  World.mk "2024-05-01T12-00-00+0000" ["diagnostics/2024-04-30T09-30-00+0000"%string]
    false [] [] 0 None None (Some OSError) None None.

(** The object in a running session at the moment the watchdog has just
    detected an interruption. *)
Definition interrupted : Diagnostics.t :=
  Diagnostics.with_total_interruptions 1
    (Diagnostics.with_active_interruption true
       (Diagnostics.with_internet_connectivity false
          (Diagnostics.with_watchdog_thread (Some 0%nat)
             (Diagnostics.with_running true diagnostics)))).

Definition speed_results : SpeedTest.Results :=
  SpeedTest.mk_results
    [("latency", 12.5); ("20MB_down_mbps", 94.5); ("10MB_up_mbps", 18.25)]%float%string
    "SOF".

(** A pass in which every test succeeds and the short speed test takes
    4.5 seconds, less than the 10 second threshold. *)
Definition pass_short_fast : Diagnostics.pass :=
  Diagnostics.mk_pass false (Some [hop_1; hop_3]) (Some speed_results) 4.5
    (Some speed_results).

(** A pass in which every test succeeds and the short speed test takes
    12.5 seconds, more than the 10 second threshold. *)
Definition pass_short_slow : Diagnostics.pass :=
  Diagnostics.mk_pass false (Some [hop_1; hop_3]) (Some speed_results) 12.5
    (Some speed_results).

End Sample.

(** * Properties *)

(** ** RTTData: the accumulator invariant *)

Lemma update_timeout (r : RTTData.t) :
  RTTData.update r None
  = Ok (RTTData.mk (RTTData.host r) (RTTData.initial_data r) (RTTData.last r)
          (RTTData.average r) (RTTData.minimum r) (RTTData.maximum r)
          (RTTData.jitter r) (RTTData.sent r + 1) (RTTData.received r)).
Proof. reflexivity. Qed.

Lemma update_first_reply (r : RTTData.t) (v : float) :
  RTTData.initial_data r = false ->
  RTTData.update r (Some v)
  = Ok (RTTData.mk (RTTData.host r) true (Some v) (Some v) (Some v) (Some v)
          (Some 0%float) (RTTData.sent r + 1) (RTTData.received r + 1)).
Proof. intros H. unfold RTTData.update. rewrite H. reflexivity. Qed.

Lemma init_populated (h : string) : RTTData.populated (RTTData.init h).
Proof. unfold RTTData.populated; simpl. repeat split. Qed.

(** An accumulator whose statistics are consistent never makes [update]
    raise; the call keeps them consistent, counts one more packet sent and
    at most one more received. *)
Lemma update_populated (r : RTTData.t) (c : option float) :
  RTTData.populated r ->
  exists r',
    RTTData.update r c = Ok r'
    /\ RTTData.populated r'
    /\ RTTData.sent r' = RTTData.sent r + 1
    /\ RTTData.received r <= RTTData.received r' <= RTTData.received r + 1.
Proof.
  intros Hp. destruct c as [v|].
  - unfold RTTData.populated in Hp.
    destruct (RTTData.initial_data r) eqn:Hi.
    + destruct Hp as (l & a & mn & mx & j & Hl & Ha & Hmn & Hmx & Hj).
      unfold RTTData.update. rewrite Hi, Hl, Ha, Hmn, Hmx, Hj. simpl.
      eexists. split; [reflexivity|].
      unfold RTTData.populated; simpl.
      split; [repeat eexists|]. split; lia.
    + rewrite (update_first_reply r v Hi).
      eexists. split; [reflexivity|].
      unfold RTTData.populated; simpl.
      split; [repeat eexists|]. split; lia.
  - rewrite update_timeout. eexists. split; [reflexivity|].
    split; [exact Hp|]. simpl. split; lia.
Qed.

Lemma history_populated (calls : list (option float)) :
  forall r,
    RTTData.populated r ->
    RTTData.received r <= RTTData.sent r ->
    exists rs,
      RTTData.history r calls = Ok rs
      /\ List.length rs = List.length calls
      /\ Forall (fun r' => RTTData.received r' <= RTTData.sent r') rs.
Proof.
  induction calls as [|c calls IH]; intros r Hp Hle.
  - exists []. simpl. repeat split. constructor.
  - destruct (update_populated r c Hp) as (r' & Hu & Hp' & Hs & Hr).
    destruct (IH r' Hp' ltac:(lia)) as (rs & Hh & Hlen & Hall).
    exists (r' :: rs). simpl. rewrite Hu. simpl. rewrite Hh. simpl.
    repeat split.
    + now rewrite Hlen.
    + constructor; [lia | exact Hall].
Qed.

Lemma updates_timeouts (n : nat) :
  forall r,
    RTTData.updates r (repeat None n)
    = Ok (RTTData.mk (RTTData.host r) (RTTData.initial_data r) (RTTData.last r)
            (RTTData.average r) (RTTData.minimum r) (RTTData.maximum r)
            (RTTData.jitter r) (RTTData.sent r + Z.of_nat n)
            (RTTData.received r)).
Proof.
  induction n as [|n IH]; intros r.
  - simpl. destruct r; simpl. now rewrite Z.add_0_r.
  - cbn [repeat RTTData.updates]. rewrite update_timeout. cbn [bind].
    rewrite IH. simpl. do 2 f_equal. lia.
Qed.

Lemma updates_app (xs ys : list (option float)) :
  forall r,
    RTTData.updates r (xs ++ ys)
    = (r' <- RTTData.updates r xs ;; RTTData.updates r' ys).
Proof.
  induction xs as [|x xs IH]; intros r; simpl.
  - reflexivity.
  - destruct (RTTData.update r x) as [r'|e]; simpl; [apply IH | reflexivity].
Qed.

(** Two binary64 values that [=?] tells apart are different. *)
Lemma float_neq (x y : float) : (x =? y)%float = false -> (x =? x)%float = true -> x <> y.
Proof. intros Hxy Hxx ->. congruence. Qed.

Lemma some_neq {A : Type} (x y : A) : x <> y -> Some x <> Some y.
Proof.
  intros Hn H. apply Hn.
  exact (f_equal (fun o => match o with Some z => z | None => x end) H).
Qed.

(** C5: over every finite sequence of [update] calls on a fresh accumulator,
    timeouts interspersed, no call raises and after each call
    [received <= sent]; [loss] is [0.0] when [sent = 0] and
    [1 - received / sent] when [sent > 0]. *)
Theorem rttdata_received_le_sent_and_loss :
  (forall (h : string) (calls : list (option float)),
      exists rs,
        RTTData.history (RTTData.init h) calls = Ok rs
        /\ List.length rs = List.length calls
        /\ Forall (fun r => RTTData.received r <= RTTData.sent r) rs)
  /\ (forall r, RTTData.sent r = 0 -> RTTData.loss r = 0%float)
  /\ (forall r, 0 < RTTData.sent r ->
        RTTData.loss r
        = (1 - int_truediv (RTTData.received r) (RTTData.sent r))%float).
Proof.
  split; [|split].
  - intros h calls. apply history_populated.
    + apply init_populated.
    + simpl. lia.
  - intros r H. unfold RTTData.loss. now rewrite H.
  - intros r H. unfold RTTData.loss.
    destruct (RTTData.sent r =? 0) eqn:E; [|reflexivity].
    apply Z.eqb_eq in E. lia.
Qed.

Lemma rttdata_received_le_sent_and_loss_witness :
  RTTData.loss (RTTData.init "8.8.8.8") = 0%float
  /\ RTTData.loss (RTTData.mk "8.8.8.8" true (Some 10%float) (Some 10%float)
                     (Some 10%float) (Some 10%float) (Some 0%float) 4 1)
     = (1 - int_truediv 1 4)%float.
Proof.
  split.
  - apply (proj1 (proj2 rttdata_received_le_sent_and_loss)). reflexivity.
  - apply (proj2 (proj2 rttdata_received_le_sent_and_loss)). simpl. lia.
Defined.

(** C7: on an accumulator that has no reply yet, after any number of
    [update(None)] calls the first [update(v)] sets
    [last = average = minimum = maximum = v] and [jitter = 0]. *)
Theorem rttdata_first_reply_sets_all (r : RTTData.t) (n : nat) (v : float) :
  RTTData.initial_data r = false ->
  exists r',
    RTTData.updates r (repeat None n ++ [Some v]) = Ok r'
    /\ RTTData.initial_data r' = true
    /\ RTTData.last r' = Some v
    /\ RTTData.average r' = Some v
    /\ RTTData.minimum r' = Some v
    /\ RTTData.maximum r' = Some v
    /\ RTTData.jitter r' = Some 0%float
    /\ RTTData.sent r' = RTTData.sent r + Z.of_nat n + 1
    /\ RTTData.received r' = RTTData.received r + 1.
Proof.
  intros Hi. rewrite updates_app, updates_timeouts. cbn [bind RTTData.updates].
  rewrite update_first_reply by exact Hi. cbn [bind].
  eexists. split; [reflexivity|]. simpl. repeat split.
Qed.

Lemma rttdata_first_reply_sets_all_witness :
  exists r',
    RTTData.updates (RTTData.init "8.8.8.8") (repeat None 3 ++ [Some 25%float])
    = Ok r'
    /\ RTTData.initial_data r' = true
    /\ RTTData.last r' = Some 25%float
    /\ RTTData.average r' = Some 25%float
    /\ RTTData.minimum r' = Some 25%float
    /\ RTTData.maximum r' = Some 25%float
    /\ RTTData.jitter r' = Some 0%float
    /\ RTTData.sent r' = RTTData.sent (RTTData.init "8.8.8.8") + Z.of_nat 3 + 1
    /\ RTTData.received r' = RTTData.received (RTTData.init "8.8.8.8") + 1.
Proof.
  apply (rttdata_first_reply_sets_all (RTTData.init "8.8.8.8") 3 25%float).
  reflexivity.
Defined.

(** ** RTTData: the running mean *)

(** On an accumulator that already holds a reply, [update(v)] weights the
    old average and the old jitter by the counter it has just incremented. *)
Lemma update_later_reply (r : RTTData.t) (v a mn mx l j : float) :
  RTTData.initial_data r = true ->
  RTTData.average r = Some a ->
  RTTData.minimum r = Some mn ->
  RTTData.maximum r = Some mx ->
  RTTData.last r = Some l ->
  RTTData.jitter r = Some j ->
  RTTData.update r (Some v)
  = Ok (RTTData.mk (RTTData.host r) true (Some v)
          (Some (RTTData.spec_running_mean (RTTData.sent r + 1) a v))
          (Some (if (v <? mn)%float then v else mn))
          (Some (if (mx <? v)%float then v else mx))
          (Some (RTTData.spec_running_mean (RTTData.sent r + 1) j
                   (abs (v - l)%float)))
          (RTTData.sent r + 1) (RTTData.received r + 1)).
Proof.
  intros Hi Ha Hmn Hmx Hl Hj.
  unfold RTTData.update. rewrite Hi, Ha, Hmn, Hmx, Hl, Hj. reflexivity.
Qed.

(** C1, as the claim states it, fails on the latencies [10, 20]: the second
    call leaves the average at [40/3] and the jitter at [10/3], while the
    weighting by the counter before the call gives [15] and [5]. *)
Lemma rttdata_pre_increment_weighting_refuted :
  RTTData.updates (RTTData.init "8.8.8.8") [Some 10%float]
  = Ok (RTTData.mk "8.8.8.8" true (Some 10%float) (Some 10%float)
          (Some 10%float) (Some 10%float) (Some 0%float) 1 1)
  /\ exists r2,
       RTTData.update
         (RTTData.mk "8.8.8.8" true (Some 10%float) (Some 10%float)
            (Some 10%float) (Some 10%float) (Some 0%float) 1 1)
         (Some 20%float) = Ok r2
       /\ RTTData.average r2 = Some (40 / 3)%float
       /\ RTTData.jitter r2 = Some (10 / 3)%float
       /\ RTTData.spec_running_mean 1 10 20 = 15%float
       /\ RTTData.spec_running_mean 1 0 (abs (20 - 10)%float) = 5%float
       /\ RTTData.average r2 <> Some (RTTData.spec_running_mean 1 10 20)
       /\ RTTData.jitter r2
          <> Some (RTTData.spec_running_mean 1 0 (abs (20 - 10)%float)).
Proof.
  split; [reflexivity|].
  eexists. split; [reflexivity|].
  split; [vm_compute; reflexivity|].
  split; [vm_compute; reflexivity|].
  split; [vm_compute; reflexivity|].
  split; [vm_compute; reflexivity|].
  split; apply some_neq, float_neq; vm_compute; reflexivity.
Qed.

(** C1, amended: on an accumulator that already holds a reply, [update(v)]
    sets the average to [(s * average + v) / (s + 1)] and the jitter to
    [(s * jitter + |v - last|) / (s + 1)] where [s] is the [sent] counter
    after this call's increment, that is [sent_before + 1]; on the loss-free
    latencies [10, 20, 10] the accumulator goes through average and jitter
    [10, 0], then [40/3, 10/3], then [12.5, 5], with minimum [10] and
    maximum [20]. *)
Theorem rttdata_update_weights_by_incremented_sent :
  (forall (r : RTTData.t) (v : float),
      RTTData.initial_data r = true ->
      RTTData.populated r ->
      exists a j l r',
        RTTData.average r = Some a
        /\ RTTData.jitter r = Some j
        /\ RTTData.last r = Some l
        /\ RTTData.update r (Some v) = Ok r'
        /\ RTTData.sent r' = RTTData.sent r + 1
        /\ RTTData.average r'
           = Some ((float_of_int (RTTData.sent r') * a + v)
                   / float_of_int (RTTData.sent r' + 1))%float
        /\ RTTData.jitter r'
           = Some ((float_of_int (RTTData.sent r') * j + abs (v - l))
                   / float_of_int (RTTData.sent r' + 1))%float
        /\ RTTData.last r' = Some v)
  /\ (forall h : string,
        RTTData.history (RTTData.init h)
          [Some 10%float; Some 20%float; Some 10%float]
        = Ok [ RTTData.mk h true (Some 10%float) (Some 10%float)
                 (Some 10%float) (Some 10%float) (Some 0%float) 1 1;
               RTTData.mk h true (Some 20%float) (Some (40 / 3)%float)
                 (Some 10%float) (Some 20%float) (Some (10 / 3)%float) 2 2;
               RTTData.mk h true (Some 10%float) (Some 12.5%float)
                 (Some 10%float) (Some 20%float) (Some 5%float) 3 3 ]).
Proof.
  split.
  - intros r v Hi Hp. unfold RTTData.populated in Hp. rewrite Hi in Hp.
    destruct Hp as (l & a & mn & mx & j & Hl & Ha & Hmn & Hmx & Hj).
    exists a, j, l. eexists.
    split; [exact Ha|]. split; [exact Hj|]. split; [exact Hl|].
    split; [exact (update_later_reply r v a mn mx l j Hi Ha Hmn Hmx Hl Hj)|].
    simpl. repeat split.
  - intros h. vm_compute. reflexivity.
Qed.

Lemma rttdata_update_weights_by_incremented_sent_witness :
  exists a j l r',
    RTTData.average
      (RTTData.mk "8.8.8.8" true (Some 10%float) (Some 10%float)
         (Some 10%float) (Some 10%float) (Some 0%float) 1 1) = Some a
    /\ RTTData.jitter
         (RTTData.mk "8.8.8.8" true (Some 10%float) (Some 10%float)
            (Some 10%float) (Some 10%float) (Some 0%float) 1 1) = Some j
    /\ RTTData.last
         (RTTData.mk "8.8.8.8" true (Some 10%float) (Some 10%float)
            (Some 10%float) (Some 10%float) (Some 0%float) 1 1) = Some l
    /\ RTTData.update
         (RTTData.mk "8.8.8.8" true (Some 10%float) (Some 10%float)
            (Some 10%float) (Some 10%float) (Some 0%float) 1 1)
         (Some 20%float) = Ok r'
    /\ RTTData.sent r' = 1 + 1
    /\ RTTData.average r'
       = Some ((float_of_int (RTTData.sent r') * a + 20)
               / float_of_int (RTTData.sent r' + 1))%float
    /\ RTTData.jitter r'
       = Some ((float_of_int (RTTData.sent r') * j + abs (20 - l))
               / float_of_int (RTTData.sent r' + 1))%float
    /\ RTTData.last r' = Some 20%float.
Proof.
  apply (proj1 rttdata_update_weights_by_incremented_sent
           (RTTData.mk "8.8.8.8" true (Some 10%float) (Some 10%float)
              (Some 10%float) (Some 10%float) (Some 0%float) 1 1)
           20%float).
  - reflexivity.
  - unfold RTTData.populated; simpl. repeat eexists.
Defined.

(** ** Traceroute: one row per distance *)

Lemma range_length (a b : Z) : List.length (range a b) = Z.to_nat (b - a).
Proof. unfold range. now rewrite length_map, length_seq. Qed.

Lemma placeholder_rows_nth (a b : Z) (i : nat) :
  (i < Z.to_nat (b - a))%nat ->
  nth i (map Traceroute.placeholder_line (range a b)) EmptyString
  = Traceroute.placeholder_line (a + Z.of_nat i).
Proof.
  intros Hi.
  rewrite (nth_indep _ EmptyString (Traceroute.placeholder_line 0))
    by now rewrite length_map, range_length.
  rewrite map_nth. f_equal. unfold range.
  rewrite (nth_indep _ 0 (a + Z.of_nat 0)) by now rewrite length_map, length_seq.
  rewrite (map_nth (fun k => a + Z.of_nat k)). now rewrite seq_nth.
Qed.

Lemma ascending_above (hs : list Hop.t) :
  forall last hop,
    Traceroute.ascending last hs -> In hop hs -> last < Hop.distance hop.
Proof.
  induction hs as [|h hs IH]; intros last hop Ha Hin; simpl in *.
  - contradiction.
  - destruct Ha as [Hlt Ha]. destruct Hin as [->|Hin]; [exact Hlt|].
    specialize (IH _ _ Ha Hin). lia.
Qed.

Lemma hop_line_sent (hop : Hop.t) :
  Hop.packets_sent hop <> 0 -> exists line, Traceroute.hop_line hop = Ok line.
Proof.
  intros Hs. unfold Traceroute.hop_line, Traceroute.loss_percent.
  destruct (Hop.packets_sent hop =? 0) eqn:E.
  - apply Z.eqb_eq in E. contradiction.
  - simpl. eexists. reflexivity.
Qed.

(** What a row holds for distance [k]: the line of the hop that answered
    from there, or the placeholder when no hop did. *)
Lemma format_hops_rows (hs : list Hop.t) :
  forall last lines,
    0 <= last ->
    Traceroute.ascending last hs ->
    Forall (fun hop => Hop.packets_sent hop <> 0) hs ->
    exists rows,
      Traceroute.format_hops (last, lines) hs
      = Ok (Z.max last (Traceroute.max_distance hs), lines ++ rows)
      /\ Z.of_nat (List.length rows)
         = Z.max last (Traceroute.max_distance hs) - last
      /\ forall k,
           last < k <= Z.max last (Traceroute.max_distance hs) ->
           (exists hop,
               In hop hs /\ Hop.distance hop = k
               /\ Traceroute.hop_line hop
                  = Ok (nth (Z.to_nat (k - last - 1)) rows EmptyString))
           \/ ((forall hop, In hop hs -> Hop.distance hop <> k)
               /\ nth (Z.to_nat (k - last - 1)) rows EmptyString
                  = Traceroute.placeholder_line k).
Proof.
  induction hs as [|h hs IH]; intros last lines H0 Ha Hs.
  - exists []. simpl. rewrite app_nil_r, Z.max_l by exact H0.
    split; [reflexivity|]. split; [lia|]. intros k Hk. lia.
  - destruct Ha as [Hlt Ha]. inversion Hs as [|? ? Hh Hs']; subst.
    destruct (hop_line_sent h Hh) as (line & Hline).
    set (gap := map Traceroute.placeholder_line
                  (range (last + 1) (Hop.distance h))).
    destruct (IH (Hop.distance h) ((lines ++ gap) ++ [line])
                ltac:(lia) Ha Hs')
      as (rows & Hrun & Hlen & Hrows).
    assert (Hgap : List.length gap = Z.to_nat (Hop.distance h - last - 1)).
    { unfold gap. rewrite length_map, range_length. f_equal. lia. }
    assert (Hmax : Z.max last (Traceroute.max_distance (h :: hs))
                   = Z.max (Hop.distance h) (Traceroute.max_distance hs)).
    { simpl. lia. }
    exists (gap ++ line :: rows). rewrite Hmax.
    split; [|split].
    + cbn [Traceroute.format_hops]. unfold Traceroute.format_hop.
      fold gap. rewrite Hline. cbn [bind]. rewrite Hrun.
      do 2 f_equal. rewrite <- !app_assoc. reflexivity.
    + rewrite length_app. cbn [List.length]. rewrite Hgap. lia.
    + intros k Hk.
      destruct (Z.lt_trichotomy k (Hop.distance h)) as [Hc|[Hc|Hc]].
      * right. split.
        -- intros hop [<-|Hin]; [lia|].
           pose proof (ascending_above _ _ _ Ha Hin). lia.
        -- rewrite app_nth1 by (rewrite Hgap; lia).
           unfold gap. rewrite placeholder_rows_nth by lia. f_equal. lia.
      * left. exists h. split; [now left|]. split; [now symmetry|].
        rewrite app_nth2 by (rewrite Hgap; lia).
        rewrite Hgap.
        replace (Z.to_nat (k - last - 1) - Z.to_nat (Hop.distance h - last - 1))%nat
          with 0%nat by lia.
        exact Hline.
      * assert (Hidx : (Z.to_nat (k - last - 1) - List.length gap)%nat
                       = S (Z.to_nat (k - Hop.distance h - 1))).
        { rewrite Hgap. lia. }
        destruct (Hrows k ltac:(lia)) as [(hop & Hin & Hd & Hl)|(Hno & Hnth)].
        -- left. exists hop. split; [now right|]. split; [exact Hd|].
           rewrite app_nth2 by (rewrite Hgap; lia).
           rewrite Hidx. exact Hl.
        -- right. split.
           ++ intros hop [<-|Hin]; [lia|]. now apply Hno.
           ++ rewrite app_nth2 by (rewrite Hgap; lia).
              rewrite Hidx. exact Hnth.
Qed.

Lemma max_distance_nonneg (hs : list Hop.t) : 0 <= Traceroute.max_distance hs.
Proof. induction hs as [|h hs IH]; simpl; lia. Qed.

(** C6: for a finished traceroute whose hops have strictly increasing
    positive distances (each hop having been sent at least one packet, as a
    hop that answered has), [format] returns the two header lines followed
    by exactly one row per distance from 1 to the largest one; the row of a
    distance some hop answered from is that hop's line, and the row of every
    other distance is the placeholder with [100.0%] loss. *)
Theorem traceroute_format_one_row_per_distance
    (tr : Traceroute.t) (hs : list Hop.t) :
  Traceroute.hops tr = Some hs ->
  Traceroute.ascending 0 hs ->
  Forall (fun hop => Hop.packets_sent hop <> 0) hs ->
  exists rows,
    Traceroute.format tr
    = Ok (String.concat newline
            (Traceroute.host_line tr :: Traceroute.column_line :: rows))
    /\ Z.of_nat (List.length rows) = Traceroute.max_distance hs
    /\ forall k,
         1 <= k <= Traceroute.max_distance hs ->
         (exists hop,
             In hop hs /\ Hop.distance hop = k
             /\ Traceroute.hop_line hop
                = Ok (nth (Z.to_nat (k - 1)) rows EmptyString))
         \/ ((forall hop, In hop hs -> Hop.distance hop <> k)
             /\ nth (Z.to_nat (k - 1)) rows EmptyString
                = (ljust 2 (str_of_int k)
                   ++ "  *               -       -       -       -       -    -    100.0%")%string).
Proof.
  intros Hh Ha Hs.
  destruct (format_hops_rows hs 0
              [Traceroute.host_line tr; Traceroute.column_line]
              ltac:(lia) Ha Hs) as (rows & Hrun & Hlen & Hrows).
  pose proof (max_distance_nonneg hs) as Hm.
  rewrite Z.max_r in Hrun, Hlen, Hrows by exact Hm.
  exists rows. split; [|split].
  - unfold Traceroute.format, Traceroute.format_lines.
    rewrite Hh, Hrun. reflexivity.
  - lia.
  - intros k Hk. specialize (Hrows k ltac:(lia)).
    rewrite Z.sub_0_r in Hrows. exact Hrows.
Qed.

Lemma traceroute_format_one_row_per_distance_witness :
  exists rows,
    Traceroute.format Sample.traceroute_1_3
    = Ok (String.concat newline
            (Traceroute.host_line Sample.traceroute_1_3
             :: Traceroute.column_line :: rows))
    /\ Z.of_nat (List.length rows)
       = Traceroute.max_distance [Sample.hop_1; Sample.hop_3]
    /\ forall k,
         1 <= k <= Traceroute.max_distance [Sample.hop_1; Sample.hop_3] ->
         (exists hop,
             In hop [Sample.hop_1; Sample.hop_3] /\ Hop.distance hop = k
             /\ Traceroute.hop_line hop
                = Ok (nth (Z.to_nat (k - 1)) rows EmptyString))
         \/ ((forall hop,
                 In hop [Sample.hop_1; Sample.hop_3] -> Hop.distance hop <> k)
             /\ nth (Z.to_nat (k - 1)) rows EmptyString
                = (ljust 2 (str_of_int k)
                   ++ "  *               -       -       -       -       -    -    100.0%")%string).
Proof.
  apply (traceroute_format_one_row_per_distance Sample.traceroute_1_3
           [Sample.hop_1; Sample.hop_3]).
  - reflexivity.
  - simpl. lia.
  - repeat constructor; simpl; lia.
Defined.

(** The table [format] writes for hops at distances 1 and 3. *)
Example traceroute_format_gap_at_2 :
  Traceroute.format_lines Sample.traceroute_1_3
  = Ok [ "Host: 1.1.1.1";
         "Hop Host            Avg     Min     Max     Jitter  Sent Recv Loss";
         "1   192.168.0.1     1.500   1.250   1.750   0.500   2    2      0.0%";
         "2   *               -       -       -       -       -    -    100.0%";
         "3   10.20.30.40     12.500  10.000  15.000  5.000   2    1     50.0%"
       ]%string.
Proof. vm_compute. reflexivity. Qed.

(** ** Diagnostics: the target setters *)

Lemma server_eqb_eq (a b : option string) :
  Diagnostics.server_eqb a b = true <-> a = b.
Proof.
  destruct a as [x|], b as [y|]; simpl; try (split; congruence).
  rewrite String.eqb_eq. split; congruence.
Qed.

(** C9, as the claim states it, fails on the empty string: the setter does
    not raise, stores it and sets the changed flag. *)
Lemma set_external_server_accepts_empty_string :
  Diagnostics.set_icmp_external_test_server Sample.diagnostics
    (Some EmptyString)
  = (Ok tt,
     Diagnostics.with_icmp_external_test_server_changed true
       (Diagnostics.with_icmp_external_test_server (Some EmptyString)
          Sample.diagnostics))
  /\ Diagnostics.icmp_external_test_server
       (snd (Diagnostics.set_icmp_external_test_server Sample.diagnostics
               (Some EmptyString)))
     = Some EmptyString
  /\ Diagnostics.icmp_external_test_server_changed
       (snd (Diagnostics.set_icmp_external_test_server Sample.diagnostics
               (Some EmptyString)))
     = true
  /\ fst (Diagnostics.set_icmp_external_test_server Sample.diagnostics
            (Some EmptyString))
     <> Raise ValueError.
Proof. repeat split. discriminate. Qed.

(** C9, amended: the setter rejects only [None]: for [None] it raises
    [ValueError] and leaves the object, hence the stored target and its
    changed flag, as it was; for every other value, the empty string
    included, it stores the value, sets the changed flag and touches nothing
    else. *)
Theorem set_external_server_rejects_only_none (d : Diagnostics.t) :
  Diagnostics.set_icmp_external_test_server d None = (Raise ValueError, d)
  /\ forall s : string,
       Diagnostics.set_icmp_external_test_server d (Some s)
       = (Ok tt,
          Diagnostics.with_icmp_external_test_server_changed true
            (Diagnostics.with_icmp_external_test_server (Some s) d))
       /\ Diagnostics.icmp_external_test_server
            (snd (Diagnostics.set_icmp_external_test_server d (Some s)))
          = Some s
       /\ Diagnostics.icmp_external_test_server_changed
            (snd (Diagnostics.set_icmp_external_test_server d (Some s)))
          = true.
Proof. split; [reflexivity|]. intros s. repeat split. Qed.

(** C10: when the stored secondary target already equals [s],
    [set_icmp_cs2_test_server(s)] leaves the whole object, hence the stored
    target and the changed flag, as it was; a different value is stored and
    sets the changed flag; so the flag is set after the call exactly when it
    was set before or the value differs from the stored one. *)
Theorem set_cs2_server_same_value_changes_nothing
    (d : Diagnostics.t) (s : option string) :
  (Diagnostics.icmp_cs2_test_server d = s ->
   Diagnostics.set_icmp_cs2_test_server d s = d)
  /\ (Diagnostics.icmp_cs2_test_server d <> s ->
      Diagnostics.set_icmp_cs2_test_server d s
      = Diagnostics.with_icmp_cs2_test_server_changed true
          (Diagnostics.with_icmp_cs2_test_server s d))
  /\ Diagnostics.icmp_cs2_test_server (Diagnostics.set_icmp_cs2_test_server d s)
     = s
  /\ (Diagnostics.icmp_cs2_test_server_changed
        (Diagnostics.set_icmp_cs2_test_server d s) = true
      <-> Diagnostics.icmp_cs2_test_server_changed d = true
          \/ Diagnostics.icmp_cs2_test_server d <> s).
Proof.
  unfold Diagnostics.set_icmp_cs2_test_server.
  destruct (Diagnostics.server_eqb (Diagnostics.icmp_cs2_test_server d) s) eqn:E.
  - apply server_eqb_eq in E.
    split; [reflexivity|]. split; [intros H; contradiction|].
    split; [exact E|]. split; [now left|].
    intros [H|H]; [exact H | contradiction].
  - assert (Hne : Diagnostics.icmp_cs2_test_server d <> s).
    { intros H. apply server_eqb_eq in H. congruence. }
    split; [intros H; contradiction|]. split; [reflexivity|].
    split; [reflexivity|]. split; [now right | reflexivity].
Qed.

Lemma set_cs2_server_same_value_changes_nothing_witness :
  Diagnostics.set_icmp_cs2_test_server
    (Diagnostics.set_icmp_cs2_test_server Sample.diagnostics
       (Some "155.133.248.34"%string))
    (Some "155.133.248.34"%string)
  = Diagnostics.set_icmp_cs2_test_server Sample.diagnostics
      (Some "155.133.248.34"%string)
  /\ Diagnostics.set_icmp_cs2_test_server Sample.diagnostics
       (Some "155.133.248.34"%string)
     = Diagnostics.with_icmp_cs2_test_server_changed true
         (Diagnostics.with_icmp_cs2_test_server (Some "155.133.248.34"%string)
            Sample.diagnostics).
Proof.
  split.
  - apply (proj1 (set_cs2_server_same_value_changes_nothing
                    (Diagnostics.set_icmp_cs2_test_server Sample.diagnostics
                       (Some "155.133.248.34"%string))
                    (Some "155.133.248.34"%string))).
    reflexivity.
  - apply (proj1 (proj2 (set_cs2_server_same_value_changes_nothing
                           Sample.diagnostics
                           (Some "155.133.248.34"%string)))).
    simpl. discriminate.
Defined.

(** ** Diagnostics: connectivity transitions *)

Lemma update_reply_last (r r' : RTTData.t) (v : float) :
  RTTData.update r (Some v) = Ok r' -> RTTData.last r' = Some v.
Proof.
  unfold RTTData.update.
  destruct (negb (RTTData.initial_data r)).
  - intros H. inversion H. reflexivity.
  - destruct (RTTData.average r), (RTTData.minimum r), (RTTData.maximum r),
      (RTTData.last r), (RTTData.jitter r); simpl; try discriminate.
    intros H. inversion H. reflexivity.
Qed.

(** A timeout counts one more consecutive loss and clears the connectivity
    flag once the count is at the threshold. *)
Lemma external_timeout (r : RTTData.t) (d : Diagnostics.t) :
  exists r' d',
    Diagnostics.icmp_external_test_result (r, d) None = Ok (r', d')
    /\ RTTData.initial_data r' = RTTData.initial_data r
    /\ (RTTData.populated r -> RTTData.populated r')
    /\ Diagnostics.icmp_external_test_seq_loss d'
       = Diagnostics.icmp_external_test_seq_loss d + 1
    /\ Diagnostics.internet_connectivity d'
       = (if Diagnostics.icmp_max_seq_loss d
             <=? Diagnostics.icmp_external_test_seq_loss d + 1
          then false else Diagnostics.internet_connectivity d)
    /\ Diagnostics.icmp_max_seq_loss d' = Diagnostics.icmp_max_seq_loss d
    /\ Diagnostics.total_interruptions d' = Diagnostics.total_interruptions d
    /\ Diagnostics.active_interruption d' = Diagnostics.active_interruption d.
Proof.
  unfold Diagnostics.icmp_external_test_result, ICMPTest.update_.
  cbn [fst snd]. rewrite update_timeout. cbn [bind].
  unfold Diagnostics.on_icmp_external_test_update. cbn [bind].
  cbn [Diagnostics.icmp_max_seq_loss Diagnostics.icmp_external_test_seq_loss
       Diagnostics.with_icmp_external_test_seq_loss].
  destruct (Diagnostics.icmp_max_seq_loss d
            <=? Diagnostics.icmp_external_test_seq_loss d + 1) eqn:E;
    cbn [bind]; do 2 eexists; (split; [reflexivity|]); simpl;
    repeat split; auto.
Qed.

Lemma external_timeouts (k : nat) :
  forall (r : RTTData.t) (d : Diagnostics.t),
    Diagnostics.internet_connectivity d
    = (Diagnostics.icmp_external_test_seq_loss d
       <? Diagnostics.icmp_max_seq_loss d) ->
    exists r' d',
      Diagnostics.icmp_external_test_results (r, d) (repeat None k)
      = Ok (r', d')
      /\ (RTTData.populated r -> RTTData.populated r')
      /\ Diagnostics.icmp_external_test_seq_loss d'
         = Diagnostics.icmp_external_test_seq_loss d + Z.of_nat k
      /\ Diagnostics.internet_connectivity d'
         = (Diagnostics.icmp_external_test_seq_loss d + Z.of_nat k
            <? Diagnostics.icmp_max_seq_loss d)
      /\ Diagnostics.icmp_max_seq_loss d' = Diagnostics.icmp_max_seq_loss d
      /\ Diagnostics.total_interruptions d' = Diagnostics.total_interruptions d
      /\ Diagnostics.active_interruption d' = Diagnostics.active_interruption d.
Proof.
  induction k as [|k IH]; intros r d Hinv.
  - exists r, d. simpl. rewrite Z.add_0_r. repeat split; auto.
  - destruct (external_timeout r d)
      as (r1 & d1 & Hstep & _ & Hp1 & Hs1 & Hc1 & Hn1 & Ht1 & Ha1).
    assert (Hinv1 : Diagnostics.internet_connectivity d1
                    = (Diagnostics.icmp_external_test_seq_loss d1
                       <? Diagnostics.icmp_max_seq_loss d1)).
    { rewrite Hc1, Hs1, Hn1, Hinv.
      destruct (Diagnostics.icmp_max_seq_loss d
                <=? Diagnostics.icmp_external_test_seq_loss d + 1) eqn:E.
      - apply Z.leb_le in E. symmetry. apply Z.ltb_ge. lia.
      - apply Z.leb_gt in E.
        transitivity true; [apply Z.ltb_lt | symmetry; apply Z.ltb_lt]; lia. }
    destruct (IH r1 d1 Hinv1)
      as (r' & d' & Hrun & Hp & Hs & Hc & Hn & Ht & Ha).
    exists r', d'. split; [|repeat split].
    + cbn [repeat Diagnostics.icmp_external_test_results].
      rewrite Hstep. cbn [bind]. exact Hrun.
    + auto.
    + rewrite Hs, Hs1. lia.
    + rewrite Hc, Hs1, Hn1. f_equal. lia.
    + congruence.
    + congruence.
    + congruence.
Qed.

(** A reply restores the connectivity flag and clears the count, as long as
    the threshold is positive. *)
Lemma external_reply (r : RTTData.t) (d : Diagnostics.t) (v : float) :
  1 <= Diagnostics.icmp_max_seq_loss d ->
  RTTData.populated r ->
  exists r' d',
    Diagnostics.icmp_external_test_result (r, d) (Some v) = Ok (r', d')
    /\ RTTData.last r' = Some v
    /\ Diagnostics.internet_connectivity d' = true
    /\ Diagnostics.icmp_external_test_seq_loss d' = 0
    /\ Diagnostics.total_interruptions d' = Diagnostics.total_interruptions d
    /\ Diagnostics.active_interruption d' = Diagnostics.active_interruption d.
Proof.
  intros HN Hp.
  destruct (update_populated r (Some v) Hp) as (r' & Hu & _).
  pose proof (update_reply_last _ _ _ Hu) as Hl.
  unfold Diagnostics.icmp_external_test_result, ICMPTest.update_.
  cbn [fst snd]. rewrite Hu. cbn [bind].
  unfold Diagnostics.on_icmp_external_test_update. rewrite Hl. cbn [number bind].
  cbn [Diagnostics.icmp_max_seq_loss Diagnostics.icmp_external_test_seq_loss
       Diagnostics.with_icmp_external_test_seq_loss
       Diagnostics.with_internet_connectivity].
  destruct (Diagnostics.icmp_max_seq_loss d <=? 0) eqn:E.
  - apply Z.leb_le in E. lia.
  - cbn [bind]. do 2 eexists. split; [reflexivity|]. simpl. repeat split; auto.
Qed.

(** One watchdog pass: the interruption flag becomes the negation of the
    connectivity flag, and the counter goes up by one exactly when the
    interruption flag goes from clear to set. *)
Lemma watchdog_pass_counts_transitions (d : Diagnostics.t) :
  Diagnostics.active_interruption (fst (Diagnostics.watchdog_connectivity d))
  = negb (Diagnostics.internet_connectivity d)
  /\ Diagnostics.internet_connectivity (fst (Diagnostics.watchdog_connectivity d))
     = Diagnostics.internet_connectivity d
  /\ Diagnostics.total_interruptions (fst (Diagnostics.watchdog_connectivity d))
     = Diagnostics.total_interruptions d
       + (if negb (Diagnostics.active_interruption d)
             && negb (Diagnostics.internet_connectivity d)
          then 1 else 0).
Proof.
  unfold Diagnostics.watchdog_connectivity.
  destruct (Diagnostics.internet_connectivity d) eqn:Hc,
           (Diagnostics.active_interruption d) eqn:Ha; simpl;
    rewrite ?Hc, ?Ha; repeat split; lia.
Qed.

Lemma watchdog_passes_during_outage (n : nat) :
  forall d : Diagnostics.t,
    Diagnostics.internet_connectivity d = false ->
    Diagnostics.active_interruption d = true ->
    Diagnostics.watchdog_passes n d = d.
Proof.
  induction n as [|n IH]; intros d Hc Ha; [reflexivity|].
  cbn [Diagnostics.watchdog_passes].
  unfold Diagnostics.watchdog_connectivity. rewrite Hc, Ha. simpl.
  now apply IH.
Qed.

(** C4: with a positive threshold and starting from stable connectivity
    with no loss counted, after [k] consecutive timeouts of the external
    probe the connectivity flag is clear exactly when [k] has reached
    [_icmp_max_seq_loss]; a watchdog pass raises the interruption counter by
    one exactly when it takes the interruption flag from clear to set, so
    any number of passes during one outage count it once; and one reply sets
    the connectivity flag again and resets the consecutive-loss counter to
    zero. *)
Theorem external_probe_connectivity_transitions
    (d : Diagnostics.t) (r : RTTData.t) :
  1 <= Diagnostics.icmp_max_seq_loss d ->
  RTTData.populated r ->
  (Diagnostics.internet_connectivity d = true ->
   Diagnostics.icmp_external_test_seq_loss d = 0 ->
   forall k : nat,
   exists r' d',
     Diagnostics.icmp_external_test_results (r, d) (repeat None k)
     = Ok (r', d')
     /\ Diagnostics.icmp_external_test_seq_loss d' = Z.of_nat k
     /\ (Diagnostics.internet_connectivity d' = false
         <-> Diagnostics.icmp_max_seq_loss d <= Z.of_nat k)
     /\ Diagnostics.total_interruptions d' = Diagnostics.total_interruptions d)
  /\ (Diagnostics.total_interruptions (fst (Diagnostics.watchdog_connectivity d))
      = Diagnostics.total_interruptions d
        + (if negb (Diagnostics.active_interruption d)
              && Diagnostics.active_interruption
                   (fst (Diagnostics.watchdog_connectivity d))
           then 1 else 0))
  /\ (Diagnostics.internet_connectivity d = false ->
      Diagnostics.active_interruption d = false ->
      forall n : nat,
        Diagnostics.active_interruption
          (Diagnostics.watchdog_passes (S n) d) = true
        /\ Diagnostics.total_interruptions
             (Diagnostics.watchdog_passes (S n) d)
           = Diagnostics.total_interruptions d + 1)
  /\ (forall v : float,
      exists r' d',
        Diagnostics.icmp_external_test_result (r, d) (Some v) = Ok (r', d')
        /\ Diagnostics.internet_connectivity d' = true
        /\ Diagnostics.icmp_external_test_seq_loss d' = 0).
Proof.
  intros HN Hp. split; [|split; [|split]].
  - intros Hc Hs k.
    destruct (external_timeouts k r d) as (r' & d' & Hrun & _ & Hs' & Hc' & _ & Ht & _).
    { rewrite Hc, Hs. symmetry. apply Z.ltb_lt. lia. }
    exists r', d'. split; [exact Hrun|]. rewrite Hs in Hs', Hc'.
    split; [exact Hs'|]. split; [|exact Ht].
    rewrite Hc'. simpl. rewrite Z.ltb_ge. reflexivity.
  - destruct (watchdog_pass_counts_transitions d) as (Ha & _ & Ht).
    rewrite Ht, Ha. reflexivity.
  - intros Hc Ha n.
    destruct (watchdog_pass_counts_transitions d) as (Ha1 & Hc1 & Ht1).
    cbn [Diagnostics.watchdog_passes].
    rewrite watchdog_passes_during_outage.
    + rewrite Ha1, Ht1, Hc, Ha. simpl. split; [reflexivity | lia].
    + now rewrite Hc1.
    + now rewrite Ha1, Hc.
  - intros v.
    destruct (external_reply r d v HN Hp) as (r' & d' & Hrun & _ & Hc & Hs & _).
    exists r', d'. auto.
Qed.

Lemma external_probe_connectivity_transitions_witness :
  exists r' d',
    Diagnostics.icmp_external_test_result
      (RTTData.init "1.1.1.1", Sample.diagnostics) (Some 20%float)
    = Ok (r', d')
    /\ Diagnostics.internet_connectivity d' = true
    /\ Diagnostics.icmp_external_test_seq_loss d' = 0.
Proof.
  refine (proj2 (proj2 (proj2
            (external_probe_connectivity_transitions Sample.diagnostics
               (RTTData.init "1.1.1.1") _ _))) 20%float).
  - simpl. lia.
  - unfold RTTData.populated. simpl. repeat split.
Defined.

(** An outage on a fresh object, whose threshold is 1: one timeout clears
    the connectivity flag, the next two watchdog passes count one
    interruption, a reply sets the flag again and the pass after it ends
    the interruption with the counter still at one. *)
Example one_outage_counts_once :
  exists r1 d1 r2 d2,
    Diagnostics.icmp_external_test_result
      (RTTData.init "1.1.1.1", Sample.diagnostics) None = Ok (r1, d1)
    /\ Diagnostics.internet_connectivity d1 = false
    /\ Diagnostics.watchdog_connectivity d1
       = (Diagnostics.with_total_interruptions 1
            (Diagnostics.with_active_interruption true d1),
          Some (Diagnostics.OnInterruptionStart 1))
    /\ Diagnostics.total_interruptions (Diagnostics.watchdog_passes 2 d1) = 1
    /\ Diagnostics.icmp_external_test_result
         (r1, Diagnostics.watchdog_passes 2 d1) (Some 20%float) = Ok (r2, d2)
    /\ Diagnostics.internet_connectivity d2 = true
    /\ Diagnostics.icmp_external_test_seq_loss d2 = 0
    /\ snd (Diagnostics.watchdog_connectivity d2)
       = Some Diagnostics.OnInterruptionEnd
    /\ Diagnostics.active_interruption
         (fst (Diagnostics.watchdog_connectivity d2)) = false
    /\ Diagnostics.total_interruptions
         (fst (Diagnostics.watchdog_connectivity d2)) = 1.
Proof.
  do 4 eexists. split; [vm_compute; reflexivity|].
  split; [reflexivity|]. split; [reflexivity|]. split; [reflexivity|].
  split; [vm_compute; reflexivity|]. repeat split.
Qed.

(** ** Diagnostics: start and stop *)

(** [start] while the watchdog thread is alive returns at its guard: the
    object and the world (threads, directories, session logging, firewall
    rules) are as before. *)
Lemma start_while_alive (d : Diagnostics.t) (w : World.t) :
  World.is_alive w (Diagnostics.watchdog_thread d) = true ->
  Diagnostics.start d w = (Diagnostics.Returned, d, w).
Proof. intros H. unfold Diagnostics.start. now rewrite H. Qed.

Lemma with_running_same (d : Diagnostics.t) :
  Diagnostics.with_running (Diagnostics.running d) d = d.
Proof. destruct d; reflexivity. Qed.

(** [stop] writes [_running = False] whatever the state; with no live
    watchdog thread it returns at once, and the object is unchanged when
    the flag was already clear. *)
Lemma stop_while_idle (d : Diagnostics.t) (w : World.t) (blocking : bool) :
  World.is_alive w (Diagnostics.watchdog_thread d) = false ->
  Diagnostics.stop d w blocking
  = (Diagnostics.Stopped, Diagnostics.with_running false d)
  /\ (Diagnostics.running d = false ->
      Diagnostics.stop d w blocking = (Diagnostics.Stopped, d)).
Proof.
  intros Hidle.
  assert (H : Diagnostics.stop d w blocking
              = (Diagnostics.Stopped, Diagnostics.with_running false d)).
  { unfold Diagnostics.stop. cbn [Diagnostics.watchdog_thread Diagnostics.with_running].
    destruct (Diagnostics.watchdog_thread d) as [thread|] eqn:Ht; [|reflexivity].
    rewrite Hidle, andb_false_r. reflexivity. }
  split; [exact H|]. intros Hr. rewrite H, <- Hr. now rewrite with_running_same.
Qed.

(** C8 at its failing input: on a fresh object, a [start] whose directory
    creation fails with [OSError] raises with [_running] still set and no
    watchdog thread; the [stop] that follows, on this idle object, clears
    [_running] and so does not leave the state unchanged. *)
Theorem stop_after_failed_start_changes_state :
  Diagnostics.start Sample.diagnostics Sample.world_mkdir_fails
  = (Diagnostics.Raised OSError,
     Diagnostics.with_running true Sample.diagnostics,
     World.set_firewall_rules true Sample.world_mkdir_fails)
  /\ Diagnostics.watchdog_thread
       (Diagnostics.with_running true Sample.diagnostics) = None
  /\ World.is_alive (World.set_firewall_rules true Sample.world_mkdir_fails)
       (Diagnostics.watchdog_thread
          (Diagnostics.with_running true Sample.diagnostics)) = false
  /\ Diagnostics.stop (Diagnostics.with_running true Sample.diagnostics)
       (World.set_firewall_rules true Sample.world_mkdir_fails) true
     = (Diagnostics.Stopped, Sample.diagnostics)
  /\ Diagnostics.stop (Diagnostics.with_running true Sample.diagnostics)
       (World.set_firewall_rules true Sample.world_mkdir_fails) false
     = (Diagnostics.Stopped, Sample.diagnostics)
  /\ Sample.diagnostics <> Diagnostics.with_running true Sample.diagnostics.
Proof.
  split; [vm_compute; reflexivity|].
  split; [reflexivity|]. split; [reflexivity|].
  split; [reflexivity|]. split; [reflexivity|].
  intros H. apply (f_equal Diagnostics.running) in H. discriminate.
Qed.

(** The sibling failure paths of [start] clear [_running] before they
    re-raise: here the firewall rules cannot be created. *)
Example start_firewall_failure_clears_running :
  Diagnostics.start Sample.diagnostics
    (World.mk "2024-05-01T12-00-00+0000" [] false [] [] 0
       None (Some OSError) None None None)
  = (Diagnostics.Raised OSError, Sample.diagnostics,
     World.mk "2024-05-01T12-00-00+0000" [] false [] [] 0
       None (Some OSError) None None None).
Proof. vm_compute. reflexivity. Qed.

(** ** Diagnostics: the escalation loop *)

Ltac pass_cases d ts p :=
  unfold Diagnostics.interruption_tests_pass, Diagnostics.speed_test_has_results,
    Diagnostics.traceroute_has_hops;
  destruct ts as [long tr short long_ok]; cbn [Diagnostics.long_speed_test
    Diagnostics.traceroute_succeeded Diagnostics.short_speed_test_succeeded
    Diagnostics.long_speed_test_succeeded];
  destruct tr, short, long_ok, long,
    (Diagnostics.traceroute_hops p), (Diagnostics.short_results p),
    (Diagnostics.long_results p);
  cbn -[SpeedTest.SHORT_TESTS PrimFloat.ltb];
  try destruct (PrimFloat.ltb (Diagnostics.short_elapsed p)
                  (Diagnostics.speed_test_min_duration d));
  cbn -[SpeedTest.SHORT_TESTS].

(** A pass writes only the [traceroute] and [speed_test] attributes. *)
Lemma pass_keeps_flags (d : Diagnostics.t) (ts : Diagnostics.tests)
    (p : Diagnostics.pass) :
  Diagnostics.running (fst (fst (Diagnostics.interruption_tests_pass d ts p)))
  = Diagnostics.running d
  /\ Diagnostics.active_interruption
       (fst (fst (Diagnostics.interruption_tests_pass d ts p)))
     = Diagnostics.active_interruption d
  /\ Diagnostics.internet_connectivity
       (fst (fst (Diagnostics.interruption_tests_pass d ts p)))
     = Diagnostics.internet_connectivity d
  /\ Diagnostics.total_interruptions
       (fst (fst (Diagnostics.interruption_tests_pass d ts p)))
     = Diagnostics.total_interruptions d.
Proof. pass_cases d ts p; repeat split. Qed.

(** Every speed test a pass starts, the one announced as long included, is
    given the short battery. *)
Lemma pass_runs_short_battery (d : Diagnostics.t) (ts : Diagnostics.tests)
    (p : Diagnostics.pass) :
  Forall (fun a => match a with
                   | Diagnostics.RunSpeedTest battery =>
                       battery = SpeedTest.SHORT_TESTS
                   | _ => True
                   end)
    (snd (Diagnostics.interruption_tests_pass d ts p)).
Proof. pass_cases d ts p; repeat constructor. Qed.

(** Once the short speed test has succeeded without asking for the long
    one, no later pass changes that, and the long speed test is never
    marked as succeeded. *)
Lemma pass_after_slow_short_test (d : Diagnostics.t) (ts : Diagnostics.tests)
    (p : Diagnostics.pass) :
  Diagnostics.short_speed_test_succeeded ts = true ->
  Diagnostics.long_speed_test ts = false ->
  Diagnostics.long_speed_test_succeeded ts = false ->
  Diagnostics.short_speed_test_succeeded
    (snd (fst (Diagnostics.interruption_tests_pass d ts p))) = true
  /\ Diagnostics.long_speed_test
       (snd (fst (Diagnostics.interruption_tests_pass d ts p))) = false
  /\ Diagnostics.long_speed_test_succeeded
       (snd (fst (Diagnostics.interruption_tests_pass d ts p))) = false.
Proof.
  intros Hs Hl Ho. pass_cases d ts p; simpl in *; try discriminate;
    repeat split.
Qed.

(** The first pass when the traceroute and the short speed test succeed and
    the short speed test does not finish under the threshold. *)
Lemma first_pass_slow_short_test (d : Diagnostics.t) (p : Diagnostics.pass) :
  Diagnostics.traceroute_hops p <> None ->
  Diagnostics.short_results p <> None ->
  (Diagnostics.short_elapsed p <? Diagnostics.speed_test_min_duration d)%float
  = false ->
  snd (fst (Diagnostics.interruption_tests_pass d
              (Diagnostics.mk_tests false false false false) p))
  = Diagnostics.mk_tests false true true false.
Proof.
  intros Ht Hs He.
  unfold Diagnostics.interruption_tests_pass, Diagnostics.speed_test_has_results,
    Diagnostics.traceroute_has_hops.
  destruct (Diagnostics.traceroute_hops p); [|congruence].
  destruct (Diagnostics.short_results p); [|congruence].
  cbn -[SpeedTest.SHORT_TESTS PrimFloat.ltb]. rewrite He. reflexivity.
Qed.

Lemma loop_stuck_after_slow_short_test (passes : list Diagnostics.pass) :
  forall (d : Diagnostics.t) (ts : Diagnostics.tests),
    Diagnostics.running d = true ->
    Diagnostics.active_interruption d = true ->
    Forall (fun p => Diagnostics.stop_requested p = false) passes ->
    Diagnostics.short_speed_test_succeeded ts = true ->
    Diagnostics.long_speed_test ts = false ->
    Diagnostics.long_speed_test_succeeded ts = false ->
    fst (fst (Diagnostics.interruption_tests_loop d ts passes))
    = Diagnostics.StillRetrying.
Proof.
  induction passes as [|p passes IH]; intros d ts Hr Ha Hp Hs Hl Ho.
  - reflexivity.
  - inversion Hp as [|? ? Hp1 Hp2]; subst.
    cbn [Diagnostics.interruption_tests_loop]. rewrite Hp1, Hr, Ha.
    cbn [andb].
    destruct (pass_keeps_flags d ts p) as (Hr' & Ha' & _).
    destruct (pass_after_slow_short_test d ts p Hs Hl Ho) as (Hs' & Hl' & Ho').
    destruct (Diagnostics.interruption_tests_pass d ts p) as [[d' ts'] acts].
    cbn [fst snd] in *. rewrite Ho', andb_false_r.
    specialize (IH d' ts' ltac:(congruence) ltac:(congruence) Hp2 Hs' Hl' Ho').
    destruct (Diagnostics.interruption_tests_loop d' ts' passes) as [[e d''] acts'].
    exact IH.
Qed.

Lemma loop_runs_short_battery (passes : list Diagnostics.pass) :
  forall (d : Diagnostics.t) (ts : Diagnostics.tests),
    Forall (fun a => match a with
                     | Diagnostics.RunSpeedTest battery =>
                         battery = SpeedTest.SHORT_TESTS
                     | _ => True
                     end)
      (snd (Diagnostics.interruption_tests_loop d ts passes)).
Proof.
  induction passes as [|p passes IH]; intros d ts.
  - constructor.
  - cbn [Diagnostics.interruption_tests_loop].
    destruct (Diagnostics.running
                (if Diagnostics.stop_requested p
                 then Diagnostics.with_running false d else d)
              && Diagnostics.active_interruption
                   (if Diagnostics.stop_requested p
                    then Diagnostics.with_running false d else d));
      [|constructor].
    pose proof (pass_runs_short_battery
                  (if Diagnostics.stop_requested p
                   then Diagnostics.with_running false d else d) ts p) as Hpass.
    destruct (Diagnostics.interruption_tests_pass
                (if Diagnostics.stop_requested p
                 then Diagnostics.with_running false d else d) ts p)
      as [[d' ts'] acts].
    cbn [snd] in Hpass.
    destruct (Diagnostics.traceroute_succeeded ts'
              && Diagnostics.short_speed_test_succeeded ts'
              && Diagnostics.long_speed_test_succeeded ts').
    + cbn [snd]. apply Forall_app. split; [exact Hpass|]. repeat constructor.
    + specialize (IH d' ts').
      destruct (Diagnostics.interruption_tests_loop d' ts' passes)
        as [[e d''] acts'].
      cbn [snd] in *. apply Forall_app. split; [exact Hpass|].
      constructor; [exact I | exact IH].
Qed.

(** C2 at its failing input: in a running, interrupted session, let the
    first pass have the fast traceroute and the short speed test succeed,
    the short speed test not finishing under the minimum duration.  The
    long speed test is then not required, yet the loop does not leave
    through its success path: whatever the later passes bring, and however
    many there are, it is still retrying as long as [stop] is not called. *)
Theorem escalation_never_finishes_after_slow_short_test
    (d : Diagnostics.t) (p : Diagnostics.pass)
    (passes : list Diagnostics.pass) :
  Diagnostics.running d = true ->
  Diagnostics.active_interruption d = true ->
  Diagnostics.stop_requested p = false ->
  Forall (fun p' => Diagnostics.stop_requested p' = false) passes ->
  Diagnostics.traceroute_hops p <> None ->
  Diagnostics.short_results p <> None ->
  (Diagnostics.short_elapsed p <? Diagnostics.speed_test_min_duration d)%float
  = false ->
  snd (fst (Diagnostics.interruption_tests_pass d
              (Diagnostics.mk_tests false false false false) p))
  = Diagnostics.mk_tests false true true false
  /\ fst (fst (Diagnostics.on_interruption_start d (p :: passes)))
     = Diagnostics.StillRetrying.
Proof.
  intros Hr Ha Hp Hps Ht Hs He.
  pose proof (first_pass_slow_short_test d p Ht Hs He) as Hfirst.
  split; [exact Hfirst|].
  unfold Diagnostics.on_interruption_start.
  cbn [Diagnostics.interruption_tests_loop]. rewrite Hp, Hr, Ha. cbn [andb].
  destruct (pass_keeps_flags d (Diagnostics.mk_tests false false false false) p)
    as (Hr' & Ha' & _).
  destruct (Diagnostics.interruption_tests_pass d
              (Diagnostics.mk_tests false false false false) p)
    as [[d' ts'] acts].
  cbn [fst snd] in *. subst ts'. cbn.
  pose proof (loop_stuck_after_slow_short_test passes d'
                (Diagnostics.mk_tests false true true false)
                ltac:(congruence) ltac:(congruence) Hps
                eq_refl eq_refl eq_refl) as Hloop.
  destruct (Diagnostics.interruption_tests_loop d'
              (Diagnostics.mk_tests false true true false) passes)
    as [[e d''] acts'].
  exact Hloop.
Qed.

Lemma escalation_never_finishes_after_slow_short_test_witness :
  snd (fst (Diagnostics.interruption_tests_pass Sample.interrupted
              (Diagnostics.mk_tests false false false false)
              Sample.pass_short_slow))
  = Diagnostics.mk_tests false true true false
  /\ fst (fst (Diagnostics.on_interruption_start Sample.interrupted
                 (Sample.pass_short_slow
                  :: [Sample.pass_short_fast; Sample.pass_short_fast])))
     = Diagnostics.StillRetrying.
Proof.
  apply (escalation_never_finishes_after_slow_short_test Sample.interrupted
           Sample.pass_short_slow
           [Sample.pass_short_fast; Sample.pass_short_fast]).
  - reflexivity.
  - reflexivity.
  - reflexivity.
  - repeat constructor.
  - simpl. discriminate.
  - simpl. discriminate.
  - vm_compute. reflexivity.
Defined.

(** C3 at its failing input: in a running, interrupted session, when the
    short speed test succeeds in 4.5 s, under the 10 s threshold, the loop
    announces the long speed test and starts it with [SHORT_TESTS]; the two
    batteries differ, and no run of the loop ever starts a speed test with
    [LONG_TESTS]. *)
Theorem long_speed_test_runs_short_battery :
  (exists d',
      Diagnostics.on_interruption_start Sample.interrupted
        [Sample.pass_short_fast]
      = (Diagnostics.AllTestsFinished, d',
         [ Diagnostics.Log "Starting traceroute";
           Diagnostics.RunTraceroute
             (Traceroute.mk (Some "1.1.1.1"%string) 3 0 1 30 true None);
           Diagnostics.Log "Starting short speed test";
           Diagnostics.RunSpeedTest SpeedTest.SHORT_TESTS;
           Diagnostics.Log "Starting long speed test";
           Diagnostics.RunSpeedTest SpeedTest.SHORT_TESTS;
           Diagnostics.Log "All tests on interruption finished" ])
      /\ Diagnostics.speed_test d'
         = Some (SpeedTest.mk SpeedTest.SHORT_TESTS (10%float, 10%float)
                   (Some Sample.speed_results)))
  /\ SpeedTest.SHORT_TESTS <> SpeedTest.LONG_TESTS
  /\ (forall (d : Diagnostics.t) (passes : list Diagnostics.pass),
         ~ In (Diagnostics.RunSpeedTest SpeedTest.LONG_TESTS)
             (snd (Diagnostics.on_interruption_start d passes))).
Proof.
  split; [|split].
  - eexists. split; vm_compute; reflexivity.
  - discriminate.
  - intros d passes Hin.
    pose proof (loop_runs_short_battery passes d
                  (Diagnostics.mk_tests false false false false)) as Hall.
    rewrite Forall_forall in Hall. specialize (Hall _ Hin).
    cbn beta iota in Hall. discriminate Hall.
Qed.

(** ** Diagnostics: the directory search of [start] ends *)

Lemma str_of_int_inj (a b : Z) : str_of_int a = str_of_int b -> a = b.
Proof.
  unfold str_of_int. intros H.
  assert (Hn : forall z, Z.to_int z <> Decimal.Pos Decimal.Nil
                         /\ Z.to_int z <> Decimal.Neg Decimal.Nil).
  { intros [|q|q]; simpl; split; try discriminate;
      intros E; injection E as E; now apply Unsigned.to_uint_nonnil in E. }
  apply DecimalZ.to_int_inj.
  assert (E : Some (Z.to_int a) = Some (Z.to_int b)).
  { rewrite <- (NilZero.isi (Z.to_int a)) by apply Hn.
    rewrite <- (NilZero.isi (Z.to_int b)) by apply Hn.
    now rewrite H. }
  now injection E.
Qed.

Lemma append_inj_l (p a b : string) : (p ++ a = p ++ b)%string -> a = b.
Proof.
  induction p as [|c p IH]; simpl; intros H; [exact H|].
  injection H as H. now apply IH.
Qed.

Lemma path_exists_in (w : World.t) (path : string) :
  World.path_exists w path = true -> In path (World.directories w).
Proof.
  unfold World.path_exists. rewrite existsb_exists.
  intros (x & Hin & Heq). apply String.eqb_eq in Heq. now subst.
Qed.

(** A search that runs out of passes has found every name it tried
    taken. *)
Lemma free_directory_none (fuel : nat) :
  forall (w : World.t) (dir timestamp current : string) (i : Z),
    Diagnostics.free_directory fuel w dir timestamp current i = None ->
    forall k : nat,
      (k < fuel)%nat ->
      In (Diagnostics.child dir
            (timestamp ++ "." ++ str_of_int (i + Z.of_nat k)))
         (World.directories w).
Proof.
  induction fuel as [|fuel IH]; intros w dir timestamp current i Hnone k Hk.
  - lia.
  - cbn [Diagnostics.free_directory] in Hnone.
    destruct (World.path_exists w current); [|discriminate].
    destruct k as [|k].
    + rewrite Z.add_0_r. destruct fuel as [|fuel'].
      * cbn [Diagnostics.free_directory] in Hnone.
        destruct (World.path_exists w
                    (Diagnostics.child dir (timestamp ++ "." ++ str_of_int i)))
          eqn:E; [|discriminate].
        now apply path_exists_in.
      * cbn [Diagnostics.free_directory] in Hnone.
        destruct (World.path_exists w
                    (Diagnostics.child dir (timestamp ++ "." ++ str_of_int i)))
          eqn:E; [|discriminate].
        now apply path_exists_in.
    + specialize (IH _ _ _ _ _ Hnone k ltac:(lia)).
      replace (i + Z.of_nat (S k)) with (i + 1 + Z.of_nat k) by lia.
      exact IH.
Qed.

(** With one pass per existing directory and one more, the search always
    reaches a free name. *)
Lemma free_directory_found (w : World.t) (dir timestamp current : string) (i : Z) :
  exists path,
    Diagnostics.free_directory (S (List.length (World.directories w))) w
      dir timestamp current i = Some path
    /\ World.path_exists w path = false.
Proof.
  destruct (Diagnostics.free_directory (S (List.length (World.directories w)))
              w dir timestamp current i) as [path|] eqn:E.
  - exists path. split; [reflexivity|].
    revert current i E.
    generalize (S (List.length (World.directories w))) as fuel.
    induction fuel as [|fuel IH]; intros current i E;
      cbn [Diagnostics.free_directory] in E;
      destruct (World.path_exists w current) eqn:Hc; try discriminate.
    + now injection E as <-.
    + now apply IH in E.
    + now injection E as <-.
  - exfalso.
    pose proof (free_directory_none _ _ _ _ _ _ E) as Hall.
    set (name := fun k : nat =>
           Diagnostics.child dir
             (timestamp ++ "." ++ str_of_int (i + Z.of_nat k))) in *.
    assert (Hinj : Injective name).
    { intros a b Hab. unfold name, Diagnostics.child in Hab.
      apply append_inj_l, append_inj_l, append_inj_l, append_inj_l in Hab.
      apply str_of_int_inj in Hab. lia. }
    pose proof (Injective_map_NoDup Hinj
                  (seq_NoDup (S (List.length (World.directories w))) 0))
      as Hnd.
    assert (Hincl : incl (map name (seq 0 (S (List.length (World.directories w)))))
                      (World.directories w)).
    { intros x Hx. apply in_map_iff in Hx. destruct Hx as (k & <- & Hk).
      apply in_seq in Hk. apply Hall. lia. }
    pose proof (NoDup_incl_length Hnd Hincl) as Hlen.
    rewrite length_map, length_seq in Hlen. lia.
Qed.

(** [start] always ends by returning or raising. *)
Lemma start_ends (d : Diagnostics.t) (w : World.t) :
  fst (fst (Diagnostics.start d w)) <> Diagnostics.Searching.
Proof.
  unfold Diagnostics.start.
  destruct (World.is_alive w (Diagnostics.watchdog_thread d)); [discriminate|].
  destruct (World.exists_raises w); [discriminate|].
  destruct (free_directory_found w
              (Diagnostics.diagnostics_dir (Diagnostics.with_running true d))
              (World.clock w)
              (Diagnostics.child
                 (Diagnostics.diagnostics_dir (Diagnostics.with_running true d))
                 (World.clock w)) 2) as (path & -> & _).
  destruct (World.create_firewall_rules_raises w); [discriminate|].
  cbn [World.mkdir_raises World.set_firewall_rules World.mkdir
       World.setup_logging_raises World.start_logging_raises].
  destruct (World.mkdir_raises w) as [[]|]; try discriminate.
  destruct (World.setup_logging_raises w); [discriminate|].
  destruct (World.start_logging_raises w); [discriminate|].
  unfold World.spawn. cbn [fst]. discriminate.
Qed.

(** ** Diagnostics: what ends the escalation loop *)

(** A pass neither reads nor writes the connectivity flag. *)
Lemma pass_ignores_connectivity (d : Diagnostics.t) (ts : Diagnostics.tests)
    (p : Diagnostics.pass) (c : bool) :
  Diagnostics.interruption_tests_pass
    (Diagnostics.with_internet_connectivity c d) ts p
  = (Diagnostics.with_internet_connectivity c
       (fst (fst (Diagnostics.interruption_tests_pass d ts p))),
     snd (fst (Diagnostics.interruption_tests_pass d ts p)),
     snd (Diagnostics.interruption_tests_pass d ts p)).
Proof. pass_cases d ts p; reflexivity. Qed.

(** The loop test reads [_running] and [_active_interruption] only: the
    value of the connectivity flag, which the external probe sets again on
    the first reply, changes neither how the loop ends nor what it does. *)
Lemma loop_ignores_connectivity (passes : list Diagnostics.pass) :
  forall (d : Diagnostics.t) (ts : Diagnostics.tests) (c : bool),
    Diagnostics.interruption_tests_loop
      (Diagnostics.with_internet_connectivity c d) ts passes
    = (fst (fst (Diagnostics.interruption_tests_loop d ts passes)),
       Diagnostics.with_internet_connectivity c
         (snd (fst (Diagnostics.interruption_tests_loop d ts passes))),
       snd (Diagnostics.interruption_tests_loop d ts passes)).
Proof.
  induction passes as [|p passes IH]; intros d ts c.
  - reflexivity.
  - cbn [Diagnostics.interruption_tests_loop].
    replace (if Diagnostics.stop_requested p
             then Diagnostics.with_running false
                    (Diagnostics.with_internet_connectivity c d)
             else Diagnostics.with_internet_connectivity c d)
      with (Diagnostics.with_internet_connectivity c
              (if Diagnostics.stop_requested p
               then Diagnostics.with_running false d else d))
      by (destruct (Diagnostics.stop_requested p); reflexivity).
    set (d0 := if Diagnostics.stop_requested p
               then Diagnostics.with_running false d else d).
    change (Diagnostics.running (Diagnostics.with_internet_connectivity c d0))
      with (Diagnostics.running d0).
    change (Diagnostics.active_interruption
              (Diagnostics.with_internet_connectivity c d0))
      with (Diagnostics.active_interruption d0).
    destruct (Diagnostics.running d0 && Diagnostics.active_interruption d0);
      [|reflexivity].
    rewrite pass_ignores_connectivity.
    destruct (Diagnostics.interruption_tests_pass d0 ts p) as [[d' ts'] acts].
    cbn [fst snd].
    destruct (Diagnostics.traceroute_succeeded ts'
              && Diagnostics.short_speed_test_succeeded ts'
              && Diagnostics.long_speed_test_succeeded ts'); [reflexivity|].
    rewrite IH.
    destruct (Diagnostics.interruption_tests_loop d' ts' passes)
      as [[e d''] acts'].
    reflexivity.
Qed.

(** * Further properties *)

(** ** RTTData: what the statistics hold *)

Lemma replies_app (xs ys : list (option float)) :
  Calls.replies (xs ++ ys) = Calls.replies xs ++ Calls.replies ys.
Proof. unfold Calls.replies. apply flat_map_app. Qed.

Lemma timeouts_app (xs ys : list (option float)) :
  Calls.timeouts (xs ++ ys) = Calls.timeouts xs ++ Calls.timeouts ys.
Proof. unfold Calls.timeouts. apply flat_map_app. Qed.

Lemma calls_split (calls : list (option float)) :
  List.length calls
  = (List.length (Calls.replies calls) + List.length (Calls.timeouts calls))%nat.
Proof.
  induction calls as [|[v|] calls IH]; [reflexivity| |];
    unfold Calls.replies, Calls.timeouts in *;
    cbn [flat_map app List.length]; lia.
Qed.

(** The counters and the last latency after any calls on a consistent
    accumulator. *)
Lemma updates_counters (calls : list (option float)) :
  forall r : RTTData.t,
    RTTData.populated r ->
    exists r',
      RTTData.updates r calls = Ok r'
      /\ RTTData.populated r'
      /\ RTTData.host r' = RTTData.host r
      /\ RTTData.sent r' = RTTData.sent r + Z.of_nat (List.length calls)
      /\ RTTData.received r'
         = RTTData.received r + Z.of_nat (List.length (Calls.replies calls))
      /\ RTTData.initial_data r'
         = (RTTData.initial_data r
            || negb (Nat.eqb (List.length (Calls.replies calls)) 0))
      /\ RTTData.last r'
         = match Calls.last_reply calls with
           | Some v => Some v
           | None => RTTData.last r
           end.
Proof.
  induction calls as [|c calls IH] using rev_ind; intros r Hp.
  - exists r. simpl. rewrite !Z.add_0_r, orb_false_r. repeat split; auto.
  - destruct (IH r Hp) as (r1 & Hrun & Hp1 & Hh & Hs & Hr & Hi & Hl).
    rewrite updates_app, Hrun. cbn [bind RTTData.updates].
    unfold Calls.last_reply in *.
    rewrite replies_app, !length_app, rev_app_distr.
    destruct c as [v|]; cbn [Calls.replies flat_map app rev List.length].
    + destruct (RTTData.initial_data r1) eqn:Hi1.
      * unfold RTTData.populated in Hp1. rewrite Hi1 in Hp1.
        destruct Hp1 as (l & a & mn & mx & j & Hl1 & Ha & Hmn & Hmx & Hj).
        rewrite (update_later_reply r1 v a mn mx l j Hi1 Ha Hmn Hmx Hl1 Hj).
        cbn [bind]. eexists. split; [reflexivity|].
        unfold RTTData.populated. simpl.
        split; [repeat eexists|]. split; [exact Hh|].
        split; [lia|]. split; [lia|]. split; [|reflexivity].
        rewrite Nat.add_1_r. simpl. now rewrite orb_true_r.
      * rewrite (update_first_reply r1 v Hi1). cbn [bind].
        eexists. split; [reflexivity|].
        unfold RTTData.populated. simpl.
        split; [repeat eexists|]. split; [exact Hh|].
        split; [lia|]. split; [lia|]. split; [|reflexivity].
        rewrite Nat.add_1_r. simpl. now rewrite orb_true_r.
    + rewrite update_timeout. cbn [bind]. eexists. split; [reflexivity|].
      simpl. rewrite Nat.add_0_r.
      split; [exact Hp1|]. split; [exact Hh|]. split; [lia|].
      split; [lia|]. split; [exact Hi | exact Hl].
Qed.

(** X1: after any calls on a fresh accumulator, [sent] is the number of
    calls, [received] the number of replies and [lost] the number of
    timeouts. *)
Theorem rttdata_counters_count_calls (h : string) (calls : list (option float)) :
  exists r,
    RTTData.updates (RTTData.init h) calls = Ok r
    /\ RTTData.host r = h
    /\ RTTData.sent r = Z.of_nat (List.length calls)
    /\ RTTData.received r = Z.of_nat (List.length (Calls.replies calls))
    /\ RTTData.lost r = Z.of_nat (List.length (Calls.timeouts calls)).
Proof.
  destruct (updates_counters calls (RTTData.init h) (init_populated h))
    as (r & Hrun & _ & Hh & Hs & Hr & _).
  exists r. simpl in *. repeat split; auto.
  unfold RTTData.lost. rewrite Hs, Hr, (calls_split calls). lia.
Qed.

(** X2: after any calls on a fresh accumulator, [last] is the most recent
    reply, and the statistics are present exactly when there was a reply,
    that is when [received > 0]. *)
Theorem rttdata_last_is_most_recent_reply
    (h : string) (calls : list (option float)) :
  exists r,
    RTTData.updates (RTTData.init h) calls = Ok r
    /\ RTTData.last r = Calls.last_reply calls
    /\ (RTTData.initial_data r = true <-> 0 < RTTData.received r)
    /\ (RTTData.initial_data r = true <->
        exists a mn mx j,
          RTTData.average r = Some a /\ RTTData.minimum r = Some mn
          /\ RTTData.maximum r = Some mx /\ RTTData.jitter r = Some j)
    /\ (RTTData.initial_data r = false <->
        RTTData.average r = None /\ RTTData.minimum r = None
        /\ RTTData.maximum r = None /\ RTTData.jitter r = None).
Proof.
  destruct (updates_counters calls (RTTData.init h) (init_populated h))
    as (r & Hrun & Hp & _ & _ & Hr & Hi & Hl).
  exists r. split; [exact Hrun|]. simpl in Hr, Hi, Hl.
  split; [now destruct (Calls.last_reply calls)|].
  split.
  { rewrite Hi, Hr. destruct (List.length (Calls.replies calls)); simpl;
      split; intros; try discriminate; try reflexivity; lia. }
  unfold RTTData.populated in Hp.
  destruct (RTTData.initial_data r).
  - destruct Hp as (l & a & mn & mx & j & _ & Ha & Hmn & Hmx & Hj).
    split; split; intros H; try reflexivity; try discriminate.
    + exists a, mn, mx, j. auto.
    + destruct H as [H _]. congruence.
  - destruct Hp as (_ & Ha & Hmn & Hmx & Hj).
    split; split; intros H; try reflexivity; try discriminate; auto.
    destruct H as (a & _ & _ & _ & H & _). congruence.
Qed.

Lemma updates_min_max (calls : list (option float)) :
  forall r : RTTData.t,
    RTTData.populated r ->
    exists r',
      RTTData.updates r calls = Ok r'
      /\ (RTTData.minimum r' = RTTData.minimum r
          \/ exists v, In v (Calls.replies calls) /\ RTTData.minimum r' = Some v)
      /\ (RTTData.maximum r' = RTTData.maximum r
          \/ exists v, In v (Calls.replies calls) /\ RTTData.maximum r' = Some v).
Proof.
  induction calls as [|c calls IH] using rev_ind; intros r Hp.
  - exists r. simpl. auto.
  - destruct (IH r Hp) as (r1 & Hrun & Hmn1 & Hmx1).
    destruct (updates_counters calls r Hp) as (r1' & Hrun' & Hp1 & _).
    rewrite Hrun in Hrun'. inversion Hrun'; subst r1'. clear Hrun'.
    rewrite updates_app, Hrun. cbn [bind RTTData.updates].
    rewrite replies_app.
    assert (Hkeep : forall (f : RTTData.t -> option float) r2,
               f r2 = f r1 ->
               (f r1 = f r
                \/ exists v, In v (Calls.replies calls) /\ f r1 = Some v) ->
               f r2 = f r
               \/ exists v, In v (Calls.replies calls ++ Calls.replies [c])
                            /\ f r2 = Some v).
    { intros f r2 E [H|(v & Hin & H)]; [left; congruence|].
      right. exists v. split; [apply in_or_app; now left | congruence]. }
    assert (Hnew : forall (f : RTTData.t -> option float) r2 v,
               c = Some v -> f r2 = Some v ->
               f r2 = f r
               \/ exists v', In v' (Calls.replies calls ++ Calls.replies [c])
                             /\ f r2 = Some v').
    { intros f r2 v -> E. right. exists v.
      split; [apply in_or_app; right; now left | exact E]. }
    destruct c as [v|].
    + destruct (RTTData.initial_data r1) eqn:Hi1.
      * unfold RTTData.populated in Hp1. rewrite Hi1 in Hp1.
        destruct Hp1 as (l & a & mn & mx & j & Hl1 & Ha & Hmn & Hmx & Hj).
        rewrite (update_later_reply r1 v a mn mx l j Hi1 Ha Hmn Hmx Hl1 Hj).
        cbn [bind]. eexists. split; [reflexivity|]. split.
        -- destruct (v <? mn)%float.
           ++ now apply (Hnew RTTData.minimum _ v eq_refl).
           ++ apply (Hkeep RTTData.minimum); [|exact Hmn1].
              simpl. now rewrite Hmn.
        -- destruct (mx <? v)%float.
           ++ now apply (Hnew RTTData.maximum _ v eq_refl).
           ++ apply (Hkeep RTTData.maximum); [|exact Hmx1].
              simpl. now rewrite Hmx.
      * rewrite (update_first_reply r1 v Hi1). cbn [bind].
        eexists. split; [reflexivity|]. split.
        -- now apply (Hnew RTTData.minimum _ v eq_refl).
        -- now apply (Hnew RTTData.maximum _ v eq_refl).
    + rewrite update_timeout. cbn [bind]. eexists. split; [reflexivity|].
      split.
      * now apply (Hkeep RTTData.minimum).
      * now apply (Hkeep RTTData.maximum).
Qed.

(** X3: after any calls on a fresh accumulator, [minimum] and [maximum] are
    absent or are latencies that some call reported. *)
Theorem rttdata_min_max_are_observed (h : string) (calls : list (option float)) :
  exists r,
    RTTData.updates (RTTData.init h) calls = Ok r
    /\ (RTTData.minimum r = None
        \/ exists v, In (Some v) calls /\ RTTData.minimum r = Some v)
    /\ (RTTData.maximum r = None
        \/ exists v, In (Some v) calls /\ RTTData.maximum r = Some v).
Proof.
  assert (Hin : forall v, In v (Calls.replies calls) -> In (Some v) calls).
  { intros v. unfold Calls.replies. rewrite in_flat_map.
    intros ([w|] & Hc & Hv); simpl in Hv; [|contradiction].
    destruct Hv as [->|[]]. exact Hc. }
  destruct (updates_min_max calls (RTTData.init h) (init_populated h))
    as (r & Hrun & Hmn & Hmx).
  exists r. split; [exact Hrun|]. simpl in Hmn, Hmx. split.
  - destruct Hmn as [H|(v & Hv & H)]; [now left|].
    right. exists v. auto.
  - destruct Hmx as [H|(v & Hv & H)]; [now left|].
    right. exists v. auto.
Qed.

(** X4: [str] of an accumulator returns, whatever calls it has received
    since its construction; with no reply its last line shows dashes for
    the four statistics. *)
Theorem rttdata_str_returns (h : string) (calls : list (option float)) :
  exists r text,
    RTTData.updates (RTTData.init h) calls = Ok r
    /\ rttdata_str r = Ok text
    /\ (Calls.replies calls = [] ->
        text
        = ("Host: " ++ h ++ newline
           ++ "Avg     Min     Max     Jitter  Sent Recv Loss" ++ newline
           ++ "-       -       -       -       "
           ++ ljust 4 (str_of_int (Z.of_nat (List.length calls))) ++ " "
           ++ ljust 4 (str_of_int 0) ++ " "
           ++ rjust 5 (format_f 1 (RTTData.loss r * float_of_int 100)%float)
           ++ "%")%string).
Proof.
  destruct (updates_counters calls (RTTData.init h) (init_populated h))
    as (r & Hrun & Hp & Hh & Hs & Hr & Hi & _).
  simpl in Hh, Hs, Hr, Hi.
  unfold RTTData.populated in Hp. exists r. unfold rttdata_str.
  destruct (RTTData.initial_data r) eqn:Hi1.
  - destruct Hp as (l & a & mn & mx & j & _ & Ha & Hmn & Hmx & Hj).
    rewrite Ha, Hmn, Hmx, Hj. cbn [negb number bind].
    eexists. split; [exact Hrun|]. split; [reflexivity|].
    intros Hnone. rewrite Hnone in Hi. discriminate.
  - cbn [negb]. eexists. split; [exact Hrun|]. split; [reflexivity|].
    intros Hnone. rewrite Hnone in Hr. simpl in Hr.
    now rewrite Hh, Hs, Hr.
Qed.

Lemma rttdata_str_returns_witness :
  exists r text,
    RTTData.updates (RTTData.init "1.1.1.1") [None; None; None] = Ok r
    /\ rttdata_str r = Ok text
    /\ text
       = ("Host: 1.1.1.1" ++ newline
          ++ "Avg     Min     Max     Jitter  Sent Recv Loss" ++ newline
          ++ "-       -       -       -       3    0    100.0%")%string.
Proof.
  destruct (rttdata_str_returns "1.1.1.1" [None; None; None])
    as (r & text & Hrun & Hstr & Htext).
  exists r, text. split; [exact Hrun|]. split; [exact Hstr|].
  rewrite (Htext eq_refl).
  vm_compute in Hrun. inversion Hrun. vm_compute. reflexivity.
Defined.

(** ** Traceroute: when [format] raises *)

Lemma hop_line_unsent (hop : Hop.t) :
  Hop.packets_sent hop = 0 -> Traceroute.hop_line hop = Raise ZeroDivisionError.
Proof.
  intros Hs. unfold Traceroute.hop_line, Traceroute.loss_percent.
  rewrite Hs. reflexivity.
Qed.

Lemma format_hops_outcome (hs : list Hop.t) :
  forall st : Z * list string,
    (Forall (fun hop => Hop.packets_sent hop <> 0) hs ->
     exists st', Traceroute.format_hops st hs = Ok st')
    /\ (Exists (fun hop => Hop.packets_sent hop = 0) hs ->
        Traceroute.format_hops st hs = Raise ZeroDivisionError).
Proof.
  induction hs as [|h hs IH]; intros [last lines].
  - split; [intros _; eexists; reflexivity|]. intros H. inversion H.
  - cbn [Traceroute.format_hops]. unfold Traceroute.format_hop.
    destruct (Z.eq_dec (Hop.packets_sent h) 0) as [Hz|Hnz].
    + rewrite (hop_line_unsent h Hz). cbn [bind]. split; [|reflexivity].
      intros H. inversion H; subst. contradiction.
    + destruct (hop_line_sent h Hnz) as (line & ->). cbn [bind].
      destruct (IH (Hop.distance h,
                    (lines ++ map Traceroute.placeholder_line
                                (range (last + 1) (Hop.distance h))) ++ [line]))
        as [Hok Hbad].
      split.
      * intros H. inversion H; subst. now apply Hok.
      * intros H. inversion H; subst; [contradiction | now apply Hbad].
Qed.

(** X5: [format] raises [ValueError] exactly when there are no hops
    recorded; with hops recorded, in any order, it returns when every hop
    was sent at least one packet and raises [ZeroDivisionError] when some
    hop was sent none. *)
Theorem traceroute_format_outcome (tr : Traceroute.t) :
  (Traceroute.hops tr = None <-> Traceroute.format tr = Raise ValueError)
  /\ forall hs,
       Traceroute.hops tr = Some hs ->
       (Forall (fun hop => Hop.packets_sent hop <> 0) hs ->
        exists text, Traceroute.format tr = Ok text)
       /\ (Exists (fun hop => Hop.packets_sent hop = 0) hs ->
           Traceroute.format tr = Raise ZeroDivisionError).
Proof.
  unfold Traceroute.format, Traceroute.format_lines.
  destruct (Traceroute.hops tr) as [hs|] eqn:Hh.
  - destruct (format_hops_outcome hs
                (0, [Traceroute.host_line tr; Traceroute.column_line]))
      as [Hok Hbad].
    split.
    + split; [discriminate|].
      destruct (Forall_Exists_dec (fun hop => Hop.packets_sent hop <> 0)
                  (fun hop => match Z.eq_dec (Hop.packets_sent hop) 0 with
                              | left e => right (fun n => n e)
                              | right n => left n
                              end) hs) as [Hall|Hex].
      * destruct (Hok Hall) as (st' & ->). discriminate.
      * rewrite Hbad; [discriminate|].
        apply Exists_exists. apply Exists_exists in Hex.
        destruct Hex as (hop & Hin & Hn). exists hop. split; [exact Hin|].
        destruct (Z.eq_dec (Hop.packets_sent hop) 0); [assumption|contradiction].
    + intros hs' E. inversion E; subst hs'. split.
      * intros Hall. destruct (Hok Hall) as (st' & ->). eexists. reflexivity.
      * intros Hex. now rewrite (Hbad Hex).
  - split; [split; reflexivity|]. intros hs E. discriminate.
Qed.

Lemma traceroute_format_outcome_witness :
  Traceroute.format
    (Traceroute.mk (Some "1.1.1.1"%string) 2 0 2 30 false
       (Some [Sample.hop_1; Hop.mk 2 "10.0.0.1" 0 0 0 0 0 0]))
  = Raise ZeroDivisionError
  /\ exists text, Traceroute.format Sample.traceroute_1_3 = Ok text.
Proof.
  split.
  - apply (proj2 (traceroute_format_outcome
                    (Traceroute.mk (Some "1.1.1.1"%string) 2 0 2 30 false
                       (Some [Sample.hop_1; Hop.mk 2 "10.0.0.1" 0 0 0 0 0 0])))
             [Sample.hop_1; Hop.mk 2 "10.0.0.1" 0 0 0 0 0 0] eq_refl).
    apply Exists_cons_tl, Exists_cons_hd. reflexivity.
  - apply (proj2 (traceroute_format_outcome Sample.traceroute_1_3)
             [Sample.hop_1; Sample.hop_3] eq_refl).
    repeat constructor; simpl; lia.
Defined.

(** ** Diagnostics: a session from start to tear-down *)

Lemma path_exists_head (w : World.t) (path : string) :
  World.path_exists (World.mkdir path w) path = true.
Proof.
  unfold World.mkdir, World.path_exists at 1. cbn [World.directories].
  destruct (World.path_exists w path) eqn:E; [exact E|].
  cbn [existsb]. now rewrite String.eqb_refl.
Qed.

(** X6: on an idle object, when no external call fails, [start] returns
    with [_running] set and a live watchdog thread, having created a session
    directory that did not exist before, started session logging on it and
    created the firewall rules; a second [start] right after it changes
    nothing. *)
Theorem start_opens_a_fresh_session (d : Diagnostics.t) (w : World.t) :
  World.is_alive w (Diagnostics.watchdog_thread d) = false ->
  World.exists_raises w = None ->
  World.create_firewall_rules_raises w = None ->
  World.mkdir_raises w = None ->
  World.setup_logging_raises w = None ->
  World.start_logging_raises w = None ->
  exists path d' w',
    Diagnostics.start d w = (Diagnostics.Returned, d', w')
    /\ World.path_exists w path = false
    /\ World.path_exists w' path = true
    /\ Diagnostics.stop_diagnostics_logging d' = Some path
    /\ World.session_logging w' = path :: World.session_logging w
    /\ World.firewall_rules w' = true
    /\ Diagnostics.running d' = true
    /\ Diagnostics.running_property d' w' = true
    /\ Diagnostics.start d' w' = (Diagnostics.Returned, d', w').
Proof.
  intros Hidle He Hf Hm Hs Hl.
  destruct (free_directory_found w
              (Diagnostics.diagnostics_dir (Diagnostics.with_running true d))
              (World.clock w)
              (Diagnostics.child
                 (Diagnostics.diagnostics_dir (Diagnostics.with_running true d))
                 (World.clock w)) 2) as (path & Hfree & Hnew).
  assert (Hstart :
    Diagnostics.start d w
    = (Diagnostics.Returned,
       Diagnostics.with_watchdog_thread (Some (World.next_thread w))
         (Diagnostics.with_stop_diagnostics_logging (Some path)
            (Diagnostics.with_running true d)),
       snd (World.spawn
              (World.start_logging path
                 (World.mkdir path (World.set_firewall_rules true w)))))).
  { unfold Diagnostics.start. rewrite Hidle, He, Hfree, Hf.
    cbn [World.mkdir_raises World.set_firewall_rules World.mkdir
         World.setup_logging_raises World.start_logging_raises].
    rewrite Hm, Hs, Hl. reflexivity. }
  assert (Halive :
    World.is_alive
      (snd (World.spawn
              (World.start_logging path
                 (World.mkdir path (World.set_firewall_rules true w)))))
      (Some (World.next_thread w)) = true).
  { cbn. now rewrite Nat.eqb_refl. }
  exists path. do 2 eexists. split; [exact Hstart|].
  split; [exact Hnew|]. split.
  { pose proof (path_exists_head (World.set_firewall_rules true w) path) as H.
    exact H. }
  split; [reflexivity|]. split; [reflexivity|]. split; [reflexivity|].
  split; [reflexivity|]. split; [exact Halive|].
  apply start_while_alive. exact Halive.
Qed.

Lemma start_opens_a_fresh_session_witness :
  exists path d' w',
    Diagnostics.start Sample.diagnostics Sample.world
    = (Diagnostics.Returned, d', w')
    /\ World.path_exists Sample.world path = false
    /\ World.path_exists w' path = true
    /\ Diagnostics.stop_diagnostics_logging d' = Some path
    /\ World.session_logging w' = path :: World.session_logging Sample.world
    /\ World.firewall_rules w' = true
    /\ Diagnostics.running d' = true
    /\ Diagnostics.running_property d' w' = true
    /\ Diagnostics.start d' w' = (Diagnostics.Returned, d', w').
Proof.
  apply (start_opens_a_fresh_session Sample.diagnostics Sample.world);
    reflexivity.
Defined.





Lemma start_keeps_connectivity (d : Diagnostics.t) (w : World.t) :
  Diagnostics.internet_connectivity (snd (fst (Diagnostics.start d w)))
  = Diagnostics.internet_connectivity d
  /\ Diagnostics.active_interruption (snd (fst (Diagnostics.start d w)))
     = Diagnostics.active_interruption d
  /\ Diagnostics.total_interruptions (snd (fst (Diagnostics.start d w)))
     = Diagnostics.total_interruptions d
  /\ Diagnostics.icmp_external_test_seq_loss (snd (fst (Diagnostics.start d w)))
     = Diagnostics.icmp_external_test_seq_loss d.
Proof.
  unfold Diagnostics.start.
  destruct (World.is_alive w (Diagnostics.watchdog_thread d)); [cbn; auto|].
  destruct (World.exists_raises w); [cbn; auto|].
  destruct (Diagnostics.free_directory _ _ _ _ _ _); [|cbn; auto].
  destruct (World.create_firewall_rules_raises w); [cbn; auto|].
  cbn [World.mkdir_raises World.set_firewall_rules World.mkdir
       World.setup_logging_raises World.start_logging_raises].
  destruct (World.mkdir_raises w) as [[]|]; try (cbn; now auto).
  destruct (World.setup_logging_raises w); [cbn; auto|].
  destruct (World.start_logging_raises w); cbn; auto.
Qed.

(** X9: tear-down resets the interruption flag and the interruption counter
    but neither the connectivity flag nor the consecutive-loss counter, and
    [start] resets none of them; so when a session is torn down during an
    outage, the first watchdog pass of the next session reports interruption
    number 1 before any probe result has arrived. *)
Theorem connectivity_flag_survives_sessions
    (d : Diagnostics.t) (w w' : World.t) (fault : option exn) :
  Diagnostics.internet_connectivity d = false ->
  Diagnostics.internet_connectivity (snd (fst (Teardown.clean_up d w fault)))
  = false
  /\ Diagnostics.icmp_external_test_seq_loss
       (snd (fst (Teardown.clean_up d w fault)))
     = Diagnostics.icmp_external_test_seq_loss d
  /\ Diagnostics.active_interruption (snd (fst (Teardown.clean_up d w fault)))
     = false
  /\ Diagnostics.total_interruptions (snd (fst (Teardown.clean_up d w fault)))
     = 0
  /\ snd (Diagnostics.watchdog_connectivity
            (snd (fst (Diagnostics.start
                         (snd (fst (Teardown.clean_up d w fault))) w'))))
     = Some (Diagnostics.OnInterruptionStart 1).
Proof.
  intros Hc.
  assert (Hclean :
    Diagnostics.internet_connectivity (snd (fst (Teardown.clean_up d w fault)))
    = false
    /\ Diagnostics.icmp_external_test_seq_loss
         (snd (fst (Teardown.clean_up d w fault)))
       = Diagnostics.icmp_external_test_seq_loss d
    /\ Diagnostics.active_interruption (snd (fst (Teardown.clean_up d w fault)))
       = false
    /\ Diagnostics.total_interruptions (snd (fst (Teardown.clean_up d w fault)))
       = 0).
  { unfold Teardown.clean_up. destruct fault as [[]|]; cbn; auto. }
  destruct Hclean as (H1 & H2 & H3 & H4).
  repeat (split; [assumption|]).
  destruct (start_keeps_connectivity
              (snd (fst (Teardown.clean_up d w fault))) w')
    as (Hc' & Ha' & Ht' & _).
  unfold Diagnostics.watchdog_connectivity.
  rewrite Hc', Ha', H1, H3. cbn. now rewrite Ht', H4.
Qed.

Lemma connectivity_flag_survives_sessions_witness :
  snd (Diagnostics.watchdog_connectivity
         (snd (fst (Diagnostics.start
                      (snd (fst (Teardown.clean_up Sample.interrupted
                                   Sample.world None)))
                      Sample.world))))
  = Some (Diagnostics.OnInterruptionStart 1).
Proof.
  apply (connectivity_flag_survives_sessions Sample.interrupted Sample.world
           Sample.world None).
  reflexivity.
Defined.

(** X10: a probe error clears the connectivity flag whatever the loss
    count; the flag stays clear over any number of timeouts that follow and
    is set again by the first reply. *)
Theorem probe_error_means_lost_until_reply
    (d : Diagnostics.t) (r : RTTData.t) :
  1 <= Diagnostics.icmp_max_seq_loss d ->
  RTTData.populated r ->
  forall k : nat,
  exists r' d',
    Diagnostics.icmp_external_test_results
      (r, Teardown.on_icmp_external_test_error d) (repeat None k)
    = Ok (r', d')
    /\ Diagnostics.internet_connectivity d' = false
    /\ forall v : float,
       exists r'' d'',
         Diagnostics.icmp_external_test_result (r', d') (Some v)
         = Ok (r'', d'')
         /\ Diagnostics.internet_connectivity d'' = true
         /\ Diagnostics.icmp_external_test_seq_loss d'' = 0.
Proof.
  intros HN Hp k.
  assert (Hgen : forall (k : nat) (r0 : RTTData.t) (d0 : Diagnostics.t),
             RTTData.populated r0 ->
             Diagnostics.internet_connectivity d0 = false ->
             exists r' d',
               Diagnostics.icmp_external_test_results (r0, d0) (repeat None k)
               = Ok (r', d')
               /\ RTTData.populated r'
               /\ Diagnostics.internet_connectivity d' = false
               /\ Diagnostics.icmp_max_seq_loss d'
                  = Diagnostics.icmp_max_seq_loss d0).
  { clear. induction k as [|k IH]; intros r0 d0 Hp0 Hc0.
    - exists r0, d0. simpl. auto.
    - destruct (external_timeout r0 d0)
        as (r1 & d1 & Hstep & _ & Hp1 & _ & Hc1 & Hn1 & _).
      destruct (IH r1 d1 (Hp1 Hp0)) as (r' & d' & Hrun & Hp' & Hc' & Hn').
      { rewrite Hc1, Hc0. now destruct (_ <=? _). }
      exists r', d'. split; [|split; [exact Hp'|split; [exact Hc'|congruence]]].
      cbn [repeat Diagnostics.icmp_external_test_results].
      rewrite Hstep. cbn [bind]. exact Hrun. }
  destruct (Hgen k r (Teardown.on_icmp_external_test_error d) Hp eq_refl)
    as (r' & d' & Hrun & Hp' & Hc' & Hn').
  exists r', d'. split; [exact Hrun|]. split; [exact Hc'|].
  intros v.
  destruct (external_reply r' d' v) as (r'' & d'' & Hres & _ & Hc'' & Hs'' & _).
  - rewrite Hn'. exact HN.
  - exact Hp'.
  - exists r'', d''. auto.
Qed.

Lemma probe_error_means_lost_until_reply_witness :
  exists r' d',
    Diagnostics.icmp_external_test_results
      (RTTData.init "1.1.1.1",
       Teardown.on_icmp_external_test_error Sample.diagnostics)
      (repeat None 2)
    = Ok (r', d')
    /\ Diagnostics.internet_connectivity d' = false
    /\ forall v : float,
       exists r'' d'',
         Diagnostics.icmp_external_test_result (r', d') (Some v)
         = Ok (r'', d'')
         /\ Diagnostics.internet_connectivity d'' = true
         /\ Diagnostics.icmp_external_test_seq_loss d'' = 0.
Proof.
  apply (probe_error_means_lost_until_reply Sample.diagnostics
           (RTTData.init "1.1.1.1")).
  - simpl. lia.
  - apply init_populated.
Defined.

(** ** Diagnostics: target changes *)

(** X11: the watchdog pass acts on a target change once: it leaves both
    changed flags clear and the stored targets as they were, so a second
    pass issues no command. *)
Theorem target_change_is_acted_on_once (d : Diagnostics.t) :
  Diagnostics.icmp_external_test_server_changed
    (fst (Teardown.watchdog_target_changes d)) = false
  /\ Diagnostics.icmp_cs2_test_server_changed
       (fst (Teardown.watchdog_target_changes d)) = false
  /\ Diagnostics.icmp_external_test_server
       (fst (Teardown.watchdog_target_changes d))
     = Diagnostics.icmp_external_test_server d
  /\ Diagnostics.icmp_cs2_test_server
       (fst (Teardown.watchdog_target_changes d))
     = Diagnostics.icmp_cs2_test_server d
  /\ Teardown.watchdog_target_changes
       (fst (Teardown.watchdog_target_changes d))
     = (fst (Teardown.watchdog_target_changes d), []).
Proof.
  unfold Teardown.watchdog_target_changes.
  destruct (Diagnostics.icmp_external_test_server_changed d) eqn:He,
           (Diagnostics.icmp_cs2_test_server_changed d) eqn:Hc;
    cbn; rewrite ?He, ?Hc; cbn; rewrite ?He, ?Hc; cbn; repeat split.
Qed.

(** X12: with no change pending, [set_icmp_cs2_test_server] with the stored
    value makes the next pass issue no command; with another value the pass
    stops the CS2 probe and, unless the value is [None], starts it and a
    traceroute against the new target.  [set_icmp_external_test_server] has
    no such guard: every accepted value, the stored one included, makes the
    next pass restart the external probe and the traceroute. *)
Theorem setters_and_next_pass (d : Diagnostics.t) :
  Diagnostics.icmp_external_test_server_changed d = false ->
  Diagnostics.icmp_cs2_test_server_changed d = false ->
  (forall s : option string,
      snd (Teardown.watchdog_target_changes
             (Diagnostics.set_icmp_cs2_test_server d s))
      = if Diagnostics.server_eqb (Diagnostics.icmp_cs2_test_server d) s
        then []
        else Teardown.StopICMPCS2Test
             :: match s with
                | Some _ => [ Teardown.StartICMPCS2Test s;
                              Teardown.WaitTraceroute;
                              Teardown.RunTraceroute s ]
                | None => []
                end)
  /\ (forall s : string,
         snd (Teardown.watchdog_target_changes
                (snd (Diagnostics.set_icmp_external_test_server d (Some s))))
         = [ Teardown.StopICMPExternalTest;
             Teardown.StartICMPExternalTest (Some s);
             Teardown.WaitTraceroute;
             Teardown.RunTraceroute (Some s) ]).
Proof.
  intros He Hc. split.
  - intros s. unfold Diagnostics.set_icmp_cs2_test_server.
    destruct (Diagnostics.server_eqb (Diagnostics.icmp_cs2_test_server d) s).
    + unfold Teardown.watchdog_target_changes. now rewrite He, Hc.
    + unfold Teardown.watchdog_target_changes. cbn. rewrite He. cbn.
      now destruct s.
  - intros s. unfold Teardown.watchdog_target_changes. cbn. now rewrite Hc.
Qed.

Lemma setters_and_next_pass_witness :
  snd (Teardown.watchdog_target_changes
         (Diagnostics.set_icmp_cs2_test_server Sample.diagnostics None))
  = []
  /\ snd (Teardown.watchdog_target_changes
            (snd (Diagnostics.set_icmp_external_test_server Sample.diagnostics
                    (Some "1.1.1.1"%string))))
     = [ Teardown.StopICMPExternalTest;
         Teardown.StartICMPExternalTest (Some "1.1.1.1"%string);
         Teardown.WaitTraceroute;
         Teardown.RunTraceroute (Some "1.1.1.1"%string) ].
Proof.
  split.
  - apply (proj1 (setters_and_next_pass Sample.diagnostics eq_refl eq_refl)
             None).
  - apply (proj2 (setters_and_next_pass Sample.diagnostics eq_refl eq_refl)
             "1.1.1.1"%string).
Defined.

(** ** Diagnostics: more on the escalation loop *)

(** A pass never clears a success flag, starts a traceroute only while the
    traceroute has not succeeded, and announces a short speed test only
    while the short speed test has not succeeded. *)
Lemma pass_respects_success (d : Diagnostics.t) (ts : Diagnostics.tests)
    (p : Diagnostics.pass) :
  (Diagnostics.traceroute_succeeded ts = true ->
   Diagnostics.traceroute_succeeded
     (snd (fst (Diagnostics.interruption_tests_pass d ts p))) = true
   /\ Forall (fun a => match a with
                       | Diagnostics.RunTraceroute _ => False
                       | _ => True
                       end)
        (snd (Diagnostics.interruption_tests_pass d ts p)))
  /\ (Diagnostics.short_speed_test_succeeded ts = true ->
      Diagnostics.short_speed_test_succeeded
        (snd (fst (Diagnostics.interruption_tests_pass d ts p))) = true
      /\ ~ In (Diagnostics.Log "Starting short speed test")
             (snd (Diagnostics.interruption_tests_pass d ts p))).
Proof.
  pass_cases d ts p; (split; [intros H|intros H]); try discriminate;
    (split; [reflexivity|]); try (repeat constructor);
    cbn [In]; intros Hin;
    repeat match goal with
           | H : _ \/ _ |- _ => destruct H
           | H : Diagnostics.Log _ = Diagnostics.Log _ |- _ =>
               apply (f_equal (fun a => match a with
                                        | Diagnostics.Log m => m
                                        | _ => EmptyString
                                        end)) in H; discriminate H
           | H : _ = Diagnostics.Log _ |- _ => discriminate H
           | H : False |- _ => contradiction
           end.
Qed.

Lemma loop_respects_success (passes : list Diagnostics.pass) :
  forall (d : Diagnostics.t) (ts : Diagnostics.tests),
    (Diagnostics.traceroute_succeeded ts = true ->
     Forall (fun a => match a with
                      | Diagnostics.RunTraceroute _ => False
                      | _ => True
                      end)
       (snd (Diagnostics.interruption_tests_loop d ts passes)))
    /\ (Diagnostics.short_speed_test_succeeded ts = true ->
        ~ In (Diagnostics.Log "Starting short speed test")
            (snd (Diagnostics.interruption_tests_loop d ts passes))).
Proof.
  induction passes as [|p passes IH]; intros d ts.
  - split; intros _; [constructor | intros []].
  - cbn [Diagnostics.interruption_tests_loop].
    set (d0 := if Diagnostics.stop_requested p
               then Diagnostics.with_running false d else d).
    destruct (Diagnostics.running d0 && Diagnostics.active_interruption d0);
      [|split; intros _; [constructor | intros []]].
    destruct (pass_respects_success d0 ts p) as [Htr Hsh].
    destruct (Diagnostics.interruption_tests_pass d0 ts p) as [[d' ts'] acts].
    cbn [fst snd] in Htr, Hsh.
    destruct (IH d' ts') as [IHtr IHsh].
    destruct (Diagnostics.traceroute_succeeded ts'
              && Diagnostics.short_speed_test_succeeded ts'
              && Diagnostics.long_speed_test_succeeded ts').
    + cbn [snd]. split; intros H.
      * apply Forall_app. split; [now apply Htr | repeat constructor].
      * intros Hin. apply in_app_or in Hin. destruct Hin as [Hin|[Hin|[]]].
        -- now apply (proj2 (Hsh H)).
        -- apply (f_equal (fun a => match a with
                                    | Diagnostics.Log m => m
                                    | _ => EmptyString
                                    end)) in Hin. discriminate Hin.
    + destruct (Diagnostics.interruption_tests_loop d' ts' passes)
        as [[e d''] acts'].
      cbn [snd] in *. split; intros H.
      * apply Forall_app. split; [now apply Htr|].
        constructor; [exact I|]. apply IHtr. now apply Htr.
      * intros Hin. apply in_app_or in Hin. destruct Hin as [Hin|[Hin|Hin]].
        -- now apply (proj2 (Hsh H)).
        -- discriminate Hin.
        -- revert Hin. apply IHsh. now apply Hsh.
Qed.

Lemma filter_none {A : Type} (f : A -> bool) (l : list A) :
  Forall (fun a => f a = false) l -> filter f l = [].
Proof.
  induction 1 as [|a l Ha _ IH]; [reflexivity|].
  cbn [filter]. now rewrite Ha.
Qed.

(** X13: in a running, interrupted session with no stop request, a
    traceroute that succeeds in the first pass is the only one the loop
    starts, and a short speed test that succeeds in the first pass is the
    only one it announces, however many passes follow. *)
Theorem succeeded_tests_are_not_started_again
    (d : Diagnostics.t) (p : Diagnostics.pass)
    (passes : list Diagnostics.pass) :
  Diagnostics.running d = true ->
  Diagnostics.active_interruption d = true ->
  Diagnostics.stop_requested p = false ->
  (Diagnostics.traceroute_hops p <> None ->
   List.length
     (filter (fun a => match a with
                       | Diagnostics.RunTraceroute _ => true
                       | _ => false
                       end)
        (snd (Diagnostics.on_interruption_start d (p :: passes)))) = 1%nat)
  /\ (Diagnostics.short_results p <> None ->
      List.length
        (filter (fun a => match a with
                          | Diagnostics.Log m =>
                              String.eqb m "Starting short speed test"
                          | _ => false
                          end)
           (snd (Diagnostics.on_interruption_start d (p :: passes)))) = 1%nat).
Proof.
  intros Hr Ha Hp.
  unfold Diagnostics.on_interruption_start.
  cbn [Diagnostics.interruption_tests_loop]. rewrite Hp, Hr, Ha. cbn [andb].
  set (ts0 := Diagnostics.mk_tests false false false false).
  assert (Hfirst :
    (Diagnostics.traceroute_hops p <> None ->
     Diagnostics.traceroute_succeeded
       (snd (fst (Diagnostics.interruption_tests_pass d ts0 p))) = true
     /\ List.length
          (filter (fun a => match a with
                            | Diagnostics.RunTraceroute _ => true
                            | _ => false
                            end)
             (snd (Diagnostics.interruption_tests_pass d ts0 p))) = 1%nat)
    /\ (Diagnostics.short_results p <> None ->
        Diagnostics.short_speed_test_succeeded
          (snd (fst (Diagnostics.interruption_tests_pass d ts0 p))) = true
        /\ List.length
             (filter (fun a => match a with
                               | Diagnostics.Log m =>
                                   String.eqb m "Starting short speed test"
                               | _ => false
                               end)
                (snd (Diagnostics.interruption_tests_pass d ts0 p))) = 1%nat)).
  { unfold ts0, Diagnostics.interruption_tests_pass,
      Diagnostics.speed_test_has_results, Diagnostics.traceroute_has_hops.
    destruct (Diagnostics.traceroute_hops p), (Diagnostics.short_results p),
      (Diagnostics.long_results p);
      cbn -[SpeedTest.SHORT_TESTS PrimFloat.ltb];
      try destruct (PrimFloat.ltb (Diagnostics.short_elapsed p)
                      (Diagnostics.speed_test_min_duration d));
      cbn -[SpeedTest.SHORT_TESTS];
      split; intros H; try congruence; split; reflexivity. }
  destruct Hfirst as [Htr Hsh].
  destruct (Diagnostics.interruption_tests_pass d ts0 p) as [[d' ts'] acts].
  cbn [fst snd] in Htr, Hsh.
  destruct (loop_respects_success passes d' ts') as [Ltr Lsh].
  destruct (Diagnostics.traceroute_succeeded ts'
            && Diagnostics.short_speed_test_succeeded ts'
            && Diagnostics.long_speed_test_succeeded ts').
  - cbn [snd]. split; intros H.
    + destruct (Htr H) as [_ Hc]. rewrite filter_app, length_app, Hc.
      reflexivity.
    + destruct (Hsh H) as [_ Hc]. rewrite filter_app, length_app, Hc.
      reflexivity.
  - destruct (Diagnostics.interruption_tests_loop d' ts' passes)
      as [[e d''] acts'].
    cbn [snd] in *. split; intros H.
    + destruct (Htr H) as [Hs Hc]. rewrite filter_app, length_app, Hc.
      cbn [filter]. rewrite filter_none; [reflexivity|].
      eapply Forall_impl; [|exact (Ltr Hs)].
      intros [m|tr|b|s] Hx; try reflexivity. contradiction.
    + destruct (Hsh H) as [Hs Hc]. rewrite filter_app, length_app, Hc.
      cbn [filter]. rewrite filter_none; [reflexivity|].
      apply Forall_forall. intros [m|tr|b|s] Hin; try reflexivity.
      destruct (String.eqb_spec m "Starting short speed test"); [|reflexivity].
      subst m. exfalso. exact (Lsh Hs Hin).
Qed.

Lemma succeeded_tests_are_not_started_again_witness :
  List.length
    (filter (fun a => match a with
                      | Diagnostics.RunTraceroute _ => true
                      | _ => false
                      end)
       (snd (Diagnostics.on_interruption_start Sample.interrupted
               (Sample.pass_short_slow
                :: [Sample.pass_short_slow; Sample.pass_short_slow]))))
  = 1%nat.
Proof.
  apply (proj1 (succeeded_tests_are_not_started_again Sample.interrupted
                  Sample.pass_short_slow
                  [Sample.pass_short_slow; Sample.pass_short_slow]
                  eq_refl eq_refl eq_refl)).
  simpl. discriminate.
Defined.

(** X14: in a running, interrupted session, a first pass in which the
    traceroute succeeds, the short speed test succeeds under the minimum
    duration and the second speed test succeeds ends the loop through its
    success path, after one traceroute and two speed tests. *)
Theorem escalation_finishes_in_one_pass
    (d : Diagnostics.t) (p : Diagnostics.pass)
    (passes : list Diagnostics.pass) :
  Diagnostics.running d = true ->
  Diagnostics.active_interruption d = true ->
  Diagnostics.stop_requested p = false ->
  Diagnostics.traceroute_hops p <> None ->
  Diagnostics.short_results p <> None ->
  (Diagnostics.short_elapsed p <? Diagnostics.speed_test_min_duration d)%float
  = true ->
  Diagnostics.long_results p <> None ->
  fst (fst (Diagnostics.on_interruption_start d (p :: passes)))
  = Diagnostics.AllTestsFinished
  /\ snd (Diagnostics.on_interruption_start d (p :: passes))
     = [ Diagnostics.Log "Starting traceroute";
         Diagnostics.RunTraceroute
           (Traceroute.mk (Diagnostics.icmp_external_test_server d)
              3 0 1 30 true None);
         Diagnostics.Log "Starting short speed test";
         Diagnostics.RunSpeedTest SpeedTest.SHORT_TESTS;
         Diagnostics.Log "Starting long speed test";
         Diagnostics.RunSpeedTest SpeedTest.SHORT_TESTS;
         Diagnostics.Log "All tests on interruption finished" ].
Proof.
  intros Hr Ha Hp Ht Hs He Hl.
  unfold Diagnostics.on_interruption_start.
  cbn [Diagnostics.interruption_tests_loop]. rewrite Hp, Hr, Ha. cbn [andb].
  unfold Diagnostics.interruption_tests_pass,
    Diagnostics.speed_test_has_results, Diagnostics.traceroute_has_hops.
  destruct (Diagnostics.traceroute_hops p); [|congruence].
  destruct (Diagnostics.short_results p); [|congruence].
  destruct (Diagnostics.long_results p); [|congruence].
  cbn -[SpeedTest.SHORT_TESTS PrimFloat.ltb]. rewrite He.
  cbn -[SpeedTest.SHORT_TESTS]. split; reflexivity.
Qed.

Lemma escalation_finishes_in_one_pass_witness :
  fst (fst (Diagnostics.on_interruption_start Sample.interrupted
              (Sample.pass_short_fast :: [])))
  = Diagnostics.AllTestsFinished
  /\ snd (Diagnostics.on_interruption_start Sample.interrupted
            (Sample.pass_short_fast :: []))
     = [ Diagnostics.Log "Starting traceroute";
         Diagnostics.RunTraceroute
           (Traceroute.mk
              (Diagnostics.icmp_external_test_server Sample.interrupted)
              3 0 1 30 true None);
         Diagnostics.Log "Starting short speed test";
         Diagnostics.RunSpeedTest SpeedTest.SHORT_TESTS;
         Diagnostics.Log "Starting long speed test";
         Diagnostics.RunSpeedTest SpeedTest.SHORT_TESTS;
         Diagnostics.Log "All tests on interruption finished" ].
Proof.
  apply (escalation_finishes_in_one_pass Sample.interrupted
           Sample.pass_short_fast []).
  - reflexivity.
  - reflexivity.
  - reflexivity.
  - simpl. discriminate.
  - simpl. discriminate.
  - vm_compute. reflexivity.
  - simpl. discriminate.
Defined.

(** X15: a [stop] ends the escalation: when [stop] is called before some
    loop test, the loop is left, through the loop test or through the
    success path, and the object comes out with [_running] clear unless the
    success path was taken first; when it is called before the first loop
    test, no test is started at all. *)
Theorem stop_request_ends_escalation
    (d : Diagnostics.t) (passes : list Diagnostics.pass) :
  (Exists (fun p => Diagnostics.stop_requested p = true) passes ->
   fst (fst (Diagnostics.on_interruption_start d passes))
   = Diagnostics.AllTestsFinished
   \/ (fst (fst (Diagnostics.on_interruption_start d passes))
       = Diagnostics.NotRunningOrNotInterrupted
       /\ (Diagnostics.active_interruption d = true ->
           Diagnostics.running
             (snd (fst (Diagnostics.on_interruption_start d passes)))
           = false)))
  /\ (forall p rest,
         passes = p :: rest ->
         Diagnostics.stop_requested p = true ->
         Diagnostics.on_interruption_start d passes
         = (Diagnostics.NotRunningOrNotInterrupted,
            Diagnostics.with_running false d, [])).
Proof.
  split.
  - unfold Diagnostics.on_interruption_start.
    generalize (Diagnostics.mk_tests false false false false) as ts.
    revert d. induction passes as [|p passes IH]; intros d ts Hex.
    + inversion Hex.
    + cbn [Diagnostics.interruption_tests_loop].
      destruct (Diagnostics.stop_requested p) eqn:Hp.
      * right. cbn. split; [reflexivity|]. intros _. reflexivity.
      * inversion Hex as [? ? H|? ? Hex']; subst; [congruence|].
        destruct (Diagnostics.running d) eqn:Hr; cbn [andb].
        -- destruct (Diagnostics.active_interruption d) eqn:Ha.
           ++ destruct (pass_keeps_flags d ts p) as (Hr' & Ha' & _).
              destruct (Diagnostics.interruption_tests_pass d ts p)
                as [[d' ts'] acts].
              cbn [fst snd] in Hr', Ha'.
              destruct (Diagnostics.traceroute_succeeded ts'
                        && Diagnostics.short_speed_test_succeeded ts'
                        && Diagnostics.long_speed_test_succeeded ts');
                [left; reflexivity|].
              specialize (IH d' ts' Hex').
              destruct (Diagnostics.interruption_tests_loop d' ts' passes)
                as [[e d''] acts'].
              cbn [fst snd] in *.
              destruct IH as [IH|[IH1 IH2]]; [now left|].
              right. split; [exact IH1|]. intros _. apply IH2. congruence.
           ++ right. cbn. split; [reflexivity|]. intros H. discriminate.
        -- right. cbn. split; [reflexivity|]. intros _. exact Hr.
  - intros p rest -> Hp. unfold Diagnostics.on_interruption_start.
    cbn [Diagnostics.interruption_tests_loop]. rewrite Hp. reflexivity.
Qed.

Lemma stop_request_ends_escalation_witness :
  Diagnostics.on_interruption_start Sample.interrupted
    [Diagnostics.mk_pass true None None 0 None]
  = (Diagnostics.NotRunningOrNotInterrupted,
     Diagnostics.with_running false Sample.interrupted, []).
Proof.
  apply (proj2 (stop_request_ends_escalation Sample.interrupted
                  [Diagnostics.mk_pass true None None 0 None])
           (Diagnostics.mk_pass true None None 0 None) [] eq_refl eq_refl).
Defined.

(** ** Diagnostics history: newest first *)

Lemma name_le_total (a b : string) :
  History.name_le a b = false -> History.name_le b a = true.
Proof.
  unfold History.name_le.
  destruct (String_as_OT.compare_spec a b) as [E|L|G]; try discriminate.
  intros _. destruct (String_as_OT.compare_spec b a) as [E'|L'|G'];
    try reflexivity.
  exfalso. apply (StrictOrder_Irreflexive a).
  exact (StrictOrder_Transitive _ _ _ G' G).
Qed.

Lemma name_le_iff (a b : string) :
  History.name_le a b = true <-> String_as_OT.lt a b \/ a = b.
Proof.
  unfold History.name_le.
  destruct (String_as_OT.compare_spec a b) as [E|L|G].
  - split; auto.
  - split; auto.
  - split; [discriminate|]. intros [L| ->].
    + exfalso. apply (StrictOrder_Irreflexive a).
      exact (StrictOrder_Transitive _ _ _ L G).
    + exfalso. exact (StrictOrder_Irreflexive b G).
Qed.

Lemma name_le_trans (a b c : string) :
  History.name_le a b = true -> History.name_le b c = true ->
  History.name_le a c = true.
Proof.
  rewrite !name_le_iff. intros [L1| ->] [L2| ->]; auto.
  left. exact (StrictOrder_Transitive _ _ _ L1 L2).
Qed.

Lemma insert_permutation (item : string * string) (l : list (string * string)) :
  Permutation (item :: l) (History.insert item l).
Proof.
  induction l as [|other rest IH]; cbn [History.insert]; [reflexivity|].
  destruct (History.name_le (fst other) (fst item)); [reflexivity|].
  rewrite perm_swap. now apply perm_skip.
Qed.

Lemma insert_sorted (item : string * string) (l : list (string * string)) :
  StronglySorted (fun a b => History.name_le (fst b) (fst a) = true) l ->
  StronglySorted (fun a b => History.name_le (fst b) (fst a) = true)
    (History.insert item l).
Proof.
  induction 1 as [|other rest Hs IH Hall]; cbn [History.insert].
  - repeat constructor.
  - destruct (History.name_le (fst other) (fst item)) eqn:E.
    + constructor; [now constructor|].
      constructor; [exact E|].
      eapply Forall_impl; [|exact Hall].
      intros x Hx. exact (name_le_trans _ _ _ Hx E).
    + constructor; [exact IH|].
      apply (Permutation_Forall (insert_permutation item rest)).
      constructor; [now apply name_le_total | exact Hall].
Qed.

Lemma sorted_by_name_reversed_spec (items : list (string * string)) :
  Permutation items (History.sorted_by_name_reversed items)
  /\ StronglySorted (fun a b => History.name_le (fst b) (fst a) = true)
       (History.sorted_by_name_reversed items).
Proof.
  induction items as [|item items [IHp IHs]]; cbn.
  - split; constructor.
  - split; [|now apply insert_sorted].
    rewrite <- insert_permutation. now apply perm_skip.
Qed.

(** X16: the history lists every entry of the diagnostics directory exactly
    once, each with its path under that directory, and in descending order
    of name: no entry is followed, anywhere later in the list, by one with
    a greater name. *)
Theorem history_is_sorted_newest_first
    (d : Diagnostics.t) (names : list string) :
  Permutation
    (map (fun name =>
            (name, Diagnostics.child (Diagnostics.diagnostics_dir d) name))
       names)
    (History.get_diagnostics_history d names)
  /\ Permutation names (map fst (History.get_diagnostics_history d names))
  /\ StronglySorted (fun a b => History.name_le (fst b) (fst a) = true)
       (History.get_diagnostics_history d names).
Proof.
  unfold History.get_diagnostics_history.
  destruct (sorted_by_name_reversed_spec
              (map (fun name =>
                      (name,
                       Diagnostics.child (Diagnostics.diagnostics_dir d) name))
                 names)) as [Hp Hs].
  split; [exact Hp|]. split; [|exact Hs].
  apply (Permutation_map fst) in Hp. rewrite map_map in Hp. cbn [fst] in Hp.
  now rewrite map_id in Hp.
Qed.

(** X17: [get_last_diagnostics] returns [None] exactly when the diagnostics
    directory has no entry; otherwise it returns an entry of the directory
    with its path, and no entry has a greater name. *)
Theorem last_diagnostics_is_greatest_name
    (d : Diagnostics.t) (names : list string) :
  (History.get_last_diagnostics d names = None <-> names = [])
  /\ forall name path,
       History.get_last_diagnostics d names = Some (name, path) ->
       In name names
       /\ path = Diagnostics.child (Diagnostics.diagnostics_dir d) name
       /\ forall other, In other names -> History.name_le other name = true.
Proof.
  destruct (history_is_sorted_newest_first d names) as (Hp & Hn & Hs).
  unfold History.get_last_diagnostics.
  destruct (History.get_diagnostics_history d names) as [|first rest] eqn:E.
  - apply Permutation_sym, Permutation_nil in Hn.
    split; [tauto|]. intros name path H. discriminate.
  - split.
    { split; [discriminate|]. intros ->. apply Permutation_nil in Hp.
      discriminate. }
    intros name path H.
    assert (Hf : first = (name, path)).
    { exact (f_equal (fun o => match o with Some x => x | None => first end) H). }
    subst first.
    assert (Hin : In (name, path)
                    (map (fun n =>
                            (n, Diagnostics.child
                                  (Diagnostics.diagnostics_dir d) n)) names)).
    { apply (Permutation_in _ (Permutation_sym Hp)). now left. }
    apply in_map_iff in Hin. destruct Hin as (n & Hn' & Hin).
    assert (n = name) by congruence. subst n.
    split; [exact Hin|]. split; [congruence|].
    intros other Ho.
    assert (Ho' : In other (map fst ((name, path) :: rest))).
    { exact (Permutation_in _ Hn Ho). }
    cbn [map fst In] in Ho'. destruct Ho' as [<-|Ho'].
    + apply name_le_iff. now right.
    + inversion Hs as [|? ? _ Hall]; subst.
      apply in_map_iff in Ho'. destruct Ho' as ([o q] & <- & Hoq).
      rewrite Forall_forall in Hall. exact (Hall _ Hoq).
Qed.

Lemma last_diagnostics_is_greatest_name_witness :
  In "2024-05-01T12-00-00+0000"%string
     ["2024-04-30T09-30-00+0000"; "2024-05-01T12-00-00+0000";
      "2024-04-30T09-30-00+0000.2"]%string
  /\ "diagnostics/2024-05-01T12-00-00+0000"%string
     = Diagnostics.child (Diagnostics.diagnostics_dir Sample.diagnostics)
         "2024-05-01T12-00-00+0000"
  /\ forall other,
       In other ["2024-04-30T09-30-00+0000"; "2024-05-01T12-00-00+0000";
                 "2024-04-30T09-30-00+0000.2"]%string ->
       History.name_le other "2024-05-01T12-00-00+0000" = true.
Proof.
  apply (proj2 (last_diagnostics_is_greatest_name Sample.diagnostics
                  ["2024-04-30T09-30-00+0000"; "2024-05-01T12-00-00+0000";
                   "2024-04-30T09-30-00+0000.2"]%string)
           "2024-05-01T12-00-00+0000"%string
           "diagnostics/2024-05-01T12-00-00+0000"%string).
  vm_compute. reflexivity.
Defined.

(** ** EventLogListener: what a formatted record holds *)

(** X18: the header lines of a formatted record (timestamp, channel,
    provider, source, level, opcode) are there exactly when the record has
    a message: a returned text starts with [Timestamp (UTC): ] if and only
    if [message] is not [None]; without a message the text does not depend
    on those six fields. *)
Theorem record_header_only_with_message
    (local_timestamp : string -> option string)
    (r : EventLogListener.record) (text : string) :
  EventLogListener.format_record local_timestamp r
  = EventLogListener.Text text ->
  ((exists rest, text = ("Timestamp (UTC): " ++ rest)%string)
   <-> EventLogListener.message r <> None)
  /\ (EventLogListener.message r = None ->
      forall ts ch pr so lv op,
        local_timestamp ts <> None ->
        EventLogListener.format_record local_timestamp
          (EventLogListener.mk_record ts ch pr so lv op None
             (EventLogListener.event_data_strings r)
             (EventLogListener.user_data r) (EventLogListener.raw r))
        = EventLogListener.Text text).
Proof.
  assert (Hinj : forall a b,
             EventLogListener.Text a = EventLogListener.Text b -> a = b).
  { intros a b H.
    exact (f_equal (fun f => match f with
                             | EventLogListener.Text t => t
                             | _ => a
                             end) H). }
  unfold EventLogListener.format_record.
  destruct (local_timestamp (EventLogListener.timestamp r)) as [ts0|];
    [|discriminate].
  destruct (EventLogListener.message r) as [m|] eqn:Hm.
  - destruct (EventLogListener.LEVELS (EventLogListener.level r));
      [|discriminate].
    intros H. apply Hinj in H. subst text.
    split; [|discriminate]. split; [discriminate|]. intros _.
    eexists. reflexivity.
  - assert (Hpre : forall body,
               EventLogListener.Text body = EventLogListener.Text text ->
               (forall rest, body <> ("Timestamp (UTC): " ++ rest)%string) ->
               (exists rest, text = ("Timestamp (UTC): " ++ rest)%string)
               <-> @None string <> None).
    { intros body H Hp. apply Hinj in H. subst body.
      split; [|congruence]. intros (rest & E). exfalso. exact (Hp rest E). }
    destruct (EventLogListener.event_data_strings r) as [[|e es]|] eqn:He.
    + intros H. split; [apply (Hpre _ H); intros rest; discriminate|].
      intros _ ts ch pr so lv op Hts. cbn.
      destruct (local_timestamp ts); [exact H | congruence].
    + discriminate.
    + destruct (EventLogListener.user_data r) as [u|] eqn:Hu.
      * intros H. split; [apply (Hpre _ H); intros rest; discriminate|].
        intros _ ts ch pr so lv op Hts. cbn.
        destruct (local_timestamp ts); [exact H | congruence].
      * intros H. split; [apply (Hpre _ H); intros rest; discriminate|].
        intros _ ts ch pr so lv op Hts. cbn.
        destruct (local_timestamp ts); [exact H | congruence].
Qed.

Lemma record_header_only_with_message_witness :
  ((exists rest,
       ("User Data:" ++ newline ++ "<x/>")%string
       = ("Timestamp (UTC): " ++ rest)%string)
   <-> @None string <> None)
  /\ (@None string = None ->
      forall ts ch pr so lv op,
        (fun s => Some s) ts <> None ->
        EventLogListener.format_record (fun s => Some s)
          (EventLogListener.mk_record ts ch pr so lv op None None
             (Some "<x/>"%string) "<Event/>")
        = EventLogListener.Text ("User Data:" ++ newline ++ "<x/>")).
Proof.
  apply (record_header_only_with_message (fun s => Some s)
           (EventLogListener.mk_record "2024-05-01T10:00:00" "System"
              "Tcpip" None (EventLogListener.Str "3") "0" None None
              (Some "<x/>"%string) "<Event/>")
           ("User Data:" ++ newline ++ "<x/>")%string).
  reflexivity.
Defined.

(** X19: a record whose timestamp parses is not formatted but raises when
    it has no message and a non-empty event data list ([TypeError], the
    list holding tuples), and when it has a message and a level that is not
    one of the integers 0 to 5 ([KeyError]), as is the text that
    [_handler] stores. *)
Theorem record_formatting_raises
    (local_timestamp : string -> option string)
    (r : EventLogListener.record) :
  local_timestamp (EventLogListener.timestamp r) <> None ->
  (EventLogListener.message r = None ->
   forall e es,
     EventLogListener.event_data_strings r = Some (e :: es) ->
     EventLogListener.format_record local_timestamp r
     = EventLogListener.Raises EventLogListener.TypeError)
  /\ (EventLogListener.message r <> None ->
      (forall s, EventLogListener.level r = EventLogListener.Str s ->
                 EventLogListener.format_record local_timestamp r
                 = EventLogListener.Raises EventLogListener.KeyError)
      /\ (forall n, EventLogListener.level r = EventLogListener.Int n ->
                    (n < 0 \/ 5 < n) ->
                    EventLogListener.format_record local_timestamp r
                    = EventLogListener.Raises EventLogListener.KeyError)
      /\ (forall n, EventLogListener.level r = EventLogListener.Int n ->
                    0 <= n <= 5 ->
                    exists text,
                      EventLogListener.format_record local_timestamp r
                      = EventLogListener.Text text)).
Proof.
  intros Hts. unfold EventLogListener.format_record.
  destruct (local_timestamp (EventLogListener.timestamp r)) as [ts|];
    [|congruence].
  split.
  - intros Hm e es He. now rewrite Hm, He.
  - intros Hm. destruct (EventLogListener.message r) as [m|]; [|congruence].
    split; [|split].
    + intros s ->. reflexivity.
    + intros n -> Hn.
      destruct n as [|q|q]; [lia| |reflexivity].
      destruct q as [[[|[]|]|[|[]|]|]|[[|[]|]|[|[]|]|]|]; try reflexivity; lia.
    + intros n -> Hn.
      assert (Hcases : n = 0 \/ n = 1 \/ n = 2 \/ n = 3 \/ n = 4 \/ n = 5)
        by lia.
      destruct Hcases as [->|[->|[->|[->|[->| ->]]]]]; eexists; reflexivity.
Qed.

Lemma record_formatting_raises_witness :
  EventLogListener.format_record (fun s => Some s)
    (EventLogListener.mk_record "2024-05-01T10:00:00" "System" "Tcpip" None
       (EventLogListener.Str "3") "0" None
       (Some [(Some "Name"%string, "value"%string)]) None "<Event/>")
  = EventLogListener.Raises EventLogListener.TypeError.
Proof.
  refine (proj1 (record_formatting_raises (fun s => Some s)
                   (EventLogListener.mk_record "2024-05-01T10:00:00" "System"
                      "Tcpip" None (EventLogListener.Str "3") "0" None
                      (Some [(Some "Name"%string, "value"%string)]) None
                      "<Event/>") _) eq_refl _ _ eq_refl).
  simpl. discriminate.
Defined.

(** ** The interface monitor: what a pass records *)

Lemma interface_differs_iff (a b : NetworkInterface.t) :
  InterfaceMonitor.interface_differs a b = false <-> a = b.
Proof.
  unfold InterfaceMonitor.interface_differs. destruct a, b; cbn.
  rewrite !orb_false_iff, !negb_false_iff, !String.eqb_eq.
  split.
  - intros ((((-> & ->) & ->) & ->) & ->). reflexivity.
  - intros H. inversion H. repeat split.
Qed.

Lemma stats_differ_iff (a b : NetworkInterface.stats) :
  NetworkInterface.stats_differ a b = false <-> a = b.
Proof.
  unfold NetworkInterface.stats_differ. destruct a, b; cbn.
  rewrite !orb_false_iff, !negb_false_iff, !String.eqb_eq, !Z.eqb_eq,
    Bool.eqb_true_iff.
  split.
  - intros ((((-> & ->) & ->) & ->) & ->). reflexivity.
  - intros H. inversion H. repeat split.
Qed.

(** X20: a pass in which both queries succeed never raises and leaves the
    interface and the statistics just found as the recorded ones; the loop
    goes on exactly when those statistics report the link down, and the
    running flag is cleared exactly when they report it up. *)
Theorem monitor_records_what_it_finds
    (m : InterfaceMonitor.t) (local : option NetworkInterface.t)
    (a : InterfaceMonitor.answer)
    (i : NetworkInterface.t) (st : NetworkInterface.stats) :
  InterfaceMonitor.found a = Some i ->
  InterfaceMonitor.found_stats a = Some st ->
  exists m' events,
    InterfaceMonitor.pass m local a
    = Ok (m', Some i, events, negb (NetworkInterface.up st))
    /\ InterfaceMonitor.interface m' = Some i
    /\ InterfaceMonitor.interface_stats m' = Some st
    /\ InterfaceMonitor.interface_update_running m'
       = (if NetworkInterface.up st then false
          else InterfaceMonitor.interface_update_running m).
Proof.
  intros Hf Hs. unfold InterfaceMonitor.pass. rewrite Hf, Hs.
  destruct (InterfaceMonitor.interface m) as [recorded|] eqn:Hi.
  - destruct (InterfaceMonitor.interface_differs recorded i) eqn:Hd.
    + cbn. destruct (NetworkInterface.up st); cbn;
        do 2 eexists; (split; [reflexivity|]); cbn; auto.
    + apply interface_differs_iff in Hd. subst recorded.
      destruct (InterfaceMonitor.recorded_stats_differ
                  (InterfaceMonitor.interface_stats m) st) eqn:Hsd.
      * cbn. destruct (NetworkInterface.up st); cbn;
          do 2 eexists; (split; [reflexivity|]); cbn; auto.
      * unfold InterfaceMonitor.recorded_stats_differ in Hsd.
        destruct (InterfaceMonitor.interface_stats m) as [rs|] eqn:Hrs;
          [|discriminate].
        apply stats_differ_iff in Hsd. subst rs.
        destruct (NetworkInterface.up st); cbn;
          do 2 eexists; (split; [reflexivity|]); cbn; auto.
  - cbn. destruct (NetworkInterface.up st); cbn;
      do 2 eexists; (split; [reflexivity|]); cbn; auto.
Qed.

Lemma monitor_records_what_it_finds_witness :
  exists m' events,
    InterfaceMonitor.pass (InterfaceMonitor.mk None None false true) None
      (InterfaceMonitor.mk_answer
         (Some (NetworkInterface.mk "{A1}" "Ethernet" "AA-BB-CC-DD-EE-FF"
                  "192.168.0.10" "192.168.0.1"))
         (Some (NetworkInterface.mk_stats true 1000 2 "full" 1500)))
    = Ok (m',
          Some (NetworkInterface.mk "{A1}" "Ethernet" "AA-BB-CC-DD-EE-FF"
                  "192.168.0.10" "192.168.0.1"),
          events,
          negb (NetworkInterface.up
                  (NetworkInterface.mk_stats true 1000 2 "full" 1500)))
    /\ InterfaceMonitor.interface m'
       = Some (NetworkInterface.mk "{A1}" "Ethernet" "AA-BB-CC-DD-EE-FF"
                 "192.168.0.10" "192.168.0.1")
    /\ InterfaceMonitor.interface_stats m'
       = Some (NetworkInterface.mk_stats true 1000 2 "full" 1500)
    /\ InterfaceMonitor.interface_update_running m'
       = (if NetworkInterface.up
               (NetworkInterface.mk_stats true 1000 2 "full" 1500)
          then false
          else InterfaceMonitor.interface_update_running
                 (InterfaceMonitor.mk None None false true)).
Proof.
  apply (monitor_records_what_it_finds
           (InterfaceMonitor.mk None None false true) None
           (InterfaceMonitor.mk_answer
              (Some (NetworkInterface.mk "{A1}" "Ethernet" "AA-BB-CC-DD-EE-FF"
                       "192.168.0.10" "192.168.0.1"))
              (Some (NetworkInterface.mk_stats true 1000 2 "full" 1500))));
    reflexivity.
Defined.

(** X21: with an interface recorded, a pass in which both queries succeed
    sets the interface-changed flag and reports the interface to the
    observer exactly when the interface found differs from the recorded one
    in its id, name, MAC address, IPv4 address or gateway; an identical
    interface leaves the flag as it was and is not reported.  With no
    interface recorded, the one found is reported and the flag is left as
    it was. *)
Theorem interface_change_detection
    (m : InterfaceMonitor.t) (local : option NetworkInterface.t)
    (a : InterfaceMonitor.answer)
    (i : NetworkInterface.t) (st : NetworkInterface.stats) :
  InterfaceMonitor.found a = Some i ->
  InterfaceMonitor.found_stats a = Some st ->
  exists m' events,
    InterfaceMonitor.pass m local a
    = Ok (m', Some i, events, negb (NetworkInterface.up st))
    /\ (forall recorded,
           InterfaceMonitor.interface m = Some recorded ->
           (recorded = i ->
            InterfaceMonitor.interface_changed m'
            = InterfaceMonitor.interface_changed m
            /\ ~ In (InterfaceMonitor.OnInterfaceUpdate i) events)
           /\ (recorded <> i ->
               InterfaceMonitor.interface_changed m' = true
               /\ In (InterfaceMonitor.OnInterfaceUpdate i) events
               /\ In (InterfaceMonitor.OnInterfaceStatsUpdate st) events))
    /\ (InterfaceMonitor.interface m = None ->
        InterfaceMonitor.interface_changed m'
        = InterfaceMonitor.interface_changed m
        /\ In (InterfaceMonitor.OnInterfaceUpdate i) events
        /\ In (InterfaceMonitor.OnInterfaceStatsUpdate st) events).
Proof.
  intros Hf Hs. unfold InterfaceMonitor.pass. rewrite Hf, Hs.
  destruct (InterfaceMonitor.interface m) as [recorded|] eqn:Hi.
  - destruct (InterfaceMonitor.interface_differs recorded i) eqn:Hd.
    + assert (Hne : recorded <> i).
      { intros E. apply interface_differs_iff in E. congruence. }
      cbn. destruct (NetworkInterface.up st); cbn;
        do 2 eexists; (split; [reflexivity|]); (split; [|discriminate]);
        intros r Hr; assert (r = recorded) by congruence; subst r;
        (split; [intros E; contradiction|]); intros _; cbn; auto.
    + pose proof (proj1 (interface_differs_iff _ _) Hd) as E. subst recorded.
      destruct (InterfaceMonitor.recorded_stats_differ
                  (InterfaceMonitor.interface_stats m) st) eqn:Hsd.
      * cbn. destruct (NetworkInterface.up st); cbn;
          do 2 eexists; (split; [reflexivity|]); (split; [|discriminate]);
          intros r Hr; assert (r = i) by congruence; subst r;
          (split; [|intros Hne; contradiction]); intros _; cbn;
          (split; [reflexivity|]); intros H;
          repeat (destruct H as [H|H]; try discriminate H);
          try contradiction.
      * unfold InterfaceMonitor.recorded_stats_differ in Hsd.
        destruct (InterfaceMonitor.interface_stats m) as [rs|] eqn:Hrs;
          [|discriminate].
        apply stats_differ_iff in Hsd. subst rs.
        destruct (NetworkInterface.up st); cbn;
          do 2 eexists; (split; [reflexivity|]);
          (split; [|discriminate]);
          intros r Hr; assert (r = i) by congruence; subst r;
          (split; [|intros Hne; contradiction]); intros _; cbn;
          (split; [reflexivity|]); intros H;
          repeat (destruct H as [H|H]; try discriminate H);
          try contradiction.
  - cbn. destruct (NetworkInterface.up st); cbn;
      do 2 eexists; (split; [reflexivity|]);
      (split; [intros r Hr; discriminate|]); intros _; cbn; auto.
Qed.

Lemma interface_change_detection_witness :
  exists m' events,
    InterfaceMonitor.pass
      (InterfaceMonitor.mk
         (Some (NetworkInterface.mk "{A1}" "Ethernet" "AA-BB-CC-DD-EE-FF"
                  "192.168.0.10" "192.168.0.1"))
         (Some (NetworkInterface.mk_stats true 1000 2 "full" 1500))
         false true)
      None
      (InterfaceMonitor.mk_answer
         (Some (NetworkInterface.mk "{A1}" "Ethernet" "AA-BB-CC-DD-EE-FF"
                  "192.168.0.10" "192.168.0.254"))
         (Some (NetworkInterface.mk_stats true 1000 2 "full" 1500)))
    = Ok (m',
          Some (NetworkInterface.mk "{A1}" "Ethernet" "AA-BB-CC-DD-EE-FF"
                  "192.168.0.10" "192.168.0.254"),
          events,
          negb (NetworkInterface.up
                  (NetworkInterface.mk_stats true 1000 2 "full" 1500)))
    /\ InterfaceMonitor.interface_changed m' = true.
Proof.
  destruct (interface_change_detection
              (InterfaceMonitor.mk
                 (Some (NetworkInterface.mk "{A1}" "Ethernet"
                          "AA-BB-CC-DD-EE-FF" "192.168.0.10" "192.168.0.1"))
                 (Some (NetworkInterface.mk_stats true 1000 2 "full" 1500))
                 false true)
              None
              (InterfaceMonitor.mk_answer
                 (Some (NetworkInterface.mk "{A1}" "Ethernet"
                          "AA-BB-CC-DD-EE-FF" "192.168.0.10" "192.168.0.254"))
                 (Some (NetworkInterface.mk_stats true 1000 2 "full" 1500)))
              (NetworkInterface.mk "{A1}" "Ethernet" "AA-BB-CC-DD-EE-FF"
                 "192.168.0.10" "192.168.0.254")
              (NetworkInterface.mk_stats true 1000 2 "full" 1500)
              eq_refl eq_refl)
    as (m' & events & Hpass & Hrec & _).
  exists m', events. split; [exact Hpass|].
  apply (proj2 (Hrec _ eq_refl)). discriminate.
Defined.

(** X22: a pass whose statistics query fails, or whose interface query
    fails while no interface is recorded or none was found earlier in this
    run, records nothing: the attributes are as before, and the pass sleeps
    and goes on. *)
Theorem failed_query_records_nothing
    (m : InterfaceMonitor.t) (local : option NetworkInterface.t)
    (a : InterfaceMonitor.answer) :
  InterfaceMonitor.found_stats a = None
  \/ (InterfaceMonitor.found a = None
      /\ (InterfaceMonitor.interface m = None \/ local = None)) ->
  exists local',
    InterfaceMonitor.pass m local a
    = Ok (m, local', [InterfaceMonitor.Sleep], true).
Proof.
  unfold InterfaceMonitor.pass.
  intros [Hs|[Hf [Hi| ->]]].
  - rewrite Hs.
    destruct (InterfaceMonitor.found a) as [i|].
    + eexists. reflexivity.
    + destruct (InterfaceMonitor.interface m); [|eexists; reflexivity].
      destruct local; eexists; reflexivity.
  - rewrite Hf, Hi. eexists. reflexivity.
  - rewrite Hf. destruct (InterfaceMonitor.interface m); eexists; reflexivity.
Qed.

Lemma failed_query_records_nothing_witness :
  exists local',
    InterfaceMonitor.pass (InterfaceMonitor.mk None None false true) None
      (InterfaceMonitor.mk_answer None None)
    = Ok (InterfaceMonitor.mk None None false true, local',
          [InterfaceMonitor.Sleep], true).
Proof.
  apply (failed_query_records_nothing
           (InterfaceMonitor.mk None None false true) None
           (InterfaceMonitor.mk_answer None None)).
  now left.
Defined.

(** What any pass leaves behind. *)
Lemma pass_outcome (m : InterfaceMonitor.t)
    (local : option NetworkInterface.t) (a : InterfaceMonitor.answer) :
  exists m' local' events goes_on,
    InterfaceMonitor.pass m local a = Ok (m', local', events, goes_on)
    /\ InterfaceMonitor.interface_update_running m'
       = (if goes_on then InterfaceMonitor.interface_update_running m
          else false)
    /\ (goes_on = false ->
        exists i st,
          InterfaceMonitor.interface m' = Some i
          /\ InterfaceMonitor.interface_stats m' = Some st
          /\ NetworkInterface.up st = true).
Proof.
  assert (Hidle : forall l : option NetworkInterface.t,
    exists m' local' events goes_on,
      Ok (m, l, [InterfaceMonitor.Sleep], true)
      = Ok (m', local', events, goes_on)
      /\ InterfaceMonitor.interface_update_running m'
         = (if goes_on then InterfaceMonitor.interface_update_running m
            else false)
      /\ (goes_on = false ->
          exists i st,
            InterfaceMonitor.interface m' = Some i
            /\ InterfaceMonitor.interface_stats m' = Some st
            /\ NetworkInterface.up st = true)).
  { intros l. do 4 eexists. split; [reflexivity|]. split; [reflexivity|].
    discriminate. }
  unfold InterfaceMonitor.pass.
  destruct (InterfaceMonitor.found a) as [i|] eqn:Hf.
  - destruct (InterfaceMonitor.found_stats a) as [st|] eqn:Hs; [|apply Hidle].
    destruct (monitor_records_what_it_finds m local a i st Hf Hs)
      as (m' & events & Hpass & Hi & Hst & Hrun).
    unfold InterfaceMonitor.pass in Hpass. rewrite Hf, Hs in Hpass.
    rewrite Hpass. exists m', (Some i), events, (negb (NetworkInterface.up st)).
    split; [reflexivity|]. split.
    + rewrite Hrun. now destruct (NetworkInterface.up st).
    + intros Hg. exists i, st. repeat split; auto.
      now destruct (NetworkInterface.up st).
  - destruct (InterfaceMonitor.interface m) as [recorded|] eqn:Hi;
      [|apply Hidle].
    destruct local as [i|]; [|apply Hidle].
    destruct (InterfaceMonitor.found_stats a) as [st|] eqn:Hs; [|apply Hidle].
    destruct (monitor_records_what_it_finds m (Some i)
                (InterfaceMonitor.mk_answer (Some i) (Some st)) i st
                eq_refl eq_refl)
      as (m' & events & Hpass & Hi' & Hst & Hrun).
    unfold InterfaceMonitor.pass in Hpass. cbn [InterfaceMonitor.found
      InterfaceMonitor.found_stats] in Hpass. rewrite Hi in Hpass.
    rewrite Hpass. exists m', (Some i), events, (negb (NetworkInterface.up st)).
    split; [reflexivity|]. split.
    + rewrite Hrun. now destruct (NetworkInterface.up st).
    + intros Hg. exists i, st. repeat split; auto.
      now destruct (NetworkInterface.up st).
Qed.

(** X23: a run of the monitor that no other thread stops never raises,
    whatever the platform answers; and when the loop is left within the
    answers given, the running flag is clear and, if the run was started
    with the flag set, an interface is recorded whose statistics report the
    link up. *)
Theorem monitor_stops_with_link_up (answers : list InterfaceMonitor.answer) :
  forall (m : InterfaceMonitor.t) (local : option NetworkInterface.t),
  exists m' events ended,
    InterfaceMonitor.run m local answers = Ok (m', events, ended)
    /\ (ended = true ->
        InterfaceMonitor.interface_update_running m' = false
        /\ (InterfaceMonitor.interface_update_running m = true ->
            exists i st,
              InterfaceMonitor.interface m' = Some i
              /\ InterfaceMonitor.interface_stats m' = Some st
              /\ NetworkInterface.up st = true)).
Proof.
  induction answers as [|a answers IH]; intros m local.
  - cbn [InterfaceMonitor.run].
    destruct (InterfaceMonitor.interface_update_running m) eqn:Hr.
    + do 3 eexists. split; [reflexivity|]. discriminate.
    + do 3 eexists. split; [reflexivity|]. intros _. split; [exact Hr|].
      discriminate.
  - cbn [InterfaceMonitor.run].
    destruct (InterfaceMonitor.interface_update_running m) eqn:Hr.
    + destruct (pass_outcome m local a)
        as (m1 & local1 & events1 & goes_on & Hpass & Hrun & Hup).
      rewrite Hpass. cbn [bind]. destruct goes_on.
      * destruct (IH m1 local1) as (m' & events & ended & Hrun' & Hend).
        rewrite Hrun'. cbn [bind]. do 3 eexists. split; [reflexivity|].
        intros He. destruct (Hend He) as [H1 H2]. split; [exact H1|].
        intros _. apply H2. congruence.
      * do 3 eexists. split; [reflexivity|]. intros _.
        split; [exact Hrun|]. intros _. now apply Hup.
    + do 3 eexists. split; [reflexivity|]. intros _. split; [exact Hr|].
      discriminate.
Qed.

Lemma monitor_stops_with_link_up_witness :
  exists m' events ended,
    InterfaceMonitor.start_and_run (InterfaceMonitor.mk None None false false)
      [ InterfaceMonitor.mk_answer None None;
        InterfaceMonitor.mk_answer
          (Some (NetworkInterface.mk "{A1}" "Ethernet" "AA-BB-CC-DD-EE-FF"
                   "192.168.0.10" "192.168.0.1"))
          (Some (NetworkInterface.mk_stats true 1000 2 "full" 1500)) ]
    = Ok (m', events, ended)
    /\ ended = true
    /\ InterfaceMonitor.interface_update_running m' = false.
Proof.
  destruct (monitor_stops_with_link_up
              [ InterfaceMonitor.mk_answer None None;
                InterfaceMonitor.mk_answer
                  (Some (NetworkInterface.mk "{A1}" "Ethernet"
                           "AA-BB-CC-DD-EE-FF" "192.168.0.10" "192.168.0.1"))
                  (Some (NetworkInterface.mk_stats true 1000 2 "full" 1500)) ]
              (InterfaceMonitor.mk None None false true) None)
    as (m' & events & ended & Hrun & Hend).
  exists m', events, ended. split; [exact Hrun|].
  assert (He : ended = true).
  { vm_compute in Hrun.
    exact (f_equal (fun r => match r with
                             | Ok (_, _, e) => e
                             | Raise _ => true
                             end) (eq_sym Hrun)). }
  split; [exact He|]. exact (proj1 (Hend He)).
Defined.

(** ** NetworkInterface: the interface behind the default gateway *)

Lemma normalise_char_spec (c : ascii) :
  Platform.upper_char (if Ascii.eqb c ":" then "-"%char else c) <> ":"%char
  /\ Platform.upper_char
       (if Ascii.eqb
             (Platform.upper_char (if Ascii.eqb c ":" then "-"%char else c))
             ":"
        then "-"%char
        else Platform.upper_char (if Ascii.eqb c ":" then "-"%char else c))
     = Platform.upper_char (if Ascii.eqb c ":" then "-"%char else c).
Proof.
  destruct c as [[] [] [] [] [] [] [] []]; vm_compute; split;
    (reflexivity || discriminate).
Qed.

Lemma normalise_mac_spec (s : string) :
  (forall k, String.get k (Platform.normalise_mac s) <> Some ":"%char)
  /\ Platform.normalise_mac (Platform.normalise_mac s)
     = Platform.normalise_mac s.
Proof.
  induction s as [|c s [IH1 IH2]]; cbn [Platform.normalise_mac].
  - split; [intros [|k]; discriminate | reflexivity].
  - destruct (normalise_char_spec c) as [Hc Hi]. split.
    + intros [|k]; cbn [String.get].
      * intros H. apply Hc.
        exact (f_equal (fun o => match o with
                                 | Some x => x
                                 | None => ":"%char
                                 end) H).
      * apply IH1.
    + now rewrite Hi, IH2.
Qed.

Lemma name_by_mac_first (mac : string)
    (items : list (string * list (Platform.family * string))) (name : string) :
  Platform.name_by_mac mac items = Some name ->
  exists before addresses after,
    items = before ++ (name, addresses) :: after
    /\ In (Platform.AF_LINK, mac) addresses
    /\ forall n a, In (n, a) before -> ~ In (Platform.AF_LINK, mac) a.
Proof.
  unfold Platform.name_by_mac.
  assert (Hmatch : forall a : list (Platform.family * string),
             existsb (fun address =>
                        Platform.family_eqb (fst address) Platform.AF_LINK
                        && String.eqb mac (snd address)) a = true
             <-> In (Platform.AF_LINK, mac) a).
  { intros a. rewrite existsb_exists. split.
    - intros ([f x] & Hin & H). cbn in H. apply andb_true_iff in H.
      destruct H as [Hf Hx]. apply String.eqb_eq in Hx. subst x.
      destruct f; try discriminate. exact Hin.
    - intros Hin. exists (Platform.AF_LINK, mac). split; [exact Hin|].
      cbn. now rewrite String.eqb_refl. }
  induction items as [|[n a] items IH]; cbn [find option_map].
  - discriminate.
  - cbn [snd].
    destruct (existsb _ a) eqn:E.
    + cbn. intros H. assert (n = name) by congruence. subst n.
      exists [], a, items. split; [reflexivity|].
      split; [now apply Hmatch|]. intros ? ? [].
    + intros H. destruct (IH H) as (before & addrs & after & -> & Hin & Hb).
      exists ((n, a) :: before), addrs, after. split; [reflexivity|].
      split; [exact Hin|].
      intros n' a' [Heq|Hin']; [|now apply (Hb n')].
      assert (a' = a) by congruence. subst a'.
      intros Hc. apply Hmatch in Hc. congruence.
Qed.

(** X24: when [from_default_gateway] returns, the interface carries the id
    and the address of the default gateway, the first IPv4 address of that
    interface and its first link-layer address with every [:] replaced by
    [-] and the letters in upper case, a form that contains no [:] and that
    normalising again leaves unchanged; its name is not empty and is the
    name of the first interface, in the order [psutil] lists them, that has
    that MAC among its link-layer addresses. *)
Theorem default_gateway_interface (p : Platform.t) (i : NetworkInterface.t) :
  Platform.from_default_gateway p = Ok i ->
  Platform.default_gateway p
  = Some (NetworkInterface.gateway_ipv4_address i, NetworkInterface.id i)
  /\ (exists mac macs,
         Platform.get Platform.AF_LINK
           (Platform.ifaddresses p (NetworkInterface.id i))
         = Some (mac :: macs)
         /\ NetworkInterface.mac_address i = Platform.normalise_mac mac)
  /\ (exists ips,
         Platform.get Platform.AF_INET
           (Platform.ifaddresses p (NetworkInterface.id i))
         = Some (NetworkInterface.ipv4_address i :: ips))
  /\ (forall k,
         String.get k (NetworkInterface.mac_address i) <> Some ":"%char)
  /\ Platform.normalise_mac (NetworkInterface.mac_address i)
     = NetworkInterface.mac_address i
  /\ NetworkInterface.name i <> EmptyString
  /\ exists before addresses after,
       Platform.net_if_addrs p
       = before ++ (NetworkInterface.name i, addresses) :: after
       /\ In (Platform.AF_LINK, NetworkInterface.mac_address i) addresses
       /\ forall n a,
            In (n, a) before ->
            ~ In (Platform.AF_LINK, NetworkInterface.mac_address i) a.
Proof.
  unfold Platform.from_default_gateway.
  destruct (Platform.default_gateway p) as [[gateway id]|]; [|discriminate].
  destruct (Platform.ifaddresses p id) as [|entry entries] eqn:Ha;
    [discriminate|].
  destruct (Platform.get Platform.AF_LINK (entry :: entries))
    as [[|mac macs]|] eqn:Hl; try discriminate.
  destruct (Platform.get Platform.AF_INET (entry :: entries))
    as [[|ip ips]|] eqn:Hi; try discriminate.
  destruct (Platform.name_by_mac (Platform.normalise_mac mac)
              (Platform.net_if_addrs p)) as [[|c name]|] eqn:Hn;
    try discriminate.
  intros H. inversion H; subst i; clear H. cbn.
  rewrite Ha.
  split; [reflexivity|]. split; [exists mac, macs; auto|].
  split; [exists ips; exact Hi|].
  destruct (normalise_mac_spec mac) as [Hc Hid].
  split; [exact Hc|]. split; [exact Hid|]. split; [discriminate|].
  now apply name_by_mac_first.
Qed.

Lemma default_gateway_interface_witness :
  Platform.default_gateway
    (Platform.mk (Some ("192.168.0.1", "{A1}")%string)
       (fun _ => [ (Platform.AF_LINK, ["aa:bb:cc:dd:ee:ff"%string]);
                   (Platform.AF_INET, ["192.168.0.10"%string]) ])
       [ ("Loopback"%string, [(Platform.AF_INET, "127.0.0.1"%string)]);
         ("Ethernet"%string,
          [(Platform.AF_LINK, "AA-BB-CC-DD-EE-FF"%string)]) ])
  = Some (NetworkInterface.gateway_ipv4_address
            (NetworkInterface.mk "{A1}" "Ethernet" "AA-BB-CC-DD-EE-FF"
               "192.168.0.10" "192.168.0.1"),
          NetworkInterface.id
            (NetworkInterface.mk "{A1}" "Ethernet" "AA-BB-CC-DD-EE-FF"
               "192.168.0.10" "192.168.0.1")).
Proof.
  apply (default_gateway_interface
           (Platform.mk (Some ("192.168.0.1", "{A1}")%string)
              (fun _ => [ (Platform.AF_LINK, ["aa:bb:cc:dd:ee:ff"%string]);
                          (Platform.AF_INET, ["192.168.0.10"%string]) ])
              [ ("Loopback"%string, [(Platform.AF_INET, "127.0.0.1"%string)]);
                ("Ethernet"%string,
                 [(Platform.AF_LINK, "AA-BB-CC-DD-EE-FF"%string)]) ])
           (NetworkInterface.mk "{A1}" "Ethernet" "AA-BB-CC-DD-EE-FF"
              "192.168.0.10" "192.168.0.1")).
  vm_compute. reflexivity.
Defined.

(** ** ICMPTest.run *)

Lemma numbered_cons (first : Z) (n : nat) :
  ICMPRun.numbered first (S n) = first :: ICMPRun.numbered (first + 1) n.
Proof.
  unfold ICMPRun.numbered. cbn [seq map]. f_equal; [lia|].
  rewrite <- seq_shift, map_map. apply map_ext. intros k. lia.
Qed.

Lemma numbered_snoc (first : Z) (n : nat) :
  ICMPRun.numbered first (S n)
  = ICMPRun.numbered first n ++ [first + Z.of_nat n].
Proof.
  unfold ICMPRun.numbered. rewrite seq_S, map_app. reflexivity.
Qed.

Lemma sequences_app (xs ys : list ICMPRun.action) :
  ICMPRun.sequences (xs ++ ys)
  = ICMPRun.sequences xs ++ ICMPRun.sequences ys.
Proof. unfold ICMPRun.sequences. apply flat_map_app. Qed.

(** The loop over a run of answered turns feeds the accumulator one
    [update] per turn, numbers the requests from [count] and goes on with
    the rest of the turns. *)
Lemma loop_answered_prefix (address : string) (before : list ICMPRun.turn) :
  forall (self : ICMPRun.t) (r : RTTData.t) (count : Z)
         (rest : list ICMPRun.turn),
    RTTData.populated r ->
    ICMPRun.running self = true ->
    forallb ICMPRun.answered before = true ->
    exists r' pre,
      RTTData.updates r (map ICMPRun.call before) = Ok r'
      /\ RTTData.populated r'
      /\ ICMPRun.sequences pre
         = ICMPRun.numbered count (List.length before)
      /\ filter ICMPRun.is_error pre = []
      /\ (count = 0 ->
          List.length (filter ICMPRun.is_sleep pre)
          = if (0 <? ICMPRun.interval self)%float
            then Nat.pred (List.length before) else 0%nat)
      /\ (0 < count ->
          List.length (filter ICMPRun.is_sleep pre)
          = if (0 <? ICMPRun.interval self)%float
            then List.length before else 0%nat)
      /\ ICMPRun.loop address self r count (before ++ rest)
         = (x <- ICMPRun.loop address self r'
                   (count + Z.of_nat (List.length before)) rest ;;
            let '(s, actions, e) := x in Ok (s, pre ++ actions, e)).
Proof.
  induction before as [|u before IH]; intros self r count rest Hp Hr Hq.
  - exists r, []. cbn [map RTTData.updates List.length app].
    repeat split; auto.
    + intros _. destruct (0 <? ICMPRun.interval self)%float; reflexivity.
    + intros _. destruct (0 <? ICMPRun.interval self)%float; reflexivity.
    + replace (count + Z.of_nat 0) with count by lia.
      destruct (ICMPRun.loop address self r count rest) as [[[s a] e]|e];
        reflexivity.
  - cbn [forallb] in Hq. apply andb_prop in Hq. destruct Hq as [Hu Hq].
    unfold ICMPRun.answered in Hu. apply andb_prop in Hu.
    destruct Hu as [Hs Ho]. apply negb_true_iff in Hs.
    destruct (update_populated r (ICMPRun.call u) Hp)
      as (r1 & Hup & Hp1 & _).
    destruct (IH self r1 (count + 1) rest Hp1 Hr Hq)
      as (r' & pre & Hrun & Hp' & Hseq & Herr & Hs0 & Hs1 & Hloop).
    set (sleep := if (0 <? count) && (0 <? ICMPRun.interval self)%float
                  then [ICMPRun.Sleep (ICMPRun.interval self)] else []).
    exists r',
      (sleep ++ ICMPRun.Request address count
             :: ICMPRun.OnUpdate r1
                  (match ICMPRun.outcome u with
                   | ICMPRun.Replied _ => false
                   | _ => true
                   end) :: pre).
    assert (Hsl : ICMPRun.sequences sleep = []
                  /\ filter ICMPRun.is_error sleep = []).
    { unfold sleep.
      destruct ((0 <? count) && (0 <? ICMPRun.interval self)%float);
        split; reflexivity. }
    destruct Hsl as [Hsl1 Hsl2].
    split.
    { cbn [map RTTData.updates]. rewrite Hup. cbn [bind]. exact Hrun. }
    split; [exact Hp'|].
    split.
    { rewrite sequences_app, Hsl1. cbn [app List.length].
      rewrite numbered_cons. unfold ICMPRun.sequences at 1.
      cbn [flat_map app]. f_equal. exact Hseq. }
    split.
    { rewrite filter_app, Hsl2. cbn [app filter ICMPRun.is_error].
      exact Herr. }
    split.
    { intros H0. subst count. unfold sleep.
      cbn [Z.ltb Z.compare andb app filter ICMPRun.is_sleep List.length].
      rewrite Hs1 by lia.
      destruct (0 <? ICMPRun.interval self)%float; reflexivity. }
    split.
    { intros H0. unfold sleep.
      assert (Hlt : (0 <? count) = true) by (apply Z.ltb_lt; exact H0).
      rewrite Hlt. cbn [andb]. rewrite filter_app, length_app.
      cbn [filter ICMPRun.is_sleep List.length].
      rewrite Hs1 by lia.
      destruct (0 <? ICMPRun.interval self)%float; reflexivity. }
    cbn [app ICMPRun.loop]. rewrite Hs, Hr.
    replace (count + Z.of_nat (List.length (u :: before)))
      with (count + 1 + Z.of_nat (List.length before))
      by (cbn [List.length]; lia).
    fold sleep.
    unfold ICMPRun.call in Hup.
    destruct (ICMPRun.outcome u) as [rtt| |]; [| |discriminate Ho].
    + rewrite Hup. cbn [bind]. rewrite Hloop.
      destruct (ICMPRun.loop address self r'
                  (count + 1 + Z.of_nat (List.length before)) rest)
        as [[[s a] e]|e]; cbn [bind]; [|reflexivity].
      rewrite <- app_assoc. reflexivity.
    + rewrite Hup. cbn [bind]. rewrite Hloop.
      destruct (ICMPRun.loop address self r'
                  (count + 1 + Z.of_nat (List.length before)) rest)
        as [[[s a] e]|e]; cbn [bind]; [|reflexivity].
      rewrite <- app_assoc. reflexivity.
Qed.

(** X25: while [stop] is not called and every request is answered or
    times out, [ICMPTest.run] stays in its loop with the flag set: the
    accumulator it publishes is [RTTData(address)] updated once per request,
    in order; the requests carry the sequence numbers 0, 1, 2, ...; no
    error is reported; and the number of sleeps is one less than the
    number of requests when the interval is positive (there is none before
    the first request) and zero when it is not. *)
Theorem icmp_run_numbers_requests (self : ICMPRun.t) (is_hostname : bool)
    (resolved : option string) (address : string)
    (turns : list ICMPRun.turn) :
  ICMPRun.address_of self is_hostname resolved = Some address ->
  forallb ICMPRun.answered turns = true ->
  exists self' actions r,
    ICMPRun.run self is_hostname resolved true turns
    = Ok (self', actions, ICMPRun.Looping)
    /\ ICMPRun.running self' = true
    /\ ICMPRun.rtt_data self' = Some r
    /\ RTTData.updates (RTTData.init address) (map ICMPRun.call turns) = Ok r
    /\ ICMPRun.sequences actions
       = ICMPRun.numbered 0 (List.length turns)
    /\ filter ICMPRun.is_error actions = []
    /\ List.length (filter ICMPRun.is_sleep actions)
       = if (0 <? ICMPRun.interval self)%float
         then Nat.pred (List.length turns) else 0%nat.
Proof.
  intros Ha Hq. unfold ICMPRun.run. unfold ICMPRun.address_of in Ha.
  cbn [ICMPRun.host]. rewrite Ha.
  set (s := ICMPRun.mk (ICMPRun.host self) (ICMPRun.rtt_data self)
              (ICMPRun.interval self) (ICMPRun.timeout self) true).
  destruct (loop_answered_prefix address turns s (RTTData.init address) 0 []
              (init_populated address) eq_refl Hq)
    as (r & pre & Hrun & _ & Hseq & Herr & Hs0 & _ & Hloop).
  rewrite app_nil_r in Hloop. rewrite Hloop.
  cbn [ICMPRun.loop bind]. rewrite app_nil_r.
  eexists _, pre, r. split; [reflexivity|].
  cbn [ICMPRun.running ICMPRun.rtt_data].
  repeat split; auto.
Qed.

Lemma icmp_run_numbers_requests_witness :
  exists self' actions r,
    ICMPRun.run (ICMPRun.init "8.8.8.8" 1 2) false None true
      [ICMPRun.mk_turn false (ICMPRun.Replied 20);
       ICMPRun.mk_turn false ICMPRun.TimedOut;
       ICMPRun.mk_turn false (ICMPRun.Replied 30)]
    = Ok (self', actions, ICMPRun.Looping)
    /\ ICMPRun.running self' = true
    /\ ICMPRun.rtt_data self' = Some r
    /\ RTTData.updates (RTTData.init "8.8.8.8")
         [Some 20%float; None; Some 30%float] = Ok r
    /\ ICMPRun.sequences actions = [0; 1; 2]
    /\ filter ICMPRun.is_error actions = []
    /\ List.length (filter ICMPRun.is_sleep actions) = 2%nat.
Proof.
  exact (icmp_run_numbers_requests (ICMPRun.init "8.8.8.8" 1 2) false None
           "8.8.8.8"
           [ICMPRun.mk_turn false (ICMPRun.Replied 20);
            ICMPRun.mk_turn false ICMPRun.TimedOut;
            ICMPRun.mk_turn false (ICMPRun.Replied 30)]
           eq_refl eq_refl).
Defined.

(** X26: the first request that fails with an [ICMPLibError] other than a
    timeout ends [ICMPTest.run]: the flag is cleared, [on_error] is called
    once, as the last action, and the exception leaves [run].  The failed
    request was numbered like the others, but it is not counted by the
    accumulator, which holds the updates of the requests before it; what
    would have come after it does not matter. *)
Theorem icmp_run_error_ends_run (self : ICMPRun.t) (is_hostname : bool)
    (resolved : option string) (address : string)
    (before after : list ICMPRun.turn) :
  ICMPRun.address_of self is_hostname resolved = Some address ->
  forallb ICMPRun.answered before = true ->
  exists self' pre r,
    ICMPRun.run self is_hostname resolved true
      (before ++ ICMPRun.mk_turn false ICMPRun.Failed :: after)
    = Ok (self', pre ++ [ICMPRun.OnError], ICMPRun.Raised)
    /\ ICMPRun.running self' = false
    /\ ICMPRun.rtt_data self' = Some r
    /\ RTTData.updates (RTTData.init address) (map ICMPRun.call before)
       = Ok r
    /\ ICMPRun.sequences pre
       = ICMPRun.numbered 0 (S (List.length before))
    /\ filter ICMPRun.is_error pre = [].
Proof.
  intros Ha Hq. unfold ICMPRun.run. unfold ICMPRun.address_of in Ha.
  cbn [ICMPRun.host]. rewrite Ha.
  set (s := ICMPRun.mk (ICMPRun.host self) (ICMPRun.rtt_data self)
              (ICMPRun.interval self) (ICMPRun.timeout self) true).
  destruct (loop_answered_prefix address before s (RTTData.init address) 0
              (ICMPRun.mk_turn false ICMPRun.Failed :: after)
              (init_populated address) eq_refl Hq)
    as (r & pre & Hrun & _ & Hseq & Herr & _ & _ & Hloop).
  rewrite Hloop.
  cbn [ICMPRun.loop ICMPRun.stop_called ICMPRun.outcome ICMPRun.running s
       bind].
  set (sleep := if (0 <? 0 + Z.of_nat (List.length before))
                   && (0 <? ICMPRun.interval s)%float
                then [ICMPRun.Sleep (ICMPRun.interval s)] else []).
  assert (Hsl : ICMPRun.sequences sleep = []
                /\ filter ICMPRun.is_error sleep = []).
  { unfold sleep.
    destruct ((0 <? 0 + Z.of_nat (List.length before))
              && (0 <? ICMPRun.interval s)%float); split; reflexivity. }
  destruct Hsl as [Hsl1 Hsl2].
  eexists _,
    (pre ++ sleep
         ++ [ICMPRun.Request address (0 + Z.of_nat (List.length before))]),
    r.
  split.
  { do 2 f_equal. f_equal. rewrite <- !app_assoc. reflexivity. }
  cbn [ICMPRun.running ICMPRun.rtt_data].
  repeat split; auto.
  - rewrite !sequences_app, Hseq, Hsl1, numbered_snoc. reflexivity.
  - rewrite !filter_app, Herr, Hsl2. reflexivity.
Qed.

Lemma icmp_run_error_ends_run_witness :
  exists self' pre r,
    ICMPRun.run (ICMPRun.init "8.8.8.8" 1 2) false None true
      ([ICMPRun.mk_turn false (ICMPRun.Replied 20)]
         ++ ICMPRun.mk_turn false ICMPRun.Failed
         :: [ICMPRun.mk_turn false (ICMPRun.Replied 30)])
    = Ok (self', pre ++ [ICMPRun.OnError], ICMPRun.Raised)
    /\ ICMPRun.running self' = false
    /\ ICMPRun.rtt_data self' = Some r
    /\ RTTData.updates (RTTData.init "8.8.8.8") [Some 20%float] = Ok r
    /\ ICMPRun.sequences pre = [0; 1]
    /\ filter ICMPRun.is_error pre = [].
Proof.
  exact (icmp_run_error_ends_run (ICMPRun.init "8.8.8.8" 1 2) false None
           "8.8.8.8"
           [ICMPRun.mk_turn false (ICMPRun.Replied 20)]
           [ICMPRun.mk_turn false (ICMPRun.Replied 30)]
           eq_refl eq_refl).
Defined.

(** X27: once [stop] has been called, the loop test of [ICMPTest.run]
    fails at the next turn: no further request is sent, whatever the
    network would have answered, no error is reported, the flag stays
    cleared, and the accumulator holds the updates of the requests made
    until then. *)
Theorem icmp_run_stop_ends_loop (self : ICMPRun.t) (is_hostname : bool)
    (resolved : option string) (address : string)
    (before after : list ICMPRun.turn) (o : ICMPRun.reply) :
  ICMPRun.address_of self is_hostname resolved = Some address ->
  forallb ICMPRun.answered before = true ->
  exists self' actions r,
    ICMPRun.run self is_hostname resolved true
      (before ++ ICMPRun.mk_turn true o :: after)
    = Ok (self', actions, ICMPRun.Stopped)
    /\ ICMPRun.running self' = false
    /\ ICMPRun.rtt_data self' = Some r
    /\ RTTData.updates (RTTData.init address) (map ICMPRun.call before)
       = Ok r
    /\ ICMPRun.sequences actions
       = ICMPRun.numbered 0 (List.length before)
    /\ filter ICMPRun.is_error actions = [].
Proof.
  intros Ha Hq. unfold ICMPRun.run. unfold ICMPRun.address_of in Ha.
  cbn [ICMPRun.host]. rewrite Ha.
  set (s := ICMPRun.mk (ICMPRun.host self) (ICMPRun.rtt_data self)
              (ICMPRun.interval self) (ICMPRun.timeout self) true).
  destruct (loop_answered_prefix address before s (RTTData.init address) 0
              (ICMPRun.mk_turn true o :: after)
              (init_populated address) eq_refl Hq)
    as (r & pre & Hrun & _ & Hseq & Herr & _ & _ & Hloop).
  rewrite Hloop.
  cbn [ICMPRun.loop ICMPRun.stop_called ICMPRun.running bind].
  rewrite app_nil_r.
  eexists _, pre, r. split; [reflexivity|].
  cbn [ICMPRun.running ICMPRun.rtt_data].
  repeat split; auto.
Qed.

Lemma icmp_run_stop_ends_loop_witness :
  exists self' actions r,
    ICMPRun.run (ICMPRun.init "8.8.8.8" 1 2) false None true
      ([ICMPRun.mk_turn false (ICMPRun.Replied 20)]
         ++ ICMPRun.mk_turn true (ICMPRun.Replied 25)
         :: [ICMPRun.mk_turn false (ICMPRun.Replied 30)])
    = Ok (self', actions, ICMPRun.Stopped)
    /\ ICMPRun.running self' = false
    /\ ICMPRun.rtt_data self' = Some r
    /\ RTTData.updates (RTTData.init "8.8.8.8") [Some 20%float] = Ok r
    /\ ICMPRun.sequences actions = [0]
    /\ filter ICMPRun.is_error actions = [].
Proof.
  exact (icmp_run_stop_ends_loop (ICMPRun.init "8.8.8.8" 1 2) false None
           "8.8.8.8"
           [ICMPRun.mk_turn false (ICMPRun.Replied 20)]
           [ICMPRun.mk_turn false (ICMPRun.Replied 30)]
           (ICMPRun.Replied 25)
           eq_refl eq_refl).
Defined.
